(** * Chronic-Disease-Monitoring: the risk pipeline, embedded and verified

    A shallow embedding of [scripts/load_data.py], [scripts/process_patients.py],
    [scripts/risk_scoring.py] and [scripts/generate_report.py].

    Conventions of the embedding.
    - A Python exception is a value [Raise e] of the [result] type; a call
      that returns is [Ok v].
    - A pandas DataFrame is a [DataFrame R]: either the frame without any
      column that [pd.DataFrame([])] builds, or a list of rows of the record
      type [R] (one field per column).  A missing cell (NaN / None) is [None].
    - Text is a [string] of 8-bit characters; [str.lower] and the string order
      are those of the ASCII range.
    - A JSON number is the rational it denotes; the two thresholds 6.5 and 240
      are exact in binary floating point, so the comparisons are exact.
    - A float that the code computes (the two percentages of the summary) is
      an IEEE 754 binary64 number: a [spec_float] of the Standard Library,
      whose operations round to nearest, ties to even, as Python's do.
    - [datetime.now()] is the argument [today] of the functions that read it.
    - The tables that the enricher and the scoring take are typed: their text
      columns hold strings, the [value] column numbers or nulls.  The
      normaliser produces cells of any JSON type; [typed] reads its tables
      as typed ones when they are. *)

From Stdlib Require Import List String Ascii Bool Arith ZArith QArith Lia.
From Stdlib Require Import Sorted OrderedTypeEx Permutation SpecFloat.
Import ListNotations.
Local Open Scope string_scope.
Local Open Scope list_scope.

(** ** Exceptions and results *)

Inductive exn : Type :=
| KeyError (key : string)
| IndexError
| AttributeError (attr : string)
| TypeError.

Inductive result (A : Type) : Type :=
| Ok (a : A)
| Raise (e : exn).
Arguments Ok {A} a.
Arguments Raise {A} e.

Definition bind {A B : Type} (r : result A) (k : A -> result B) : result B :=
  match r with
  | Ok a => k a
  | Raise e => Raise e
  end.

Notation "x <- c1 ;; c2" := (bind c1 (fun x => c2))
  (at level 61, c1 at next level, right associativity).

Definition raises {A : Type} (r : result A) : Prop :=
  exists e, r = Raise e.

Fixpoint mapM {A B : Type} (f : A -> result B) (l : list A) : result (list B) :=
  match l with
  | [] => Ok []
  | x :: l' =>
      y <- f x ;;
      ys <- mapM f l' ;;
      Ok (y :: ys)
  end.

(** ** Data frames *)

Inductive DataFrame (R : Type) : Type :=
| NoColumns
| Frame (rows : list R).
Arguments NoColumns {R}.
Arguments Frame {R} rows.

(** [pd.DataFrame(records)] for a list of dicts that all have the same keys:
    an empty list gives a frame that has no column at all. *)
Definition pd_DataFrame {R : Type} (records : list R) : DataFrame R :=
  match records with
  | [] => NoColumns
  | _ :: _ => Frame records
  end.

(** [df[name]]: the rows when the column exists, [KeyError] otherwise. *)
Definition column {R : Type} (name : string) (df : DataFrame R) : result (list R) :=
  match df with
  | NoColumns => Raise (KeyError name)
  | Frame rows => Ok rows
  end.

(** First non-null entry of a column, as [GroupBy.first] computes it. *)
Fixpoint first_valid {A : Type} (l : list (option A)) : option A :=
  match l with
  | [] => None
  | Some a :: _ => Some a
  | None :: l' => first_valid l'
  end.

(** [Series.unique()]: the distinct values in order of first appearance. *)
Fixpoint unique (seen : list string) (l : list string) : list string :=
  match l with
  | [] => []
  | x :: l' =>
      if existsb (String.eqb x) seen then unique seen l'
      else x :: unique (x :: seen) l'
  end.

Fixpoint insert_string (x : string) (l : list string) : list string :=
  match l with
  | [] => [x]
  | y :: l' => if String.ltb y x then y :: insert_string x l' else x :: l
  end.

Definition sort_strings (l : list string) : list string :=
  fold_right insert_string [] l.

(** ** Normalised tables (the columns that [load_data] produces) *)

Module Patient.
Record t : Type := make {
    patient_id : string;
    full_name : string;
    family_name : string;
    given_name : string;
    gender : string;
    birthdate : string;
    city : string;
    state : string;
    postal_code : string
  }.
End Patient.

Module Observation.
Record t : Type := make {
    observation_id : string;
    status : string;
    code : string;
    value : option Q;
    unit : string;
    date : string;
    patient_id : string
  }.
End Observation.

(** ** process_patients.py *)

Record Date : Type := mkDate { year : Z; month : Z; day : Z }.

Definition is_digit (c : ascii) : bool :=
  (48 <=? nat_of_ascii c)%nat && (nat_of_ascii c <=? 57)%nat.

Definition digit (c : ascii) : Z := Z.of_nat (nat_of_ascii c) - 48.

Definition in_range (lo hi : Z) (c : ascii) : bool :=
  is_digit c && (lo <=? digit c)%Z && (digit c <=? hi)%Z.

Definition is_leap (y : Z) : bool :=
  ((y mod 4 =? 0) && negb (y mod 100 =? 0) || (y mod 400 =? 0))%Z.

Definition days_in_month (y m : Z) : Z :=
  if (m =? 2)%Z then (if is_leap y then 29 else 28)
  else if ((m =? 4) || (m =? 6) || (m =? 9) || (m =? 11))%Z then 30
  else 31.

(** The last alternative of the month pattern: one digit, then the literal [-]. *)
Definition one_digit_month (a : ascii) (rest : string) : option (Z * string) :=
  match rest with
  | String "-" rest' => if in_range 1 9 a then Some (digit a, rest') else None
  | _ => None
  end.

(** The month directive [%m], pattern [1[0-2]|0[1-9]|[1-9]], followed by the
    literal [-]: the month and the rest of the text.  The alternatives are
    tried in this order, the next one when the match cannot go on. *)
Definition parse_month (s : string) : option (Z * string) :=
  match s with
  | String a rest =>
      match rest with
      | String b (String "-" rest') =>
          if (Ascii.eqb a "1" && in_range 0 2 b) || (Ascii.eqb a "0" && in_range 1 9 b)
          then Some (10 * digit a + digit b, rest')%Z
          else one_digit_month a rest
      | _ => one_digit_month a rest
      end
  | EmptyString => None
  end.

(** The day directive [%d], pattern [3[0-1]|[1-2]\d|0[1-9]|[1-9]| [1-9]], which
    has to reach the end of the text (otherwise: unconverted data remains). *)
Definition parse_day (s : string) : option Z :=
  match s with
  | String a (String b EmptyString) =>
      if (Ascii.eqb a "3" && in_range 0 1 b) || (in_range 1 2 a && is_digit b)
         || (Ascii.eqb a "0" && in_range 1 9 b)
      then Some (10 * digit a + digit b)%Z
      else if Ascii.eqb a " " && in_range 1 9 b then Some (digit b)
      else None
  | String a EmptyString => if in_range 1 9 a then Some (digit a) else None
  | _ => None
  end.

(** [datetime.strptime(s, '%Y-%m-%d')]; [None] stands for its [ValueError]. *)
Definition strptime (s : string) : option Date :=
  match s with
  | String y1 (String y2 (String y3 (String y4 (String "-" rest)))) =>
      if is_digit y1 && is_digit y2 && is_digit y3 && is_digit y4 then
        let y := (1000 * digit y1 + 100 * digit y2 + 10 * digit y3 + digit y4)%Z in
        match parse_month rest with
        | Some (m, rest') =>
            match parse_day rest' with
            | Some d =>
                if (1 <=? y)%Z && (d <=? days_in_month y m)%Z
                then Some (mkDate y m d) else None
            | None => None
            end
        | None => None
        end
      else None
  | _ => None
  end.

(** [(a1, a2) < (b1, b2)] on tuples of integers. *)
Definition pair_ltb (a1 a2 b1 b2 : Z) : bool :=
  ((a1 <? b1) || ((a1 =? b1) && (a2 <? b2)))%Z.

Definition calculate_age (today : Date) (birthdate : string) : option Z :=
  if String.eqb birthdate "" then None
  else
    match strptime birthdate with
    | Some birth_date =>
        Some (year today - year birth_date
              - (if pair_ltb (month today) (day today) (month birth_date) (day birth_date)
                 then 1 else 0))%Z
    | None => None
    end.

Definition bins : list Z := [0; 18; 35; 50; 65; 120]%Z.
Definition labels : list string := ["0-18"; "19-35"; "36-50"; "51-65"; "65+"].

(** [pd.cut(x, bins, labels, right=False)] at one value: the label of the
    interval [bins[i] <= x < bins[i+1]], missing when [x] is in none. *)
Fixpoint cut (bins : list Z) (labels : list string) (x : Z) : option string :=
  match bins, labels with
  | lo :: ((hi :: _) as bins'), l :: labels' =>
      if ((lo <=? x) && (x <? hi))%Z then Some l else cut bins' labels' x
  | _, _ => None
  end.

Module Enriched.
Record t : Type := make {
    patient : Patient.t;
    age : option Z;
    age_group : option string
  }.
Definition patient_id (r : t) : string := Patient.patient_id (patient r).
End Enriched.

Definition is_none {A : Type} (o : option A) : bool :=
  match o with None => true | Some _ => false end.

(** When no birthdate of a non-empty table parses, the [age] column holds
    only [None] and keeps the object dtype; the bin search of [pd.cut] then
    compares [None] with the integer edges, a [TypeError].  With at least one
    parsed birthdate the column is numeric and the missing ages are NaN. *)
Definition enrich_patient_data (today : Date) (patients_df : DataFrame Patient.t)
  : result (DataFrame Enriched.t) :=
  rows <- column "birthdate" patients_df ;;
  let ages := map (fun p => calculate_age today (Patient.birthdate p)) rows in
  match rows with
  | _ :: _ =>
      if forallb is_none ages then Raise TypeError
      else Ok (Frame (map (fun p =>
                 let a := calculate_age today (Patient.birthdate p) in
                 Enriched.make p a (match a with Some x => cut bins labels x | None => None end))
               rows))
  | [] => Ok (Frame [])
  end.

(** ** risk_scoring.py *)

Definition DIABETES_HBA1C_THRESHOLD : Q := 13 # 2.
Definition CARDIOVASCULAR_CHOLESTEROL_THRESHOLD : Q := 240 # 1.

Definition lower_ascii (c : ascii) : ascii :=
  let n := nat_of_ascii c in
  if (65 <=? n)%nat && (n <=? 90)%nat then ascii_of_nat (n + 32) else c.

(** [str.lower()] *)
Fixpoint lower (s : string) : string :=
  match s with
  | EmptyString => EmptyString
  | String c s' => String (lower_ascii c) (lower s')
  end.

(** One resolved lab series: a row of [groupby('patient_id').first()] cut down
    to the key, the value and the date. *)
Module Latest.
Record t : Type := make {
    patient_id : string;
    value : option Q;
    date : option string
  }.
End Latest.

Module LabRow.
Record t : Type := make {
    patient_id : string;
    hba1c_value : option Q;
    hba1c_date : option string;
    cholesterol_value : option Q;
    cholesterol_date : option string
  }.
End LabRow.

(** The order of [sort_values(['patient_id', 'date'], ascending=[True, False])]:
    [a] goes strictly before [b]. *)
Definition sorts_before (a b : Observation.t) : bool :=
  match String.compare (Observation.patient_id a) (Observation.patient_id b) with
  | Lt => true
  | Gt => false
  | Eq => String.ltb (Observation.date b) (Observation.date a)
  end.

(** The sort is stable: rows that compare equal keep their input order. *)
Fixpoint insert_obs (x : Observation.t) (l : list Observation.t) : list Observation.t :=
  match l with
  | [] => [x]
  | y :: l' => if sorts_before y x then y :: insert_obs x l' else x :: l
  end.

Definition sort_values (l : list Observation.t) : list Observation.t :=
  fold_right insert_obs [] l.

(** [.groupby('patient_id').first().reset_index()]: one row per key, keys in
    ascending order (the rows come in sorted by key), and in every column the
    first entry of the group that is not null. *)
Definition groupby_first (rows : list Observation.t) : list Latest.t :=
  map (fun k =>
         let group := filter (fun o => String.eqb (Observation.patient_id o) k) rows in
         Latest.make k
           (first_valid (map Observation.value group))
           (first_valid (map (fun o => Some (Observation.date o)) group)))
      (sort_strings (unique [] (map Observation.patient_id rows))).

Definition latest_of (test_name : string) (observations : list Observation.t) : list Latest.t :=
  groupby_first
    (sort_values
       (filter (fun o => String.eqb (lower (Observation.code o)) test_name) observations)).

Definition lookup_latest (k : string) (l : list Latest.t) : option Latest.t :=
  find (fun r => String.eqb (Latest.patient_id r) k) l.

(** [pd.merge(left, right, on='patient_id', how='outer')] of two series with
    unique keys: the union of the keys, sorted. *)
Definition merge_outer (left right : list Latest.t) : list LabRow.t :=
  map (fun k =>
         let h := lookup_latest k left in
         let c := lookup_latest k right in
         LabRow.make k
           (match h with Some r => Latest.value r | None => None end)
           (match h with Some r => Latest.date r | None => None end)
           (match c with Some r => Latest.value r | None => None end)
           (match c with Some r => Latest.date r | None => None end))
      (sort_strings (unique [] (map Latest.patient_id left ++ map Latest.patient_id right))).

Definition get_latest_lab_values (observations_df : DataFrame Observation.t)
  : result (DataFrame LabRow.t) :=
  rows <- column "code" observations_df ;;
  let latest_hba1c := latest_of "hemoglobin a1c" rows in
  let latest_cholesterol := latest_of "cholesterol" rows in
  Ok (Frame (merge_outer latest_hba1c latest_cholesterol)).

(** [series >= threshold]: a missing value compares false. *)
Definition ge_threshold (v : option Q) (threshold : Q) : bool :=
  match v with
  | Some q => Qle_bool threshold q
  | None => false
  end.

(** Each rule returns the rows with the new flag column next to them. *)
Definition apply_diabetes_risk_rule (latest_labs_df : DataFrame LabRow.t)
  : result (DataFrame (LabRow.t * bool)) :=
  rows <- column "hba1c_value" latest_labs_df ;;
  Ok (Frame (map (fun r => (r, ge_threshold (LabRow.hba1c_value r) DIABETES_HBA1C_THRESHOLD))
                 rows)).

Definition apply_cardiovascular_risk_rule (latest_labs_df : DataFrame (LabRow.t * bool))
  : result (DataFrame (LabRow.t * bool * bool)) :=
  rows <- column "cholesterol_value" latest_labs_df ;;
  Ok (Frame (map (fun r => (r, ge_threshold (LabRow.cholesterol_value (fst r))
                                            CARDIOVASCULAR_CHOLESTEROL_THRESHOLD))
                 rows)).

Module RiskRow.
Record t : Type := make {
    labs : LabRow.t;
    diabetes_risk : bool;
    cardiovascular_risk : bool;
    risk_score : Z;
    risk_category : option string;
    risk_reasons : string
  }.
Definition patient_id (r : t) : string := LabRow.patient_id (labs r).
End RiskRow.

Definition risk_categories : list (Z * string) :=
  [(0, "Low Risk"); (1, "Moderate Risk"); (2, "High Risk")]%Z.

(** [Series.map(dict)]: a key that the dict lacks maps to a missing value. *)
Fixpoint map_dict (d : list (Z * string)) (k : Z) : option string :=
  match d with
  | [] => None
  | (k', v) :: d' => if (k =? k')%Z then Some v else map_dict d' k
  end.

Definition mem_ascii (c : ascii) (chars : string) : bool :=
  existsb (Ascii.eqb c) (list_ascii_of_string chars).

(** [str.rstrip(chars)]: drops the longest suffix made of characters of [chars]. *)
Fixpoint rstrip (chars : string) (s : string) : string :=
  match s with
  | EmptyString => EmptyString
  | String c s' =>
      match rstrip chars s' with
      | EmptyString => if mem_ascii c chars then EmptyString else String c EmptyString
      | t => String c t
      end
  end.

Definition DIABETES_REASON : string := "Diabetes Risk (HbA1c >= 6.5)".
Definition CARDIOVASCULAR_REASON : string := "Cardiovascular Risk (Cholesterol >= 240)".

Definition calculate_combined_risk (risk_df : DataFrame (LabRow.t * bool * bool))
  : result (DataFrame RiskRow.t) :=
  rows <- column "diabetes_risk" risk_df ;;
  Ok (Frame (map (fun r : LabRow.t * bool * bool =>
         let '(l, diabetes_risk, cardiovascular_risk) := r in
         let risk_score := 0%Z in
         let risk_score := if diabetes_risk then (risk_score + 1)%Z else risk_score in
         let risk_score := if cardiovascular_risk then (risk_score + 1)%Z else risk_score in
         let risk_reasons := ""%string in
         let risk_reasons :=
           if diabetes_risk then (risk_reasons ++ DIABETES_REASON ++ "; ")%string
           else risk_reasons in
         let risk_reasons :=
           if cardiovascular_risk then (risk_reasons ++ CARDIOVASCULAR_REASON ++ "; ")%string
           else risk_reasons in
         RiskRow.make l diabetes_risk cardiovascular_risk risk_score
           (map_dict risk_categories risk_score)
           (rstrip "; " risk_reasons))
       rows)).

(** A row of [patients_with_risks_df]: the enriched patient and, from the left
    join, the risk columns; [risk = None] stands for a row in which every
    column that comes from [risk_df] is missing. *)
Module Scored.
Record t : Type := make {
    patient : Enriched.t;
    risk : option RiskRow.t
  }.
Definition diabetes_risk (r : t) : option bool :=
    option_map RiskRow.diabetes_risk (risk r).
Definition cardiovascular_risk (r : t) : option bool :=
    option_map RiskRow.cardiovascular_risk (risk r).
Definition risk_score (r : t) : option Z :=
    option_map RiskRow.risk_score (risk r).
Definition risk_category (r : t) : option string :=
    match risk r with
    | Some rr => RiskRow.risk_category rr
    | None => None
    end.
Definition risk_reasons (r : t) : option string :=
    option_map RiskRow.risk_reasons (risk r).
End Scored.

(** [pd.merge(left, right, on='patient_id', how='left')] where the keys of
    [right] are unique: every left row once, in the order of [left]. *)
Definition merge_left (left : DataFrame Enriched.t) (right : DataFrame RiskRow.t)
  : result (DataFrame Scored.t) :=
  l <- column "patient_id" left ;;
  r <- column "patient_id" right ;;
  Ok (Frame (map (fun p =>
                    Scored.make p
                      (find (fun rr => String.eqb (RiskRow.patient_id rr) (Enriched.patient_id p)) r))
                 l)).

(** A Python float: an IEEE 754 binary64 number (53 bits of precision,
    exponents below 1024). *)
Definition pyfloat : Type := spec_float.

(** The conversion of an integer count to a float, exact below 2^53. *)
Definition float_of_nat (n : nat) : pyfloat :=
  binary_normalize 53 1024 (Z.of_nat n) 0 false.

(** [Series.sum()] of a flag column: the missing entries are skipped. *)
Definition sum_flags (col : list (option bool)) : nat :=
  List.length (filter (fun b => match b with Some true => true | _ => false end) col).

(** [(count / total) * 100], where [count] is the [sum()] of a flag column
    and [total] the [len()] of the table: the true division of the two
    integers, then the product with 100.0, each rounded to the nearest
    float.  Below 2^53 the two integers convert exactly, and the quotient is
    the correctly rounded one whether numpy or Python divides.  [count] is a
    numpy integer when [total] is zero: 0 / 0 is nan with a warning, not an
    exception. *)
Definition percentage (count total : nat) : pyfloat :=
  SFmul 53 1024 (SFdiv 53 1024 (float_of_nat count) (float_of_nat total)) (float_of_nat 100).

Fixpoint drop_missing {A : Type} (col : list (option A)) : list A :=
  match col with
  | [] => []
  | Some a :: col' => a :: drop_missing col'
  | None :: col' => drop_missing col'
  end.

Definition count_of (x : string) (l : list string) : nat :=
  List.length (filter (String.eqb x) l).

Fixpoint insert_count (x : string * nat) (l : list (string * nat)) : list (string * nat) :=
  match l with
  | [] => [x]
  | y :: l' => if (snd x <? snd y)%nat then y :: insert_count x l' else x :: l
  end.

(** [Series.value_counts().to_dict()]: missing entries dropped, one entry per
    distinct value, the larger counts first. *)
Definition value_counts (col : list (option string)) : list (string * nat) :=
  let values := drop_missing col in
  fold_right insert_count []
    (map (fun v => (v, count_of v values)) (unique [] values)).

Module RiskSummary.
Record t : Type := make {
    total_patients : nat;
    diabetes_risk_count : nat;
    cardiovascular_risk_count : nat;
    risk_category_counts : list (string * nat);
    diabetes_risk_percentage : pyfloat;
    cardiovascular_risk_percentage : pyfloat
  }.
End RiskSummary.

(** The body of [score_patient_risks] after the load: the two arguments are
    the patient and observation frames of [load_and_normalize_data]. *)
Definition score_patient_risks (today : Date)
    (patients_df : DataFrame Patient.t) (observations_df : DataFrame Observation.t)
  : result (DataFrame Scored.t * RiskSummary.t) :=
  enriched_patients_df <- enrich_patient_data today patients_df ;;
  latest_labs_df <- get_latest_lab_values observations_df ;;
  risk_df <- apply_diabetes_risk_rule latest_labs_df ;;
  risk_df <- apply_cardiovascular_risk_rule risk_df ;;
  risk_df <- calculate_combined_risk risk_df ;;
  patients_with_risks_df <- merge_left enriched_patients_df risk_df ;;
  rows <- column "diabetes_risk" patients_with_risks_df ;;
  let total := List.length rows in
  let diabetes := sum_flags (map Scored.diabetes_risk rows) in
  let cardiovascular := sum_flags (map Scored.cardiovascular_risk rows) in
  Ok (patients_with_risks_df,
      RiskSummary.make total diabetes cardiovascular
        (value_counts (map Scored.risk_category rows))
        (percentage diabetes total)
        (percentage cardiovascular total)).

(** ** generate_report.py *)

Definition score_gt_0 (r : Scored.t) : bool :=
  match Scored.risk_score r with
  | Some s => (0 <? s)%Z
  | None => false
  end.

Definition score_ltb (a b : Scored.t) : bool :=
  match Scored.risk_score a, Scored.risk_score b with
  | Some x, Some y => (x <? y)%Z
  | _, _ => false
  end.

Fixpoint insert_scored (x : Scored.t) (l : list Scored.t) : list Scored.t :=
  match l with
  | [] => [x]
  | y :: l' => if score_ltb x y then y :: insert_scored x l' else x :: l
  end.

(** [sort_values('risk_score', ascending=False)]; rows of equal score are
    kept in their input order here. *)
Definition sort_by_score_desc (l : list Scored.t) : list Scored.t :=
  fold_right insert_scored [] l.

Definition filter_high_risk_patients (patients_with_risks_df : DataFrame Scored.t)
  : result (DataFrame Scored.t) :=
  rows <- column "risk_score" patients_with_risks_df ;;
  let high_risk := filter score_gt_0 rows in
  Ok (Frame (sort_by_score_desc high_risk)).

(** [generate_reports] up to the files it writes: the filtered report and
    the summary. *)
Definition generate_reports (today : Date)
    (patients_df : DataFrame Patient.t) (observations_df : DataFrame Observation.t)
  : result (DataFrame Scored.t * RiskSummary.t) :=
  scored <- score_patient_risks today patients_df observations_df ;;
  high_risk_df <- filter_high_risk_patients (fst scored) ;;
  Ok (high_risk_df, snd scored).

(** ** load_data.py *)

(** The value that [json.load] returns.  A dict is the list of its items; a
    key is looked up at its first item. *)
#[warnings="-register-all"] Inductive json : Type :=
| JNull
| JBool (b : bool)
| JNum (q : Q)
| JStr (s : string)
| JArr (items : list json)
| JObj (fields : list (string * json)).

Fixpoint assoc (key : string) (fields : list (string * json)) : option json :=
  match fields with
  | [] => None
  | (k, v) :: fields' => if String.eqb k key then Some v else assoc key fields'
  end.

(** [d.get(key, default)]: only a dict has the method. *)
Definition dict_get (d : json) (key : string) (default : json) : result json :=
  match d with
  | JObj fields =>
      Ok (match assoc key fields with Some v => v | None => default end)
  | _ => Raise (AttributeError "get")
  end.

(** [x[0]] *)
Definition index0 (x : json) : result json :=
  match x with
  | JArr (v :: _) => Ok v
  | JArr [] => Raise IndexError
  | JStr (String c _) => Ok (JStr (String c EmptyString))
  | JStr EmptyString => Raise IndexError
  | JObj _ => Raise (KeyError "0")
  | JNull | JBool _ | JNum _ => Raise TypeError
  end.

(** The truth value of [x] in a condition. *)
Definition truthy (x : json) : bool :=
  match x with
  | JNull => false
  | JBool b => b
  | JNum q => negb (Qeq_bool q 0)
  | JStr s => negb (String.eqb s "")
  | JArr items => match items with [] => false | _ => true end
  | JObj fields => match fields with [] => false | _ => true end
  end.

(** The items that a [for] loop (or [str.join]) draws from [x]: the elements
    of a list, the characters of a string, the keys of a dict. *)
Definition iterate (x : json) : result (list json) :=
  match x with
  | JArr items => Ok items
  | JStr s => Ok (map (fun c => JStr (String c EmptyString)) (list_ascii_of_string s))
  | JObj fields => Ok (map (fun kv => JStr (fst kv)) fields)
  | JNull | JBool _ | JNum _ => Raise TypeError
  end.

Definition as_str (x : json) : result string :=
  match x with
  | JStr s => Ok s
  | _ => Raise TypeError
  end.

(** [sep.join(x)]: every item has to be a string. *)
Definition join (sep : string) (x : json) : result string :=
  items <- iterate x ;;
  strs <- mapM as_str items ;;
  Ok (String.concat sep strs).

(** [s.split(sep)] for a separator of one character. *)
Fixpoint split (sep : ascii) (s : string) : list string :=
  match s with
  | EmptyString => [EmptyString]
  | String c s' =>
      if Ascii.eqb c sep then EmptyString :: split sep s'
      else
        match split sep s' with
        | h :: t => String c h :: t
        | [] => [String c EmptyString]
        end
  end.

(** [patient_ref.split('/')[-1] if patient_ref else ''] *)
Definition patient_id_of_ref (patient_ref : json) : result string :=
  if truthy patient_ref then
    match patient_ref with
    | JStr s => Ok (last (split "/" s) EmptyString)
    | _ => Raise (AttributeError "split")
    end
  else Ok EmptyString.

Module PatientDict.
Record t : Type := make {
    patient_id : json;
    full_name : string;
    family_name : json;
    given_name : json;
    gender : json;
    birthdate : json;
    city : json;
    state : json;
    postal_code : json
  }.
End PatientDict.

Module ObservationDict.
Record t : Type := make {
    observation_id : json;
    status : json;
    code : json;
    value : json;
    unit : json;
    date : json;
    patient_id : string
  }.
End ObservationDict.

Module MedicationDict.
Record t : Type := make {
    medication_id : json;
    status : json;
    medication_name : json;
    date : json;
    patient_id : string
  }.
End MedicationDict.

Module AllergyDict.
Record t : Type := make {
    allergy_id : json;
    status : json;
    allergy_type : json;
    manifestation : json;
    patient_id : string
  }.
End AllergyDict.

Section Normalize.

  (** What an f-string writes for a value, [format(v, '')]: the text itself
      for a string. *)
Variable format : json -> string.

Definition normalize_patient (patient : json) : result PatientDict.t :=
    patient_id <- dict_get patient "id" (JStr "") ;;
    names <- dict_get patient "name" (JArr [JObj []]) ;;
    name <- index0 names ;;
    family_name <- dict_get name "family" (JStr "") ;;
    given_names <- dict_get name "given" (JArr [JStr ""]) ;;
    joined <- join " " given_names ;;
    let full_name := (joined ++ " " ++ format family_name)%string in
    gender <- dict_get patient "gender" (JStr "") ;;
    birthdate <- dict_get patient "birthDate" (JStr "") ;;
    addresses <- dict_get patient "address" (JArr [JObj []]) ;;
    address <- index0 addresses ;;
    city <- dict_get address "city" (JStr "") ;;
    state <- dict_get address "state" (JStr "") ;;
    postal_code <- dict_get address "postalCode" (JStr "") ;;
    given_name <- (if truthy given_names then index0 given_names else Ok (JStr "")) ;;
    Ok (PatientDict.make patient_id full_name family_name given_name gender birthdate
          city state postal_code).

Definition normalize_patients (data : json) : result (DataFrame PatientDict.t) :=
    collection <- dict_get data "patients" (JArr []) ;;
    items <- iterate collection ;;
    patients <- mapM normalize_patient items ;;
    Ok (pd_DataFrame patients).

End Normalize.

Definition normalize_observation (obs : json) : result ObservationDict.t :=
  obs_id <- dict_get obs "id" (JStr "") ;;
  status <- dict_get obs "status" (JStr "") ;;
  code <- dict_get obs "code" (JObj []) ;;
  code_text <- dict_get code "text" (JStr "") ;;
  value_quantity <- dict_get obs "valueQuantity" (JObj []) ;;
  value <- dict_get value_quantity "value" JNull ;;
  unit <- dict_get value_quantity "unit" (JStr "") ;;
  date <- dict_get obs "effectiveDateTime" (JStr "") ;;
  subject <- dict_get obs "subject" (JObj []) ;;
  patient_ref <- dict_get subject "reference" (JStr "") ;;
  patient_id <- patient_id_of_ref patient_ref ;;
  Ok (ObservationDict.make obs_id status code_text value unit date patient_id).

Definition normalize_observations (data : json) : result (DataFrame ObservationDict.t) :=
  collection <- dict_get data "observations" (JArr []) ;;
  items <- iterate collection ;;
  observations <- mapM normalize_observation items ;;
  Ok (pd_DataFrame observations).

Definition normalize_medication (med : json) : result MedicationDict.t :=
  med_id <- dict_get med "id" (JStr "") ;;
  status <- dict_get med "status" (JStr "") ;;
  concept <- dict_get med "medicationCodeableConcept" (JObj []) ;;
  med_name <- dict_get concept "text" (JStr "") ;;
  subject <- dict_get med "subject" (JObj []) ;;
  patient_ref <- dict_get subject "reference" (JStr "") ;;
  date <- dict_get med "authoredOn" (JStr "") ;;
  patient_id <- patient_id_of_ref patient_ref ;;
  Ok (MedicationDict.make med_id status med_name date patient_id).

Definition normalize_medications (data : json) : result (DataFrame MedicationDict.t) :=
  collection <- dict_get data "medications" (JArr []) ;;
  items <- iterate collection ;;
  medications <- mapM normalize_medication items ;;
  Ok (pd_DataFrame medications).

Definition normalize_allergy (allergy : json) : result AllergyDict.t :=
  allergy_id <- dict_get allergy "id" (JStr "") ;;
  clinical_status <- dict_get allergy "clinicalStatus" (JObj []) ;;
  status <- dict_get clinical_status "text" (JStr "") ;;
  code <- dict_get allergy "code" (JObj []) ;;
  code_text <- dict_get code "text" (JStr "") ;;
  reactions <- dict_get allergy "reaction" (JArr [JObj []]) ;;
  manifestation <-
    (if truthy reactions then
       reaction <- index0 reactions ;;
       manifestations <- dict_get reaction "manifestation" (JArr [JObj []]) ;;
       first <- index0 manifestations ;;
       dict_get first "text" (JStr "")
     else Ok (JStr "")) ;;
  patient <- dict_get allergy "patient" (JObj []) ;;
  patient_ref <- dict_get patient "reference" (JStr "") ;;
  patient_id <- patient_id_of_ref patient_ref ;;
  Ok (AllergyDict.make allergy_id status code_text manifestation patient_id).

Definition normalize_allergies (data : json) : result (DataFrame AllergyDict.t) :=
  collection <- dict_get data "allergies" (JArr []) ;;
  items <- iterate collection ;;
  allergies <- mapM normalize_allergy items ;;
  Ok (pd_DataFrame allergies).

Section Load.

Variable format : json -> string.

(** [load_and_normalize_data] after [json.load]: [data] is the parsed file. *)
Definition load_and_normalize_data (data : json)
  : result (DataFrame PatientDict.t * DataFrame ObservationDict.t
            * DataFrame MedicationDict.t * DataFrame AllergyDict.t) :=
  patients_df <- normalize_patients format data ;;
  observations_df <- normalize_observations data ;;
  medications_df <- normalize_medications data ;;
  allergies_df <- normalize_allergies data ;;
  Ok (patients_df, observations_df, medications_df, allergies_df).

End Load.

(** ** From the normalised cells to the typed tables

    The scoring functions above are modelled on tables whose text columns hold
    strings and whose [value] column holds numbers or nulls.  The functions
    below read a normalised table as such a table, when it is one. *)

Definition str_cell (x : json) : option string :=
  match x with
  | JStr s => Some s
  | _ => None
  end.

Definition num_cell (x : json) : option (option Q) :=
  match x with
  | JNum q => Some (Some q)
  | JNull => Some None
  | _ => None
  end.

Definition obind {A B : Type} (o : option A) (k : A -> option B) : option B :=
  match o with
  | Some a => k a
  | None => None
  end.

Definition patient_row (d : PatientDict.t) : option Patient.t :=
  obind (str_cell (PatientDict.patient_id d)) (fun patient_id =>
  obind (str_cell (PatientDict.family_name d)) (fun family_name =>
  obind (str_cell (PatientDict.given_name d)) (fun given_name =>
  obind (str_cell (PatientDict.gender d)) (fun gender =>
  obind (str_cell (PatientDict.birthdate d)) (fun birthdate =>
  obind (str_cell (PatientDict.city d)) (fun city =>
  obind (str_cell (PatientDict.state d)) (fun state =>
  obind (str_cell (PatientDict.postal_code d)) (fun postal_code =>
  Some (Patient.make patient_id (PatientDict.full_name d) family_name given_name
          gender birthdate city state postal_code))))))))).

Definition observation_row (d : ObservationDict.t) : option Observation.t :=
  obind (str_cell (ObservationDict.observation_id d)) (fun observation_id =>
  obind (str_cell (ObservationDict.status d)) (fun status =>
  obind (str_cell (ObservationDict.code d)) (fun code =>
  obind (num_cell (ObservationDict.value d)) (fun value =>
  obind (str_cell (ObservationDict.unit d)) (fun unit =>
  obind (str_cell (ObservationDict.date d)) (fun date =>
  Some (Observation.make observation_id status code value unit date
          (ObservationDict.patient_id d)))))))).

Fixpoint traverse {A B : Type} (f : A -> option B) (l : list A) : option (list B) :=
  match l with
  | [] => Some []
  | x :: l' =>
      obind (f x) (fun y => obind (traverse f l') (fun ys => Some (y :: ys)))
  end.

Definition typed {A B : Type} (f : A -> option B) (df : DataFrame A) : option (DataFrame B) :=
  match df with
  | NoColumns => Some NoColumns
  | Frame rows => option_map Frame (traverse f rows)
  end.

(** [score_patient_risks] from the parsed file on: the load, then the scoring
    of the two tables.  The result is defined when the load raises or gives
    typed tables. *)
Definition score_document (format : json -> string) (today : Date) (data : json)
  : option (result (DataFrame Scored.t * RiskSummary.t)) :=
  match load_and_normalize_data format data with
  | Raise e => Some (Raise e)
  | Ok (patients_df, observations_df, _, _) =>
      obind (typed patient_row patients_df) (fun patients =>
      obind (typed observation_row observations_df) (fun observations =>
      Some (score_patient_risks today patients observations)))
  end.

(** ** The stages of [score_patient_risks] by name *)

(** The three calls that make [risk_df] out of [latest_labs_df]. *)
Definition risk_classifier (latest_labs_df : DataFrame LabRow.t) : result (DataFrame RiskRow.t) :=
  risk_df <- apply_diabetes_risk_rule latest_labs_df ;;
  risk_df <- apply_cardiovascular_risk_rule risk_df ;;
  calculate_combined_risk risk_df.

(** What the three calls do to one row. *)
Definition classify_row (l : LabRow.t) : RiskRow.t :=
  let d := ge_threshold (LabRow.hba1c_value l) DIABETES_HBA1C_THRESHOLD in
  let c := ge_threshold (LabRow.cholesterol_value l) CARDIOVASCULAR_CHOLESTEROL_THRESHOLD in
  RiskRow.make l d c
    ((if d then 1 else 0) + (if c then 1 else 0))%Z
    (map_dict risk_categories ((if d then 1 else 0) + (if c then 1 else 0))%Z)
    (rstrip "; "
       ((if d then DIABETES_REASON ++ "; " else "")
        ++ (if c then CARDIOVASCULAR_REASON ++ "; " else ""))%string).

(** [risk_df] as a function of the observation rows. *)
Definition risk_rows (observations : list Observation.t) : list RiskRow.t :=
  map classify_row
    (merge_outer (latest_of "hemoglobin a1c" observations)
                 (latest_of "cholesterol" observations)).

(** The rows of [patients_with_risks_df]. *)
Definition scored_rows (enriched : list Enriched.t) (observations : list Observation.t)
  : list Scored.t :=
  map (fun p =>
         Scored.make p
           (find (fun rr => String.eqb (RiskRow.patient_id rr) (Enriched.patient_id p))
                 (risk_rows observations)))
      enriched.

Definition summary_of (rows : list Scored.t) : RiskSummary.t :=
  RiskSummary.make (List.length rows)
    (sum_flags (map Scored.diabetes_risk rows))
    (sum_flags (map Scored.cardiovascular_risk rows))
    (value_counts (map Scored.risk_category rows))
    (percentage (sum_flags (map Scored.diabetes_risk rows)) (List.length rows))
    (percentage (sum_flags (map Scored.cardiovascular_risk rows)) (List.length rows)).

(** ** The vocabulary of the properties *)

(** The reasons as the specification words them: one sentence per triggered
    rule, in the order of the rules. *)
Definition reasons_spec (diabetes_risk cardiovascular_risk : bool) : list string :=
  (if diabetes_risk then [DIABETES_REASON] else [])
  ++ (if cardiovascular_risk then [CARDIOVASCULAR_REASON] else []).

(** The bracket of one enriched row, as the bins give it: half-open ranges,
    the lower edge inside, and no bracket below 0 or from 120 on. *)
Definition bracket_ok (today : Date) (r : Enriched.t) : Prop :=
  Enriched.age r = calculate_age today (Patient.birthdate (Enriched.patient r)) /\
  (Enriched.age r = None -> Enriched.age_group r = None) /\
  forall x, Enriched.age r = Some x ->
    ((0 <= x < 18)%Z -> Enriched.age_group r = Some "0-18") /\
    ((18 <= x < 35)%Z -> Enriched.age_group r = Some "19-35") /\
    ((35 <= x < 50)%Z -> Enriched.age_group r = Some "36-50") /\
    ((50 <= x < 65)%Z -> Enriched.age_group r = Some "51-65") /\
    ((65 <= x < 120)%Z -> Enriched.age_group r = Some "65+") /\
    ((x < 0 \/ 120 <= x)%Z -> Enriched.age_group r = None).

(** An observation of one of the two tracked tests. *)
Definition tracked (o : Observation.t) : bool :=
  String.eqb (lower (Observation.code o)) "hemoglobin a1c"
  || String.eqb (lower (Observation.code o)) "cholesterol".

Definition has_tracked_lab (observations : list Observation.t) (patient_id : string) : bool :=
  existsb (fun o => tracked o && String.eqb (Observation.patient_id o) patient_id) observations.

(** [sum(d.values())] *)
Definition sum_values (d : list (string * nat)) : nat := list_sum (map snd d).

(** A text without the character [/]. *)
Fixpoint no_slash (s : string) : bool :=
  match s with
  | EmptyString => true
  | String c s' => negb (Ascii.eqb c "/") && no_slash s'
  end.

(** [a] does not come after [b] in the order of the sort. *)
Definition not_after (a b : Observation.t) : Prop := sorts_before b a = false.

(** ** Defensive defaulting, as the specification words it

    The rows that the normaliser is meant to produce: every field read by
    key, a missing field replaced by its default.  They are defined for the
    records of the expected shape: an object whose nested parts, where they
    are present, are objects ([code], [valueQuantity], [subject], ...), arrays
    that start with an object ([name], [address], [manifestation]), an array
    of strings ([given]) and a reference that is a text or is falsy. *)

Definition field (key : string) (fields : list (string * json)) (default : json) : json :=
  match assoc key fields with
  | Some v => v
  | None => default
  end.

(** The object under [key], the empty object when the key is missing. *)
Definition object_at (key : string) (fields : list (string * json))
  : option (list (string * json)) :=
  match assoc key fields with
  | None => Some []
  | Some (JObj g) => Some g
  | Some _ => None
  end.

(** The first object of the array under [key], the empty object when the key
    is missing. *)
Definition first_object (key : string) (fields : list (string * json))
  : option (list (string * json)) :=
  match assoc key fields with
  | None => Some []
  | Some (JArr (JObj g :: _)) => Some g
  | Some _ => None
  end.

Definition all_strings (x : json) : option (list string) :=
  match x with
  | JArr items => traverse str_cell items
  | _ => None
  end.

(** The key that the reference under [key] resolves to. *)
Definition reference_with_defaults (key : string) (fields : list (string * json))
  : option string :=
  obind (object_at key fields) (fun subject =>
  match patient_id_of_ref (field "reference" subject (JStr "")) with
  | Ok patient_id => Some patient_id
  | Raise _ => None
  end).

Definition patient_with_defaults (format : json -> string) (patient : json)
  : option PatientDict.t :=
  match patient with
  | JObj f =>
      obind (first_object "name" f) (fun name =>
      obind (all_strings (field "given" name (JArr [JStr ""]))) (fun given =>
      obind (first_object "address" f) (fun address =>
      Some (PatientDict.make
              (field "id" f (JStr ""))
              (String.concat " " given ++ " " ++ format (field "family" name (JStr "")))
              (field "family" name (JStr ""))
              (JStr (hd EmptyString given))
              (field "gender" f (JStr ""))
              (field "birthDate" f (JStr ""))
              (field "city" address (JStr ""))
              (field "state" address (JStr ""))
              (field "postalCode" address (JStr ""))))))
  | _ => None
  end.

Definition observation_with_defaults (obs : json) : option ObservationDict.t :=
  match obs with
  | JObj f =>
      obind (object_at "code" f) (fun code =>
      obind (object_at "valueQuantity" f) (fun value_quantity =>
      obind (reference_with_defaults "subject" f) (fun patient_id =>
      Some (ObservationDict.make
              (field "id" f (JStr ""))
              (field "status" f (JStr ""))
              (field "text" code (JStr ""))
              (field "value" value_quantity JNull)
              (field "unit" value_quantity (JStr ""))
              (field "effectiveDateTime" f (JStr ""))
              patient_id))))
  | _ => None
  end.

Definition medication_with_defaults (med : json) : option MedicationDict.t :=
  match med with
  | JObj f =>
      obind (object_at "medicationCodeableConcept" f) (fun concept =>
      obind (reference_with_defaults "subject" f) (fun patient_id =>
      Some (MedicationDict.make
              (field "id" f (JStr ""))
              (field "status" f (JStr ""))
              (field "text" concept (JStr ""))
              (field "authoredOn" f (JStr ""))
              patient_id)))
  | _ => None
  end.

(** The manifestation text: empty when the reaction list is empty (or
    falsy), the text of the first manifestation of the first reaction
    otherwise. *)
Definition manifestation_with_defaults (f : list (string * json)) : option json :=
  let reactions := field "reaction" f (JArr [JObj []]) in
  if truthy reactions then
    match reactions with
    | JArr (JObj reaction :: _) =>
        option_map (fun first => field "text" first (JStr ""))
                   (first_object "manifestation" reaction)
    | _ => None
    end
  else Some (JStr "").

Definition allergy_with_defaults (allergy : json) : option AllergyDict.t :=
  match allergy with
  | JObj f =>
      obind (object_at "clinicalStatus" f) (fun clinical_status =>
      obind (object_at "code" f) (fun code =>
      obind (manifestation_with_defaults f) (fun manifestation =>
      obind (reference_with_defaults "patient" f) (fun patient_id =>
      Some (AllergyDict.make
              (field "id" f (JStr ""))
              (field "text" clinical_status (JStr ""))
              (field "text" code (JStr ""))
              manifestation
              patient_id)))))
  | _ => None
  end.

(** A top-level collection: empty when its key is missing, the rows of its
    records otherwise. *)
Definition collection_with_defaults {R : Type} (row : json -> option R) (key : string)
    (data : json) : option (list R) :=
  match data with
  | JObj fields =>
      match assoc key fields with
      | None => Some []
      | Some (JArr items) => traverse row items
      | Some _ => None
      end
  | _ => None
  end.

(** ** The vocabulary of the further properties *)

(** [df] is the table of the records under [key]: the rows are the
    normalised items of the collection, one per item and in their order. *)
Definition rows_of_collection {R : Type} (normalize : json -> result R) (key : string)
    (data : json) (df : DataFrame R) : Prop :=
  exists collection items rows,
    dict_get data key (JArr []) = Ok collection /\
    iterate collection = Ok items /\
    Forall2 (fun item row => normalize item = Ok row) items rows /\
    List.length rows = List.length items /\
    df = pd_DataFrame rows.

(** The order of the calendar on dates. *)
Definition date_lt (a b : Date) : Prop :=
  (year a < year b \/
   (year a = year b /\
    (month a < month b \/ (month a = month b /\ day a < day b))))%Z.

Definition date_le (a b : Date) : Prop :=
  date_lt a b \/ (year a = year b /\ month a = month b /\ day a = day b).

(** The day and month of [birth], [n] years later. *)
Definition anniversary (birth : Date) (n : Z) : Date :=
  mkDate (year birth + n) (month birth) (day birth).

(** A date of the calendar: a year of four digits, a month, a day of that
    month. *)
Definition calendar_date (d : Date) : Prop :=
  (1 <= year d <= 9999 /\ 1 <= month d <= 12 /\
   1 <= day d <= days_in_month (year d) (month d))%Z.

(** The character of a digit. *)
Definition digit_char (n : Z) : ascii := ascii_of_nat (48 + Z.to_nat n).

Definition two_digits (n : Z) : string :=
  String (digit_char (n / 10)) (String (digit_char (n mod 10)) EmptyString).

(** The text [YYYY-MM-DD] of a date, every field padded with zeros, as
    [date.isoformat()] writes it. *)
Definition isoformat (d : Date) : string :=
  String (digit_char (year d / 1000))
    (String (digit_char (year d / 100 mod 10))
       (String (digit_char (year d / 10 mod 10))
          (String (digit_char (year d mod 10))
             (String "-" (two_digits (month d) ++ String "-" (two_digits (day d))))))).

(** The patient has an observation of the test [test_name]. *)
Definition has_test (test_name : string) (observations : list Observation.t)
    (patient_id : string) : bool :=
  existsb (fun o => String.eqb (lower (Observation.code o)) test_name
                    && String.eqb (Observation.patient_id o) patient_id)
          observations.

(** The observations of one patient and one test, as the sort leaves them. *)
Definition group_of (patient_id test_name : string) (observations : list Observation.t)
  : list Observation.t :=
  filter (fun o => String.eqb (Observation.patient_id o) patient_id)
    (sort_values
       (filter (fun o => String.eqb (lower (Observation.code o)) test_name) observations)).

(** The row that [first()] makes of a group. *)
Definition latest_row (patient_id : string) (group : list Observation.t) : Latest.t :=
  Latest.make patient_id
    (first_valid (map Observation.value group))
    (first_valid (map (fun o => Some (Observation.date o)) group)).

(** [d] is the greatest date among the observations of the test for the
    patient, and [h] is the first observation of the input that holds it:
    the matching observations before [h] have a smaller date, those after
    it have none greater; [value] is the value of [h] when [h] has one. *)
Definition latest_observation (test_name : string) (observations : list Observation.t)
    (patient_id d : string) (value : option Q) : Prop :=
  exists h before after,
    observations = before ++ h :: after /\
    lower (Observation.code h) = test_name /\
    Observation.patient_id h = patient_id /\
    Observation.date h = d /\
    (forall o, In o before ->
       lower (Observation.code o) = test_name ->
       Observation.patient_id o = patient_id ->
       String.ltb (Observation.date o) d = true) /\
    (forall o, In o after ->
       lower (Observation.code o) = test_name ->
       Observation.patient_id o = patient_id ->
       String.ltb d (Observation.date o) = false) /\
    (forall v, Observation.value h = Some v -> value = Some v).

(** [value] is the value of an observation of the test for the patient. *)
Definition observed_value (test_name : string) (observations : list Observation.t)
    (patient_id : string) (value : Q) : Prop :=
  exists o,
    In o observations /\
    lower (Observation.code o) = test_name /\
    Observation.patient_id o = patient_id /\
    Observation.value o = Some value.

(** Two observations with the same patient, the same test up to the case
    of its letters, the same value and the same date; their identifiers,
    statuses and units may differ. *)
Definition same_lab_content (o o' : Observation.t) : Prop :=
  Observation.patient_id o = Observation.patient_id o' /\
  lower (Observation.code o) = lower (Observation.code o') /\
  Observation.value o = Observation.value o' /\
  Observation.date o = Observation.date o'.

(** The observations of one patient. *)
Definition observations_of (patient_id : string) (observations : list Observation.t)
  : list Observation.t :=
  filter (fun o => String.eqb (Observation.patient_id o) patient_id) observations.

(** [p] is a float from 0.0 to 100.0 (so not nan), 0.0 when the count is
    zero and 100.0 when the count is the total. *)
Definition percentage_ok (count total : nat) (p : pyfloat) : Prop :=
  SFleb (S754_zero false) p = true /\
  SFleb p (float_of_nat 100) = true /\
  (count = 0%nat -> p = S754_zero false) /\
  (count = total -> p = float_of_nat 100).

(** The score of [b], when both rows have one, is at most that of [a]. *)
Definition score_not_below (a b : Scored.t) : Prop :=
  forall x y, Scored.risk_score a = Some x -> Scored.risk_score b = Some y -> (y <= x)%Z.

(** A row of the report: a positive score. *)
Definition has_positive_score (r : Scored.t) : Prop :=
  exists x, Scored.risk_score r = Some x /\ (0 < x)%Z.

(** A lab value that is missing, or at most the other one. *)
Definition lab_le (v v' : option Q) : Prop :=
  match v, v' with
  | None, _ => True
  | Some q, Some q' => (q <= q')%Q
  | Some _, None => False
  end.

(** ** Inputs of the examples *)

(** An instance of [format] for the examples below: a string is written as it
    is, and the examples format nothing but strings. *)
Definition format_text (v : json) : string :=
  match v with
  | JStr s => s
  | _ => EmptyString
  end.

(** The processing date of the examples below. *)
Definition example_today : Date := mkDate 2026 11 4.

Definition example_patient (patient_id birthdate : string) : Patient.t :=
  Patient.make patient_id "Ann Lee" "Lee" "Ann" "female" birthdate "Austin" "TX" "73301".

Definition example_observation (patient_id code : string) (value : option Q) (date : string)
  : Observation.t :=
  Observation.make "obs" "final" code value "unit" date patient_id.

(** Two patients, of whom only the second has lab observations. *)
Definition example_patients : list Patient.t :=
  [example_patient "p1" "1980-02-29"; example_patient "p2" "1990-05-05"].

Definition example_observations : list Observation.t :=
  [example_observation "p2" "Hemoglobin A1c" (Some (7 # 1)) "2023-01-01";
   example_observation "p2" "Cholesterol" (Some (200 # 1)) "2023-01-01"].

Definition example_enriched : list Enriched.t :=
  [Enriched.make (example_patient "p1" "1980-02-29") (Some 46%Z) (Some "36-50");
   Enriched.make (example_patient "p2" "1990-05-05") (Some 36%Z) (Some "36-50")].

Definition example_scored : list Scored.t :=
  scored_rows example_enriched example_observations.

(** A document without medications, with one record in each other
    collection, each lacking most of its optional fields. *)
Definition example_document : json :=
  JObj [("patients", JArr [JObj [("id", JStr "p1"); ("gender", JStr "female")]]);
        ("observations",
         JArr [JObj [("id", JStr "o1");
                     ("subject", JObj [("reference", JStr "Patient/p1")])]]);
        ("allergies", JArr [JObj [("id", JStr "a1"); ("reaction", JArr [])]])].

(** One patient with two HbA1c observations, the later one without a value. *)
Definition example_hba1c_history : list Observation.t :=
  [example_observation "p1" "Hemoglobin A1c" (Some (7 # 1)) "2023-01-01";
   example_observation "p1" "Hemoglobin A1c" None "2023-06-01"].

(** Two HbA1c observations of one patient on the same, latest date, and an
    earlier one between them. *)
Definition example_hba1c_tie : list Observation.t :=
  [example_observation "p1" "Cholesterol" (Some (250 # 1)) "2023-09-01";
   example_observation "p1" "Hemoglobin A1c" (Some (6 # 1)) "2023-06-01";
   example_observation "p1" "Hemoglobin A1c" (Some (5 # 1)) "2023-01-01";
   example_observation "p1" "hemoglobin a1c" (Some (9 # 1)) "2023-06-01"].

(** The observations of the example and one more, of a third patient. *)
Definition example_observations_more : list Observation.t :=
  example_observation "p3" "Cholesterol" (Some (300 # 1)) "2024-02-01" :: example_observations.

(** The row of patient p2 over a table of observations. *)
Definition example_row_p2 (observations : list Observation.t) : Scored.t :=
  Scored.make (Enriched.make (example_patient "p2" "1990-05-05") (Some 36%Z) (Some "36-50"))
    (find (fun rr => String.eqb (RiskRow.patient_id rr) "p2") (risk_rows observations)).

(** ** Properties of the risk classifier *)

Lemma risk_classifier_rows (labs : list LabRow.t) :
  risk_classifier (Frame labs) = Ok (Frame (map classify_row labs)).
Proof.
  unfold risk_classifier, apply_diabetes_risk_rule, apply_cardiovascular_risk_rule,
    calculate_combined_risk; cbn [bind column].
  do 2 f_equal. rewrite !map_map.
  apply map_ext; intro l. unfold classify_row; cbn [fst snd].
  destruct (ge_threshold (LabRow.hba1c_value l) DIABETES_HBA1C_THRESHOLD),
    (ge_threshold (LabRow.cholesterol_value l) CARDIOVASCULAR_CHOLESTEROL_THRESHOLD);
    reflexivity.
Qed.

Lemma risk_classifier_NoColumns :
  risk_classifier NoColumns = Raise (KeyError "hba1c_value").
Proof. reflexivity. Qed.

(** C5: in every row of the classifier's output the score is the number of
    true flags, the category is the image of the score under the mapping
    0 -> Low Risk, 1 -> Moderate Risk, 2 -> High Risk, and a missing lab value
    leaves its flag false. *)
Theorem C5_score_counts_flags_and_fixes_category (labs : list LabRow.t) :
  exists out,
    risk_classifier (Frame labs) = Ok (Frame out) /\
    map RiskRow.labs out = labs /\
    Forall (fun r =>
        RiskRow.diabetes_risk r
          = ge_threshold (LabRow.hba1c_value (RiskRow.labs r)) DIABETES_HBA1C_THRESHOLD /\
        RiskRow.cardiovascular_risk r
          = ge_threshold (LabRow.cholesterol_value (RiskRow.labs r))
              CARDIOVASCULAR_CHOLESTEROL_THRESHOLD /\
        RiskRow.risk_score r
          = (Z.b2z (RiskRow.diabetes_risk r) + Z.b2z (RiskRow.cardiovascular_risk r))%Z /\
        RiskRow.risk_category r = map_dict risk_categories (RiskRow.risk_score r) /\
        ((RiskRow.risk_score r = 0%Z /\ RiskRow.risk_category r = Some "Low Risk") \/
         (RiskRow.risk_score r = 1%Z /\ RiskRow.risk_category r = Some "Moderate Risk") \/
         (RiskRow.risk_score r = 2%Z /\ RiskRow.risk_category r = Some "High Risk")) /\
        (LabRow.hba1c_value (RiskRow.labs r) = None -> RiskRow.diabetes_risk r = false) /\
        (LabRow.cholesterol_value (RiskRow.labs r) = None ->
         RiskRow.cardiovascular_risk r = false))
      out.
Proof.
  exists (map classify_row labs). split; [apply risk_classifier_rows|]. split.
  - rewrite map_map. cbn. apply map_id.
  - apply Forall_forall. intros r Hr. apply in_map_iff in Hr as [l [<- _]].
    unfold classify_row; cbn [RiskRow.diabetes_risk RiskRow.cardiovascular_risk
      RiskRow.risk_score RiskRow.risk_category RiskRow.labs].
    split; [reflexivity|]. split; [reflexivity|].
    split; [|split; [reflexivity|split; [|split; intros ->; reflexivity]]];
      destruct (ge_threshold (LabRow.hba1c_value l) _),
        (ge_threshold (LabRow.cholesterol_value l) _); cbn; auto.
Qed.

(** C8: [calculate_combined_risk] keeps every row of its input with its labs
    and its two flags, and gives it as reasons the sentences of the triggered
    rules, diabetes before cardiovascular, joined with "; " and nothing after
    the last one; a row with the diabetes rule alone reads exactly
    "Diabetes Risk (HbA1c >= 6.5)".  In the classifier's output, which has one
    row per row of the labs, the triggered rules are those whose lab value
    reaches its threshold. *)
Theorem C8_reasons_are_joined_sentences
    (flagged : list (LabRow.t * bool * bool)) (labs : list LabRow.t) :
  (exists out,
     calculate_combined_risk (Frame flagged) = Ok (Frame out) /\
     map (fun r => (RiskRow.labs r, RiskRow.diabetes_risk r, RiskRow.cardiovascular_risk r))
         out = flagged /\
     Forall (fun r =>
         RiskRow.risk_reasons r
           = String.concat "; "
               (reasons_spec (RiskRow.diabetes_risk r) (RiskRow.cardiovascular_risk r)) /\
         (RiskRow.diabetes_risk r = true -> RiskRow.cardiovascular_risk r = false ->
          RiskRow.risk_reasons r = "Diabetes Risk (HbA1c >= 6.5)"))
       out) /\
  (exists out,
     risk_classifier (Frame labs) = Ok (Frame out) /\
     map RiskRow.labs out = labs /\
     Forall (fun r =>
         RiskRow.diabetes_risk r
           = ge_threshold (LabRow.hba1c_value (RiskRow.labs r)) DIABETES_HBA1C_THRESHOLD /\
         RiskRow.cardiovascular_risk r
           = ge_threshold (LabRow.cholesterol_value (RiskRow.labs r))
               CARDIOVASCULAR_CHOLESTEROL_THRESHOLD /\
         RiskRow.risk_reasons r
           = String.concat "; "
               (reasons_spec
                  (ge_threshold (LabRow.hba1c_value (RiskRow.labs r))
                     DIABETES_HBA1C_THRESHOLD)
                  (ge_threshold (LabRow.cholesterol_value (RiskRow.labs r))
                     CARDIOVASCULAR_CHOLESTEROL_THRESHOLD)) /\
         (RiskRow.diabetes_risk r = true -> RiskRow.cardiovascular_risk r = false ->
          RiskRow.risk_reasons r = "Diabetes Risk (HbA1c >= 6.5)"))
       out).
Proof.
  split.
  - unfold calculate_combined_risk; cbn [bind column]. eexists. split; [reflexivity|].
    split.
    + rewrite map_map. rewrite <- (map_id flagged) at 2. apply map_ext.
      intros [[l d] c]. reflexivity.
    + apply Forall_forall. intros r Hr. apply in_map_iff in Hr as [[[l d] c] [<- _]].
      cbn [RiskRow.diabetes_risk RiskRow.cardiovascular_risk RiskRow.risk_reasons].
      destruct d, c;
        (split; [vm_compute; reflexivity
                | intros; try discriminate; vm_compute; reflexivity]).
  - exists (map classify_row labs). split; [apply risk_classifier_rows|]. split.
    + rewrite map_map. cbn. apply map_id.
    + apply Forall_forall. intros r Hr. apply in_map_iff in Hr as [l [<- _]].
      unfold classify_row; cbn [RiskRow.diabetes_risk RiskRow.cardiovascular_risk
        RiskRow.risk_reasons RiskRow.labs].
      split; [reflexivity|]. split; [reflexivity|].
      destruct (ge_threshold (LabRow.hba1c_value l) _),
        (ge_threshold (LabRow.cholesterol_value l) _);
        (split; [vm_compute; reflexivity
                | intros; try discriminate; vm_compute; reflexivity]).
Qed.

(** ** Properties of the enricher *)

Lemma cut_bins (x : Z) :
  cut bins labels x =
    if (x <? 0)%Z then None
    else if (x <? 18)%Z then Some "0-18"
    else if (x <? 35)%Z then Some "19-35"
    else if (x <? 50)%Z then Some "36-50"
    else if (x <? 65)%Z then Some "51-65"
    else if (x <? 120)%Z then Some "65+"
    else None.
Proof.
  unfold bins, labels; cbn [cut].
  repeat match goal with
         | |- context [(?a <=? ?b)%Z] => destruct (Z.leb_spec a b)
         | |- context [(?a <? ?b)%Z] => destruct (Z.ltb_spec a b)
         end; cbn; try reflexivity; lia.
Qed.

Lemma enrich_row_ok (today : Date) (p : Patient.t) :
  bracket_ok today
    (Enriched.make p (calculate_age today (Patient.birthdate p))
       (match calculate_age today (Patient.birthdate p) with
        | Some x => cut bins labels x
        | None => None
        end)).
Proof.
  unfold bracket_ok; cbn [Enriched.age Enriched.age_group Enriched.patient].
  split; [reflexivity|]. split; [intros ->; reflexivity|].
  intros x ->. rewrite cut_bins.
  repeat split; intros H;
    repeat match goal with
           | |- context [(?a <? ?b)%Z] => destruct (Z.ltb_spec a b)
           end; try reflexivity; lia.
Qed.

Lemma enrich_patient_data_rows (today : Date) (patients : list Patient.t)
    (enriched : list Enriched.t) :
  enrich_patient_data today (Frame patients) = Ok (Frame enriched) ->
  enriched
  = map (fun p =>
           let a := calculate_age today (Patient.birthdate p) in
           Enriched.make p a (match a with Some x => cut bins labels x | None => None end))
        patients.
Proof.
  unfold enrich_patient_data; cbn [bind column].
  destruct patients as [|p ps]; [intros [= <-]; reflexivity|].
  remember (p :: ps) as l eqn:El.
  destruct (forallb _ _); [discriminate|]. intros H; injection H as <-. reflexivity.
Qed.

(** Whenever the enricher returns, it has one row per patient, in the order
    of the patients, each with the age computed from its birthdate and the
    bracket that the bins give: the half-open ranges [0,18), [18,35),
    [35,50), [50,65), [65,120), so that the ages 18, 35, 50 and 65 fall in
    the upper bracket, and no bracket below 0 or from 120 on. *)
Lemma enricher_brackets_follow_the_bins
    (today : Date) (patients : list Patient.t) (rows : list Enriched.t) :
  enrich_patient_data today (Frame patients) = Ok (Frame rows) ->
  map Enriched.patient rows = patients /\ Forall (bracket_ok today) rows.
Proof.
  intros H. apply enrich_patient_data_rows in H. subst rows. split.
  - rewrite map_map. cbn [Enriched.patient]. apply map_id.
  - apply Forall_forall. intros r Hr. apply in_map_iff in Hr as [q [<- _]].
    apply enrich_row_ok.
Qed.

(** C6 at a failing input: on the processing date 2026-11-04 the patients
    who are exactly 18, 35, 50 and 65 get the upper bracket, and a patient of
    119 gets the last bracket, whose label is "65+"; but the patients of 120
    and of 126 get no bracket at all, because the last edge of the bins is
    120. *)
Theorem C6_age_126_gets_no_bracket :
  enrich_patient_data example_today
    (pd_DataFrame [example_patient "p1" "2008-11-04"; example_patient "p2" "1991-11-04";
                   example_patient "p3" "1976-11-04"; example_patient "p4" "1961-11-04";
                   example_patient "p5" "1906-11-05"; example_patient "p6" "1906-11-04";
                   example_patient "p7" "1900-01-01"])
  = Ok (Frame
          [Enriched.make (example_patient "p1" "2008-11-04") (Some 18%Z) (Some "19-35");
           Enriched.make (example_patient "p2" "1991-11-04") (Some 35%Z) (Some "36-50");
           Enriched.make (example_patient "p3" "1976-11-04") (Some 50%Z) (Some "51-65");
           Enriched.make (example_patient "p4" "1961-11-04") (Some 65%Z) (Some "65+");
           Enriched.make (example_patient "p5" "1906-11-05") (Some 119%Z) (Some "65+");
           Enriched.make (example_patient "p6" "1906-11-04") (Some 120%Z) None;
           Enriched.make (example_patient "p7" "1900-01-01") (Some 126%Z) None]) /\
  last labels "" = "65+" /\
  last bins 0%Z = 120%Z.
Proof. repeat split. Qed.

(** ** Empty collections *)

Lemma normalize_patients_empty (format : json -> string) (fields : list (string * json)) :
  assoc "patients" fields = None \/ assoc "patients" fields = Some (JArr []) ->
  normalize_patients format (JObj fields) = Ok NoColumns.
Proof.
  intros [H|H]; unfold normalize_patients, dict_get; rewrite H; reflexivity.
Qed.

Lemma normalize_observations_empty (fields : list (string * json)) :
  assoc "observations" fields = None \/ assoc "observations" fields = Some (JArr []) ->
  normalize_observations (JObj fields) = Ok NoColumns.
Proof.
  intros [H|H]; unfold normalize_observations, dict_get; rewrite H; reflexivity.
Qed.

(** C1, as amended: with zero patients the normalised patient table has no
    column, and both [score_patient_risks] and the report stop with the
    KeyError of the missing [birthdate] column: no summary, no percentage and
    no report come out, whatever the rest of the document holds. *)
Theorem C1_zero_patients_raise_KeyError
    (format : json -> string) (fields : list (string * json)) (today : Date)
    (observations_df : DataFrame Observation.t) :
  assoc "patients" fields = None \/ assoc "patients" fields = Some (JArr []) ->
  normalize_patients format (JObj fields) = Ok NoColumns /\
  score_patient_risks today NoColumns observations_df = Raise (KeyError "birthdate") /\
  generate_reports today NoColumns observations_df = Raise (KeyError "birthdate") /\
  (forall r, score_document format today (JObj fields) = Some r -> raises r).
Proof.
  intros H. pose proof (normalize_patients_empty format fields H) as Hp.
  split; [exact Hp|]. split; [reflexivity|]. split; [reflexivity|].
  unfold score_document, load_and_normalize_data. rewrite Hp. cbn [bind].
  destruct (normalize_observations (JObj fields)) as [o|e]; cbn [bind];
    [|intros r [= <-]; now exists e].
  destruct (normalize_medications (JObj fields)) as [m|e]; cbn [bind];
    [|intros r [= <-]; now exists e].
  destruct (normalize_allergies (JObj fields)) as [a|e]; cbn [bind];
    [|intros r [= <-]; now exists e].
  cbn [typed obind]. destruct (typed observation_row o); cbn [obind]; [|discriminate].
  intros r [= <-]. now exists (KeyError "birthdate").
Qed.

Lemma C1_witness :
  normalize_patients format_text
    (JObj [("patients", JArr []); ("observations", JArr [JObj [("id", JStr "o1")]])])
  = Ok NoColumns /\
  score_patient_risks example_today NoColumns
    (pd_DataFrame [example_observation "p1" "Cholesterol" (Some (250 # 1)) "2023-01-01"])
  = Raise (KeyError "birthdate") /\
  generate_reports example_today NoColumns
    (pd_DataFrame [example_observation "p1" "Cholesterol" (Some (250 # 1)) "2023-01-01"])
  = Raise (KeyError "birthdate") /\
  (forall r,
     score_document format_text example_today
       (JObj [("patients", JArr []); ("observations", JArr [JObj [("id", JStr "o1")]])])
     = Some r -> raises r).
Proof.
  apply (C1_zero_patients_raise_KeyError format_text
           [("patients", JArr []); ("observations", JArr [JObj [("id", JStr "o1")]])]).
  right; reflexivity.
Defined.

(** A document with an empty patient list and one observation: the run
    raises, so no summary is returned and no percentage is 0.0. *)
Lemma C1_counterexample :
  score_document format_text example_today
    (JObj [("patients", JArr []);
           ("observations",
            JArr [JObj [("id", JStr "o1"); ("code", JObj [("text", JStr "Cholesterol")]);
                        ("valueQuantity", JObj [("value", JNum (250 # 1))]);
                        ("effectiveDateTime", JStr "2023-01-01");
                        ("subject", JObj [("reference", JStr "Patient/p1")])]])])
  = Some (Raise (KeyError "birthdate")) /\
  score_patient_risks example_today (pd_DataFrame [])
    (pd_DataFrame [example_observation "p1" "Cholesterol" (Some (250 # 1)) "2023-01-01"])
  = Raise (KeyError "birthdate").
Proof. split; reflexivity. Qed.

(** Without a guard a zero total gives nan, not 0.0, also on a patient table
    that has its columns and no row. *)
Lemma percentage_of_zero_total : percentage 0 0 = S754_nan.
Proof. reflexivity. Qed.

(** The percentages round as the code's do: 29 of 100 patients give
    28.999999999999996 (8162774324609023 * 2^-48), not 29.0, and 1 of 3
    gives 33.33333333333333 (4691249611844266 * 2^-47). *)
Lemma percentage_rounds_to_nearest :
  percentage 29 100 = S754_finite false 8162774324609023 (-48) /\
  percentage 1 3 = S754_finite false 4691249611844266 (-47) /\
  percentage 1 2 = S754_finite false 7036874417766400 (-47).
Proof. repeat split. Qed.

(** C10: when the observations collection is absent or empty, the normalised
    observation table has no column, and [score_patient_risks] raises for every
    patient table: the KeyError of the [code] column whenever the enricher
    has returned.  No per-patient record comes out. *)
Theorem C10_empty_observations_raise
    (format : json -> string) (fields : list (string * json)) (today : Date)
    (patients_df : DataFrame Patient.t) :
  assoc "observations" fields = None \/ assoc "observations" fields = Some (JArr []) ->
  normalize_observations (JObj fields) = Ok NoColumns /\
  raises (score_patient_risks today patients_df NoColumns) /\
  (forall enriched, enrich_patient_data today patients_df = Ok enriched ->
   score_patient_risks today patients_df NoColumns = Raise (KeyError "code")) /\
  (forall r, score_document format today (JObj fields) = Some r -> raises r).
Proof.
  intros H. pose proof (normalize_observations_empty fields H) as Ho.
  assert (forall p, raises (score_patient_risks today p NoColumns) /\
            (forall enriched, enrich_patient_data today p = Ok enriched ->
             score_patient_risks today p NoColumns = Raise (KeyError "code"))) as Hraise.
  { intros p. unfold score_patient_risks, raises.
    destruct (enrich_patient_data today p) as [e|x]; cbn [bind].
    - split; [exists (KeyError "code"); reflexivity | reflexivity].
    - split; [exists x; reflexivity | discriminate]. }
  split; [exact Ho|]. split; [apply Hraise|]. split; [apply Hraise|].
  unfold score_document, load_and_normalize_data. rewrite Ho.
  destruct (normalize_patients format (JObj fields)) as [p|e]; cbn [bind];
    [|intros r [= <-]; now exists e].
  destruct (normalize_medications (JObj fields)) as [m|e]; cbn [bind];
    [|intros r [= <-]; now exists e].
  destruct (normalize_allergies (JObj fields)) as [a|e]; cbn [bind];
    [|intros r [= <-]; now exists e].
  destruct (typed patient_row p) as [tp|]; cbn [typed obind]; [|discriminate].
  intros r [= <-]. apply Hraise.
Qed.

Lemma C10_witness :
  normalize_observations (JObj [("patients", JArr [JObj [("id", JStr "p1")]])]) = Ok NoColumns /\
  raises (score_patient_risks example_today
            (pd_DataFrame [example_patient "p1" "1980-02-29"]) NoColumns) /\
  (forall enriched,
     enrich_patient_data example_today (pd_DataFrame [example_patient "p1" "1980-02-29"])
     = Ok enriched ->
     score_patient_risks example_today (pd_DataFrame [example_patient "p1" "1980-02-29"])
       NoColumns = Raise (KeyError "code")) /\
  (forall r,
     score_document format_text example_today
       (JObj [("patients", JArr [JObj [("id", JStr "p1")]])]) = Some r -> raises r).
Proof.
  apply (C10_empty_observations_raise format_text
           [("patients", JArr [JObj [("id", JStr "p1")]])]).
  left; reflexivity.
Defined.

(** A document with one patient born on 1980-02-29 and no observations
    collection: the run ends in the KeyError of the [code] column. *)
Lemma empty_observations_example :
  score_document format_text example_today
    (JObj [("patients",
            JArr [JObj [("id", JStr "p1"); ("birthDate", JStr "1980-02-29")]])])
  = Some (Raise (KeyError "code")).
Proof. reflexivity. Qed.

(** ** The shape of a successful run *)

Lemma score_patient_risks_stages (today : Date) (patients_df : DataFrame Patient.t)
    (observations_df : DataFrame Observation.t) :
  score_patient_risks today patients_df observations_df =
    (enriched <- enrich_patient_data today patients_df ;;
     latest <- get_latest_lab_values observations_df ;;
     risk_df <- risk_classifier latest ;;
     scored <- merge_left enriched risk_df ;;
     rows <- column "diabetes_risk" scored ;;
     Ok (scored, summary_of rows)).
Proof.
  unfold score_patient_risks, risk_classifier.
  destruct (enrich_patient_data today patients_df); cbn [bind]; [|reflexivity].
  destruct (get_latest_lab_values observations_df) as [l|]; cbn [bind]; [|reflexivity].
  destruct (apply_diabetes_risk_rule l) as [l1|]; cbn [bind]; [|reflexivity].
  destruct (apply_cardiovascular_risk_rule l1) as [l2|]; cbn [bind]; reflexivity.
Qed.

Lemma enrich_patient_data_frame (today : Date) (patients_df : DataFrame Patient.t)
    (e : DataFrame Enriched.t) :
  enrich_patient_data today patients_df = Ok e ->
  exists patients enriched, patients_df = Frame patients /\ e = Frame enriched.
Proof.
  unfold enrich_patient_data. destruct patients_df as [|ps]; [discriminate|].
  cbn [bind column]. destruct ps; [|destruct (forallb _ _)]; try discriminate;
    intros H; injection H as <-; eexists _, _; split; reflexivity.
Qed.

Lemma score_patient_risks_ok (today : Date) (patients_df : DataFrame Patient.t)
    (observations_df : DataFrame Observation.t) (df : DataFrame Scored.t) (s : RiskSummary.t) :
  score_patient_risks today patients_df observations_df = Ok (df, s) ->
  exists enriched observations,
    enrich_patient_data today patients_df = Ok (Frame enriched) /\
    observations_df = Frame observations /\
    df = Frame (scored_rows enriched observations) /\
    s = summary_of (scored_rows enriched observations).
Proof.
  rewrite score_patient_risks_stages.
  destruct (enrich_patient_data today patients_df) as [e|x] eqn:He; cbn [bind]; [|discriminate].
  destruct (enrich_patient_data_frame _ _ _ He) as (ps & enriched & -> & ->).
  destruct observations_df as [|obs]; cbn [bind get_latest_lab_values column]; [discriminate|].
  rewrite risk_classifier_rows. cbn [bind merge_left column].
  intros H; injection H as <- <-.
  exists enriched, obs. repeat split.
Qed.

Lemma score_patient_risks_frames (today : Date) (patients_df : DataFrame Patient.t)
    (observations : list Observation.t) (enriched : list Enriched.t) :
  enrich_patient_data today patients_df = Ok (Frame enriched) ->
  score_patient_risks today patients_df (Frame observations)
  = Ok (Frame (scored_rows enriched observations),
        summary_of (scored_rows enriched observations)).
Proof.
  intros He. rewrite score_patient_risks_stages, He.
  cbn [bind get_latest_lab_values column].
  rewrite risk_classifier_rows. reflexivity.
Qed.

Lemma scored_rows_keep_the_patients
    (today : Date) (patients : list Patient.t) (observations_df : DataFrame Observation.t)
    (rows : list Scored.t) (s : RiskSummary.t) :
  score_patient_risks today (Frame patients) observations_df = Ok (Frame rows, s) ->
  map (fun r => Enriched.patient (Scored.patient r)) rows = patients /\
  RiskSummary.total_patients s = List.length patients.
Proof.
  intros H. apply score_patient_risks_ok in H as (enriched & obs & He & _ & Hd & ->).
  injection Hd as ->. apply enrich_patient_data_rows in He.
  assert (map (fun r => Enriched.patient (Scored.patient r)) (scored_rows enriched obs)
          = patients) as Hmap.
  { unfold scored_rows. rewrite map_map. cbn [Scored.patient]. subst enriched.
    rewrite map_map. cbn [Enriched.patient]. apply map_id. }
  split; [exact Hmap|].
  unfold summary_of; cbn [RiskSummary.total_patients].
  apply (f_equal (@List.length _)) in Hmap. rewrite length_map in Hmap. exact Hmap.
Qed.

(** ** Membership through [unique] and the sorts *)

Lemma existsb_eqb_In (x : string) (l : list string) :
  existsb (String.eqb x) l = true <-> In x l.
Proof.
  rewrite existsb_exists. split.
  - intros [y [Hy E]]. apply String.eqb_eq in E. now subst.
  - intros H. exists x. split; [assumption | apply String.eqb_refl].
Qed.

Lemma In_unique (l seen : list string) (x : string) :
  In x (unique seen l) <-> In x l /\ ~ In x seen.
Proof.
  revert seen. induction l as [|y l IH]; intros seen; cbn [unique].
  - cbn. tauto.
  - destruct (existsb (String.eqb y) seen) eqn:E.
    + apply existsb_eqb_In in E. rewrite IH. cbn. split.
      * tauto.
      * intros [[->|H] Hn]; tauto.
    + assert (~ In y seen) as Hy.
      { intros H. apply existsb_eqb_In in H. congruence. }
      cbn [In]. rewrite IH. cbn [In].
      destruct (String.eqb_spec y x) as [->|Hne]; tauto.
Qed.

Lemma NoDup_unique (l seen : list string) : NoDup (unique seen l).
Proof.
  revert seen. induction l as [|y l IH]; intros seen; cbn [unique].
  - constructor.
  - destruct (existsb (String.eqb y) seen); [apply IH|].
    constructor; [|apply IH]. rewrite In_unique. cbn. tauto.
Qed.

Lemma In_insert_string (x y : string) (l : list string) :
  In x (insert_string y l) <-> x = y \/ In x l.
Proof.
  induction l as [|z l IH]; cbn [insert_string].
  - cbn. intuition congruence.
  - destruct (String.ltb z y); cbn [In]; [rewrite IH|]; intuition congruence.
Qed.

Lemma In_sort_strings (x : string) (l : list string) :
  In x (sort_strings l) <-> In x l.
Proof.
  induction l as [|y l IH]; cbn [sort_strings fold_right]; [tauto|].
  fold (sort_strings l). rewrite In_insert_string, IH. cbn. intuition congruence.
Qed.

Lemma In_insert_obs (x y : Observation.t) (l : list Observation.t) :
  In x (insert_obs y l) <-> x = y \/ In x l.
Proof.
  induction l as [|z l IH]; cbn [insert_obs].
  - cbn. intuition congruence.
  - destruct (sorts_before z y); cbn [In]; [rewrite IH|]; intuition congruence.
Qed.

Lemma In_sort_values (x : Observation.t) (l : list Observation.t) :
  In x (sort_values l) <-> In x l.
Proof.
  induction l as [|y l IH]; cbn [sort_values fold_right]; [tauto|].
  fold (sort_values l). rewrite In_insert_obs, IH. cbn. intuition congruence.
Qed.

Lemma In_insert_scored (x y : Scored.t) (l : list Scored.t) :
  In x (insert_scored y l) <-> x = y \/ In x l.
Proof.
  induction l as [|z l IH]; cbn [insert_scored].
  - cbn. intuition congruence.
  - destruct (score_ltb y z); cbn [In]; [rewrite IH|]; intuition congruence.
Qed.

Lemma In_sort_by_score_desc (x : Scored.t) (l : list Scored.t) :
  In x (sort_by_score_desc l) <-> In x l.
Proof.
  induction l as [|y l IH]; cbn [sort_by_score_desc fold_right]; [tauto|].
  fold (sort_by_score_desc l). rewrite In_insert_scored, IH. cbn. intuition congruence.
Qed.

(** ** The keys of the resolved series *)

Lemma keys_groupby_first (rows : list Observation.t) :
  map Latest.patient_id (groupby_first rows)
  = sort_strings (unique [] (map Observation.patient_id rows)).
Proof.
  unfold groupby_first. rewrite map_map. cbn [Latest.patient_id]. apply map_id.
Qed.

Lemma In_keys_latest_of (name : string) (observations : list Observation.t) (k : string) :
  In k (map Latest.patient_id (latest_of name observations)) <->
  exists o, In o observations /\ lower (Observation.code o) = name
            /\ Observation.patient_id o = k.
Proof.
  unfold latest_of. rewrite keys_groupby_first, In_sort_strings, In_unique, in_map_iff.
  split.
  - intros [[o [Hk Ho]] _]. apply In_sort_values, filter_In in Ho as [Ho Hc].
    apply String.eqb_eq in Hc. eauto.
  - intros [o (Ho & Hc & Hk)]. split; [|intros []].
    exists o. split; [assumption|]. apply In_sort_values, filter_In.
    split; [assumption|]. now apply String.eqb_eq.
Qed.

Lemma keys_merge_outer (left right : list Latest.t) :
  map LabRow.patient_id (merge_outer left right)
  = sort_strings (unique [] (map Latest.patient_id left ++ map Latest.patient_id right)).
Proof.
  unfold merge_outer. rewrite map_map. cbn [LabRow.patient_id]. apply map_id.
Qed.

Lemma In_keys_risk_rows (observations : list Observation.t) (k : string) :
  In k (map RiskRow.patient_id (risk_rows observations)) <->
  has_tracked_lab observations k = true.
Proof.
  unfold risk_rows. rewrite map_map.
  change (fun x => RiskRow.patient_id (classify_row x)) with LabRow.patient_id.
  rewrite keys_merge_outer, In_sort_strings, In_unique, in_app_iff, !In_keys_latest_of.
  unfold has_tracked_lab, tracked. rewrite existsb_exists. split.
  - intros [[[o (Ho & Hc & Hk)]|[o (Ho & Hc & Hk)]] _]; exists o; (split; [assumption|]);
      rewrite Hc, Hk, !String.eqb_refl; cbn; reflexivity.
  - intros [o [Ho H]]. apply andb_true_iff in H as [Hc Hk].
    apply String.eqb_eq in Hk. split; [|intros []].
    apply orb_true_iff in Hc as [Hc|Hc]; apply String.eqb_eq in Hc; [left|right]; eauto.
Qed.

Lemma find_key_None (k : string) (l : list RiskRow.t) :
  find (fun rr => String.eqb (RiskRow.patient_id rr) k) l = None <->
  ~ In k (map RiskRow.patient_id l).
Proof.
  induction l as [|r l IH]; cbn [find map In]; [tauto|].
  destruct (String.eqb_spec (RiskRow.patient_id r) k) as [E|E].
  - split; [discriminate | intros H; exfalso; apply H; now left].
  - rewrite IH. tauto.
Qed.

(** A row of the joined table has its risk columns exactly when the patient
    has an observation of a tracked test. *)
Lemma scored_risk_None (enriched : list Enriched.t) (observations : list Observation.t)
    (r : Scored.t) :
  In r (scored_rows enriched observations) ->
  (Scored.risk r = None <->
   has_tracked_lab observations (Enriched.patient_id (Scored.patient r)) = false).
Proof.
  unfold scored_rows. intros Hr. apply in_map_iff in Hr as [p [<- _]].
  cbn [Scored.risk Scored.patient].
  rewrite find_key_None, In_keys_risk_rows.
  destruct (has_tracked_lab observations (Enriched.patient_id p)); intuition congruence.
Qed.

Lemma scored_category_None (enriched : list Enriched.t) (observations : list Observation.t)
    (r : Scored.t) :
  In r (scored_rows enriched observations) ->
  (Scored.risk_category r = None <-> Scored.risk r = None).
Proof.
  unfold scored_rows. intros Hr. apply in_map_iff in Hr as [p [<- _]].
  unfold Scored.risk_category; cbn [Scored.risk].
  destruct (find _ _) as [rr|] eqn:E; [|tauto].
  apply find_some in E as [Hin _]. unfold risk_rows in Hin.
  apply in_map_iff in Hin as [l [<- _]]. unfold classify_row; cbn [RiskRow.risk_category].
  destruct (ge_threshold (LabRow.hba1c_value l) _),
    (ge_threshold (LabRow.cholesterol_value l) _); cbn; split; discriminate.
Qed.

(** ** Counting the categories *)

Lemma sum_values_insert_count (x : string * nat) (l : list (string * nat)) :
  sum_values (insert_count x l) = (snd x + sum_values l)%nat.
Proof.
  unfold sum_values. induction l as [|y l IH]; cbn [insert_count]; [reflexivity|].
  destruct (snd x <? snd y)%nat; simpl in *; lia.
Qed.

Lemma sum_values_sorted (l : list (string * nat)) :
  sum_values (fold_right insert_count [] l) = sum_values l.
Proof.
  induction l as [|x l IH]; cbn [fold_right]; [reflexivity|].
  rewrite sum_values_insert_count, IH. reflexivity.
Qed.

Lemma sum_indicator (x : string) (ks : list string) :
  NoDup ks ->
  list_sum (map (fun v => if String.eqb v x then 1 else 0)%nat ks)
  = if existsb (String.eqb x) ks then 1%nat else 0%nat.
Proof.
  induction 1 as [|k ks Hk _ IH]; [reflexivity|].
  cbn [map existsb]. change (list_sum (?a :: ?l)) with (a + list_sum l)%nat.
  rewrite IH, (String.eqb_sym x k).
  destruct (String.eqb_spec k x) as [->|_]; cbn [orb]; [|reflexivity].
  destruct (existsb (String.eqb x) ks) eqn:E; [|reflexivity].
  apply existsb_eqb_In in E. contradiction.
Qed.

Lemma sum_counts_cons (x : string) (values ks : list string) :
  list_sum (map (fun v => count_of v (x :: values)) ks)
  = (list_sum (map (fun v => if String.eqb v x then 1 else 0)%nat ks)
     + list_sum (map (fun v => count_of v values) ks))%nat.
Proof.
  induction ks as [|k ks IHk]; [reflexivity|].
  cbn [map]. change (list_sum (?a :: ?l)) with (a + list_sum l)%nat.
  rewrite IHk. unfold count_of; cbn [filter].
  destruct (String.eqb k x); cbn [List.length]; lia.
Qed.

Lemma sum_counts_covering (ks values : list string) :
  NoDup ks -> (forall x, In x values -> In x ks) ->
  list_sum (map (fun v => count_of v values) ks) = List.length values.
Proof.
  intros Hnd. induction values as [|x values IH]; intros Hcov.
  - unfold count_of; cbn [filter List.length]. clear. induction ks; simpl; auto.
  - rewrite sum_counts_cons, (sum_indicator x ks Hnd).
    assert (existsb (String.eqb x) ks = true) as ->
      by (apply existsb_eqb_In, Hcov; now left).
    rewrite IH by (intros; apply Hcov; now right). reflexivity.
Qed.

Lemma sum_value_counts (col : list (option string)) :
  sum_values (value_counts col) = List.length (drop_missing col).
Proof.
  unfold value_counts. rewrite sum_values_sorted. unfold sum_values.
  rewrite map_map. cbn [snd]. apply sum_counts_covering.
  - apply NoDup_unique.
  - intros x Hx. apply In_unique. split; [assumption | intros []].
Qed.

Lemma length_drop_missing_le {A : Type} (col : list (option A)) :
  (List.length (drop_missing col) <= List.length col)%nat.
Proof.
  induction col as [|[a|] col IH]; cbn [drop_missing List.length]; lia.
Qed.

Lemma drop_missing_all_present {A B : Type} (f : A -> option B) (l : list A) :
  (forall x, In x l -> f x <> None) ->
  List.length (drop_missing (map f l)) = List.length l.
Proof.
  induction l as [|x l IH]; intros H; cbn [map drop_missing List.length]; [reflexivity|].
  destruct (f x) eqn:E.
  - cbn [List.length]. rewrite IH; [reflexivity | intros; apply H; now right].
  - exfalso. apply (H x); [now left | assumption].
Qed.

Lemma drop_missing_some_absent {A B : Type} (f : A -> option B) (l : list A) (x : A) :
  In x l -> f x = None ->
  (List.length (drop_missing (map f l)) < List.length l)%nat.
Proof.
  induction l as [|y l IH]; [intros []|].
  intros [->|Hin] Hx; cbn [map drop_missing List.length].
  - rewrite Hx. pose proof (length_drop_missing_le (map f l)) as H.
    rewrite length_map in H. lia.
  - destruct (f y); cbn [List.length]; specialize (IH Hin Hx); lia.
Qed.

Lemma length_drop_missing_filter {A B : Type} (f : A -> option B) (g : A -> bool)
    (l : list A) :
  (forall x, In x l -> (f x = None <-> g x = false)) ->
  List.length (drop_missing (map f l)) = List.length (filter g l).
Proof.
  induction l as [|x l IH]; intros H; cbn [map drop_missing filter]; [reflexivity|].
  assert (f x = None <-> g x = false) as Hx by (apply H; now left).
  assert (List.length (drop_missing (map f l)) = List.length (filter g l)) as IH'
    by (apply IH; intros y Hy; apply H; now right).
  destruct (f x) as [b|], (g x); cbn [List.length]; try (rewrite IH'; reflexivity).
  - destruct Hx as [_ Hx]. specialize (Hx eq_refl). discriminate.
  - destruct Hx as [Hx _]. specialize (Hx eq_refl). discriminate.
Qed.

(** C2, as amended: whenever [score_patient_risks] returns, its table has one
    row per patient of the patient table, in order, and the total is the
    number of patients; the category counts add up to the number of patients
    with an observation of a tracked test, who are those whose risk category
    is not missing; the sum is at most the total, equals it when every
    patient has such an observation, and is smaller as soon as one patient
    has none. *)
Theorem C2_category_counts_sum_to_categorised_patients
    (today : Date) (patients_df : DataFrame Patient.t)
    (observations_df : DataFrame Observation.t) (df : DataFrame Scored.t)
    (s : RiskSummary.t) :
  score_patient_risks today patients_df observations_df = Ok (df, s) ->
  exists patients observations rows,
    patients_df = Frame patients /\ observations_df = Frame observations /\
    df = Frame rows /\
    map (fun r => Enriched.patient (Scored.patient r)) rows = patients /\
    RiskSummary.total_patients s = List.length patients /\
    sum_values (RiskSummary.risk_category_counts s)
      = List.length
          (filter (fun p => has_tracked_lab observations (Patient.patient_id p)) patients) /\
    sum_values (RiskSummary.risk_category_counts s)
      = List.length (drop_missing (map Scored.risk_category rows)) /\
    (sum_values (RiskSummary.risk_category_counts s) <= RiskSummary.total_patients s)%nat /\
    (forall r, In r rows ->
       (Scored.risk_category r = None <->
        has_tracked_lab observations (Enriched.patient_id (Scored.patient r)) = false)) /\
    ((forall p, In p patients ->
        has_tracked_lab observations (Patient.patient_id p) = true) ->
     sum_values (RiskSummary.risk_category_counts s) = RiskSummary.total_patients s) /\
    ((exists p, In p patients /\
        has_tracked_lab observations (Patient.patient_id p) = false) ->
     (sum_values (RiskSummary.risk_category_counts s) < RiskSummary.total_patients s)%nat).
Proof.
  intros H. pose proof H as H'.
  apply score_patient_risks_ok in H' as (enriched & obs & He & -> & -> & Hs).
  destruct (enrich_patient_data_frame _ _ _ He) as (patients & enriched' & -> & _).
  destruct (scored_rows_keep_the_patients _ _ _ _ _ H) as [Hmap Htotal].
  exists patients, obs, (scored_rows enriched obs).
  assert (forall r, In r (scored_rows enriched obs) ->
            (Scored.risk_category r = None <->
             has_tracked_lab obs (Enriched.patient_id (Scored.patient r)) = false)) as Hcat.
  { intros r Hr. rewrite (scored_category_None _ _ _ Hr).
    apply (scored_risk_None enriched), Hr. }
  assert (sum_values (RiskSummary.risk_category_counts s)
          = List.length (drop_missing (map Scored.risk_category (scored_rows enriched obs))))
    as Hsum.
  { subst s. unfold summary_of; cbn [RiskSummary.risk_category_counts].
    apply sum_value_counts. }
  assert (List.length (scored_rows enriched obs) = List.length patients) as Hlen.
  { apply (f_equal (@List.length _)) in Hmap. rewrite length_map in Hmap. exact Hmap. }
  assert (forall p, In p patients ->
            exists r, In r (scored_rows enriched obs) /\
                      Enriched.patient_id (Scored.patient r) = Patient.patient_id p) as Hrow.
  { intros q Hq. rewrite <- Hmap in Hq. apply in_map_iff in Hq as [r [<- Hr]].
    exists r. split; [exact Hr | reflexivity]. }
  split; [reflexivity|]. split; [reflexivity|]. split; [reflexivity|].
  split; [exact Hmap|]. split; [exact Htotal|]. split.
  { rewrite Hsum.
    rewrite (length_drop_missing_filter Scored.risk_category
               (fun r => has_tracked_lab obs (Enriched.patient_id (Scored.patient r))))
      by exact Hcat.
    rewrite <- Hmap. clear.
    induction (scored_rows enriched obs) as [|r rows IH]; [reflexivity|].
    cbn [map filter]. unfold Enriched.patient_id at 1.
    destruct (has_tracked_lab obs _); cbn [List.length]; rewrite IH; reflexivity. }
  split; [exact Hsum|]. split.
  { rewrite Hsum, Htotal, <- Hlen.
    pose proof (length_drop_missing_le (map Scored.risk_category (scored_rows enriched obs)))
      as L.
    rewrite length_map in L. exact L. }
  split; [exact Hcat|]. split.
  - intros Hall. rewrite Hsum, Htotal, <- Hlen. apply drop_missing_all_present.
    intros r Hr Hn. apply (Hcat r Hr) in Hn.
    assert (In (Enriched.patient (Scored.patient r)) patients) as Hp
      by (rewrite <- Hmap; apply in_map_iff; exists r; auto).
    unfold Enriched.patient_id in Hn. rewrite (Hall _ Hp) in Hn. discriminate.
  - intros [q [Hq Hn]]. destruct (Hrow q Hq) as (r & Hr & Hk).
    rewrite Hsum, Htotal, <- Hlen.
    apply (drop_missing_some_absent _ _ r Hr). apply (Hcat r Hr). rewrite Hk. exact Hn.
Qed.

Lemma example_run :
  score_patient_risks example_today (pd_DataFrame example_patients)
    (pd_DataFrame example_observations)
  = Ok (Frame example_scored, summary_of example_scored).
Proof. vm_compute. reflexivity. Qed.

Lemma C2_witness :
  exists patients observations rows,
    pd_DataFrame example_patients = Frame patients /\
    pd_DataFrame example_observations = Frame observations /\
    Frame example_scored = Frame rows /\
    map (fun r => Enriched.patient (Scored.patient r)) rows = patients /\
    RiskSummary.total_patients (summary_of example_scored) = List.length patients /\
    sum_values (RiskSummary.risk_category_counts (summary_of example_scored))
      = List.length
          (filter (fun p => has_tracked_lab observations (Patient.patient_id p)) patients) /\
    sum_values (RiskSummary.risk_category_counts (summary_of example_scored))
      = List.length (drop_missing (map Scored.risk_category rows)) /\
    (sum_values (RiskSummary.risk_category_counts (summary_of example_scored))
     <= RiskSummary.total_patients (summary_of example_scored))%nat /\
    (forall r, In r rows ->
       (Scored.risk_category r = None <->
        has_tracked_lab observations (Enriched.patient_id (Scored.patient r)) = false)) /\
    ((forall p, In p patients ->
        has_tracked_lab observations (Patient.patient_id p) = true) ->
     sum_values (RiskSummary.risk_category_counts (summary_of example_scored))
     = RiskSummary.total_patients (summary_of example_scored)) /\
    ((exists p, In p patients /\
        has_tracked_lab observations (Patient.patient_id p) = false) ->
     (sum_values (RiskSummary.risk_category_counts (summary_of example_scored))
      < RiskSummary.total_patients (summary_of example_scored))%nat).
Proof.
  apply (C2_category_counts_sum_to_categorised_patients example_today
           (pd_DataFrame example_patients)).
  vm_compute. reflexivity.
Defined.

(** Two patients, one without any observation: the category counts add up
    to 1 while the total is 2. *)
Lemma C2_counterexample :
  match score_patient_risks example_today (pd_DataFrame example_patients)
          (pd_DataFrame example_observations) with
  | Ok (_, s) =>
      Some (RiskSummary.risk_category_counts s,
            sum_values (RiskSummary.risk_category_counts s),
            RiskSummary.total_patients s)
  | Raise _ => None
  end = Some ([("Moderate Risk", 1%nat)], 1%nat, 2%nat).
Proof. reflexivity. Qed.

(** ** Patients without lab observations *)

Lemma no_tracked_lab (observations : list Observation.t) (k : string) :
  (forall o, In o observations -> Observation.patient_id o = k -> tracked o = false) ->
  has_tracked_lab observations k = false.
Proof.
  intros H. unfold has_tracked_lab.
  destruct (existsb _ observations) eqn:E; [|reflexivity].
  apply existsb_exists in E as [o [Ho Ht]]. apply andb_true_iff in Ht as [Ht Hk].
  apply String.eqb_eq in Hk. rewrite (H o Ho Hk) in Ht. discriminate.
Qed.

(** C3, as amended: whenever [score_patient_risks] returns, its table has one
    row per patient of the patient table, in order; a patient who has no
    observation of a tracked test, and so a patient with no observation at
    all, has a row there, every row of that patient has its two flags, its
    score, its category and its reasons missing, and the high-risk filter
    returns without any row of that patient. *)
Theorem C3_patient_without_labs_has_missing_risk_and_is_filtered_out
    (today : Date) (patients : list Patient.t)
    (observations : list Observation.t) (rows : list Scored.t) (s : RiskSummary.t)
    (p : Patient.t) :
  score_patient_risks today (Frame patients) (Frame observations) = Ok (Frame rows, s) ->
  In p patients ->
  (forall o, In o observations ->
     Observation.patient_id o = Patient.patient_id p ->
     tracked o = false) ->
  map (fun r => Enriched.patient (Scored.patient r)) rows = patients /\
  (exists r, In r rows /\ Enriched.patient (Scored.patient r) = p) /\
  (forall r, In r rows -> Enriched.patient (Scored.patient r) = p ->
     Scored.diabetes_risk r = None /\
     Scored.cardiovascular_risk r = None /\
     Scored.risk_score r = None /\
     Scored.risk_category r = None /\
     Scored.risk_reasons r = None) /\
  exists high,
    filter_high_risk_patients (Frame rows) = Ok (Frame high) /\
    (forall r, In r high -> Enriched.patient (Scored.patient r) <> p).
Proof.
  intros Hrun Hp Hno.
  destruct (scored_rows_keep_the_patients _ _ _ _ _ Hrun) as [Hmap _].
  apply score_patient_risks_ok in Hrun as (enriched & obs & _ & Ho & Hdf & _).
  injection Ho as <-. injection Hdf as ->.
  assert (forall r, In r (scored_rows enriched observations) ->
            Enriched.patient (Scored.patient r) = p -> Scored.risk r = None) as Hnone.
  { intros r Hr Hrp.
    apply (scored_risk_None enriched observations r Hr), no_tracked_lab.
    unfold Enriched.patient_id. rewrite Hrp. exact Hno. }
  split; [exact Hmap|]. split.
  { rewrite <- Hmap in Hp. apply in_map_iff in Hp as [r [Hrp Hr]]. exists r. auto. }
  split.
  { intros r Hr Hrp.
    unfold Scored.diabetes_risk, Scored.cardiovascular_risk, Scored.risk_score,
      Scored.risk_category, Scored.risk_reasons. rewrite (Hnone r Hr Hrp). cbn [option_map].
    repeat split. }
  eexists. split; [reflexivity|].
  intros r Hr Hrp. apply -> In_sort_by_score_desc in Hr. apply filter_In in Hr as [Hr Hs].
  unfold score_gt_0, Scored.risk_score in Hs. rewrite (Hnone r Hr Hrp) in Hs. discriminate.
Qed.

Lemma C3_witness :
  map (fun r => Enriched.patient (Scored.patient r)) example_scored = example_patients /\
  (exists r, In r example_scored /\
             Enriched.patient (Scored.patient r) = example_patient "p1" "1980-02-29") /\
  (forall r, In r example_scored ->
     Enriched.patient (Scored.patient r) = example_patient "p1" "1980-02-29" ->
     Scored.diabetes_risk r = None /\
     Scored.cardiovascular_risk r = None /\
     Scored.risk_score r = None /\
     Scored.risk_category r = None /\
     Scored.risk_reasons r = None) /\
  exists high,
    filter_high_risk_patients (Frame example_scored) = Ok (Frame high) /\
    (forall r, In r high ->
       Enriched.patient (Scored.patient r) <> example_patient "p1" "1980-02-29").
Proof.
  apply (C3_patient_without_labs_has_missing_risk_and_is_filtered_out example_today
           example_patients example_observations example_scored
           (summary_of example_scored)).
  - vm_compute. reflexivity.
  - left. reflexivity.
  - intros o [<-|[<-|[]]]; vm_compute; discriminate.
Defined.

(** Patient p1 has no observation: in the joined table its flags, score and
    category are missing, not false, 0 and "Low Risk". *)
Lemma C3_counterexample :
  match score_patient_risks example_today (pd_DataFrame example_patients)
          (pd_DataFrame example_observations) with
  | Ok (Frame rows, _) =>
      map (fun r => (Enriched.patient_id (Scored.patient r), Scored.diabetes_risk r,
                     Scored.cardiovascular_risk r, Scored.risk_score r,
                     Scored.risk_category r)) rows
  | _ => []
  end
  = [("p1", None, None, None, None);
     ("p2", Some true, Some false, Some 1%Z, Some "Moderate Risk")].
Proof. reflexivity. Qed.

(** ** Patient references *)

Lemma split_not_nil (sep : ascii) (s : string) : split sep s <> [].
Proof.
  destruct s as [|c s]; cbn [split]; [discriminate|].
  destruct (Ascii.eqb c sep); [discriminate|].
  destruct (split sep s); discriminate.
Qed.

Lemma split_no_slash (s : string) : no_slash s = true -> split "/" s = [s].
Proof.
  induction s as [|c s IH]; cbn [no_slash split]; [reflexivity|].
  intros H. apply andb_true_iff in H as [Hc Hs].
  apply negb_true_iff in Hc. rewrite Hc, (IH Hs). reflexivity.
Qed.

Lemma split_app_slash (pre s : string) :
  split "/" (pre ++ String "/" s) = split "/" pre ++ split "/" s.
Proof.
  induction pre as [|c pre IH]; cbn [String.append split]; [reflexivity|].
  destruct (Ascii.eqb c "/"); rewrite IH; [reflexivity|].
  destruct (split "/" pre) as [|h t] eqn:E; [now apply split_not_nil in E | reflexivity].
Qed.

Lemma last_app_not_nil {A : Type} (l1 l2 : list A) (d : A) :
  l2 <> [] -> last (l1 ++ l2) d = last l2 d.
Proof.
  intros H. induction l1 as [|x l1 IH]; [reflexivity|].
  cbn [app]. destruct (l1 ++ l2) eqn:E; [|exact IH].
  apply app_eq_nil in E as [_ E]. contradiction.
Qed.

Lemma last_segment (pre id : string) :
  no_slash id = true -> last (split "/" (pre ++ String "/" id)) EmptyString = id.
Proof.
  intros H. rewrite split_app_slash, last_app_not_nil by apply split_not_nil.
  rewrite (split_no_slash id H). reflexivity.
Qed.

(** Every text either has no [/] or ends in a [/] and a last segment. *)
Lemma slash_decomposition (s : string) :
  no_slash s = true \/
  exists pre seg, s = (pre ++ String "/" seg)%string /\ no_slash seg = true.
Proof.
  induction s as [|c s [IH|(pre & seg & -> & Hseg)]].
  - left; reflexivity.
  - cbn [no_slash]. destruct (Ascii.eqb_spec c "/") as [->|Hc].
    + right. exists EmptyString, s. split; [reflexivity | assumption].
    + left. rewrite IH. reflexivity.
  - right. exists (String c pre), seg. split; [reflexivity | assumption].
Qed.

Lemma truthy_JStr (s : string) : truthy (JStr s) = negb (String.eqb s "").
Proof. reflexivity. Qed.

Lemma patient_id_of_ref_segment (pre id : string) :
  no_slash id = true ->
  patient_id_of_ref (JStr (pre ++ String "/" id)) = Ok id.
Proof.
  intros H. unfold patient_id_of_ref. rewrite truthy_JStr, last_segment by assumption.
  destruct pre; reflexivity.
Qed.

Lemma patient_id_of_ref_no_slash (s : string) :
  no_slash s = true -> patient_id_of_ref (JStr s) = Ok s.
Proof.
  intros H. unfold patient_id_of_ref. rewrite truthy_JStr, (split_no_slash s H).
  destruct s; reflexivity.
Qed.

Lemma normalize_observation_reference (obs : json) (row : ObservationDict.t) :
  normalize_observation obs = Ok row ->
  exists subject patient_ref,
    dict_get obs "subject" (JObj []) = Ok subject /\
    dict_get subject "reference" (JStr "") = Ok patient_ref /\
    patient_id_of_ref patient_ref = Ok (ObservationDict.patient_id row).
Proof.
  unfold normalize_observation.
  repeat match goal with
         | |- context [bind ?c _] =>
             lazymatch c with
             | bind _ _ => fail
             | _ => let E := fresh "E" in destruct c eqn:E; cbn [bind]; [|discriminate]
             end
         end.
  intros H; injection H as <-. cbn [ObservationDict.patient_id]. eauto.
Qed.

(** C9, as amended: the foreign key of an observation is computed from the
    reference under [subject] alone; a reference text is resolved to what
    follows its last [/], so that "Patient/<id>" gives <id>; a reference that
    is absent, null or empty gives the empty key; a text without [/], such as
    a bare identifier, gives itself and not the empty key; and a reference
    that is neither a text nor falsy raises. *)
Theorem C9_reference_resolves_to_last_segment :
  (forall obs row,
     normalize_observation obs = Ok row ->
     exists subject patient_ref,
       dict_get obs "subject" (JObj []) = Ok subject /\
       dict_get subject "reference" (JStr "") = Ok patient_ref /\
       patient_id_of_ref patient_ref = Ok (ObservationDict.patient_id row)) /\
  (forall id, no_slash id = true ->
     patient_id_of_ref (JStr ("Patient/" ++ id)) = Ok id) /\
  (forall pre seg, no_slash seg = true ->
     patient_id_of_ref (JStr (pre ++ String "/" seg)) = Ok seg) /\
  (forall s, no_slash s = true -> patient_id_of_ref (JStr s) = Ok s) /\
  (forall s, no_slash s = true \/
     exists pre seg, s = (pre ++ String "/" seg)%string /\ no_slash seg = true) /\
  (forall patient_ref, truthy patient_ref = false ->
     patient_id_of_ref patient_ref = Ok EmptyString) /\
  (forall patient_ref, truthy patient_ref = true ->
     (forall s, patient_ref <> JStr s) ->
     patient_id_of_ref patient_ref = Raise (AttributeError "split")).
Proof.
  split; [exact normalize_observation_reference|].
  split; [intros id H; apply (patient_id_of_ref_segment "Patient" id H)|].
  split; [exact patient_id_of_ref_segment|].
  split; [exact patient_id_of_ref_no_slash|].
  split; [exact slash_decomposition|].
  split.
  - intros ref H. unfold patient_id_of_ref. rewrite H. reflexivity.
  - intros ref H Hn. unfold patient_id_of_ref. rewrite H.
    destruct ref; try reflexivity. now destruct (Hn s).
Qed.

(** A reference that lacks the "Patient/" prefix is malformed, and yet the
    observation gets the non-empty key "patient-7". *)
Lemma C9_counterexample :
  normalize_observation
    (JObj [("id", JStr "o1"); ("subject", JObj [("reference", JStr "patient-7")])])
  = Ok (ObservationDict.make (JStr "o1") (JStr "") (JStr "") JNull (JStr "") (JStr "")
          "patient-7").
Proof. reflexivity. Qed.

(** ** Normalisation of the records of the expected shape *)

Lemma dict_get_field (f : list (string * json)) (key : string) (default : json) :
  dict_get (JObj f) key default = Ok (field key f default).
Proof. reflexivity. Qed.

Lemma object_at_ok (key : string) (f g : list (string * json)) :
  object_at key f = Some g -> dict_get (JObj f) key (JObj []) = Ok (JObj g).
Proof.
  unfold object_at, dict_get. destruct (assoc key f) as [[]|]; intros [= <-]; reflexivity.
Qed.

Lemma first_object_ok (key : string) (f g : list (string * json)) :
  first_object key f = Some g ->
  (items <- dict_get (JObj f) key (JArr [JObj []]) ;; index0 items) = Ok (JObj g).
Proof.
  unfold first_object, dict_get. destruct (assoc key f) as [[| | | |[|[]]|]|];
    intros [= <-]; reflexivity.
Qed.

Lemma mapM_traverse {A B : Type} (f : A -> result B) (g : A -> option B) (l : list A)
    (rs : list B) :
  (forall x r, In x l -> g x = Some r -> f x = Ok r) ->
  traverse g l = Some rs -> mapM f l = Ok rs.
Proof.
  revert rs. induction l as [|x l IH]; intros rs Hfg; cbn [traverse mapM].
  - intros [= <-]. reflexivity.
  - destruct (g x) as [r|] eqn:E; cbn [obind]; [|discriminate].
    destruct (traverse g l) as [rs'|] eqn:E'; cbn [obind]; [|discriminate].
    intros [= <-]. rewrite (Hfg x r) by (try left; auto).
    cbn [bind]. rewrite (IH rs') by (auto; intros; apply Hfg; try right; auto).
    reflexivity.
Qed.

Lemma all_strings_join (x : json) (given : list string) :
  all_strings x = Some given ->
  join " " x = Ok (String.concat " " given) /\
  (if truthy x then index0 x else Ok (JStr "")) = Ok (JStr (hd EmptyString given)).
Proof.
  destruct x; try discriminate. cbn [all_strings]. intros H. split.
  - unfold join; cbn [iterate bind].
    rewrite (mapM_traverse as_str str_cell items given); [reflexivity| |assumption].
    intros [] r _; try discriminate. intros [= <-]. reflexivity.
  - destruct items as [|[] items]; cbn [traverse str_cell obind] in H; try discriminate.
    + injection H as <-. reflexivity.
    + destruct (traverse str_cell items); cbn [obind] in H; [|discriminate].
      injection H as <-. reflexivity.
Qed.

Lemma reference_with_defaults_ok (key : string) (f : list (string * json))
    (patient_id : string) :
  reference_with_defaults key f = Some patient_id ->
  exists subject,
    dict_get (JObj f) key (JObj []) = Ok (JObj subject) /\
    patient_id_of_ref (field "reference" subject (JStr "")) = Ok patient_id.
Proof.
  unfold reference_with_defaults. destruct (object_at key f) as [g|] eqn:E; [|discriminate].
  cbn [obind]. destruct (patient_id_of_ref _) eqn:E'; [|discriminate].
  intros [= <-]. exists g. split; [now apply object_at_ok | assumption].
Qed.

Lemma normalize_patient_defaults (format : json -> string) (patient : json)
    (row : PatientDict.t) :
  patient_with_defaults format patient = Some row ->
  normalize_patient format patient = Ok row.
Proof.
  destruct patient as [| | | | |f]; try discriminate. cbn [patient_with_defaults].
  destruct (first_object "name" f) as [name|] eqn:En; [|discriminate]. cbn [obind].
  destruct (all_strings _) as [given|] eqn:Eg; [|discriminate]. cbn [obind].
  destruct (first_object "address" f) as [address|] eqn:Ea; [|discriminate]. cbn [obind].
  intros [= <-]. apply first_object_ok in En, Ea. apply all_strings_join in Eg as [Ej Eh].
  rewrite dict_get_field in En, Ea. cbn [bind] in En, Ea.
  unfold normalize_patient.
  repeat (rewrite ?dict_get_field, ?En, ?Ej, ?Ea, ?Eh; cbn [bind]).
  reflexivity.
Qed.

Lemma normalize_observation_defaults (obs : json) (row : ObservationDict.t) :
  observation_with_defaults obs = Some row -> normalize_observation obs = Ok row.
Proof.
  destruct obs as [| | | | |f]; try discriminate. cbn [observation_with_defaults].
  destruct (object_at "code" f) as [code|] eqn:Ec; [|discriminate]. cbn [obind].
  destruct (object_at "valueQuantity" f) as [vq|] eqn:Ev; [|discriminate]. cbn [obind].
  destruct (reference_with_defaults "subject" f) as [pid|] eqn:Er; [|discriminate].
  cbn [obind]. intros [= <-].
  apply object_at_ok in Ec, Ev. apply reference_with_defaults_ok in Er as (subject & Es & Er).
  unfold normalize_observation.
  rewrite Ec, Ev, Es, !dict_get_field. cbn [bind]. rewrite !dict_get_field. cbn [bind].
  rewrite Er. reflexivity.
Qed.

Lemma normalize_medication_defaults (med : json) (row : MedicationDict.t) :
  medication_with_defaults med = Some row -> normalize_medication med = Ok row.
Proof.
  destruct med as [| | | | |f]; try discriminate. cbn [medication_with_defaults].
  destruct (object_at "medicationCodeableConcept" f) as [concept|] eqn:Ec; [|discriminate].
  cbn [obind].
  destruct (reference_with_defaults "subject" f) as [pid|] eqn:Er; [|discriminate].
  cbn [obind]. intros [= <-].
  apply object_at_ok in Ec. apply reference_with_defaults_ok in Er as (subject & Es & Er).
  unfold normalize_medication.
  rewrite Ec, Es, !dict_get_field. cbn [bind]. rewrite !dict_get_field. cbn [bind].
  rewrite Er. reflexivity.
Qed.

Lemma manifestation_with_defaults_ok (f : list (string * json)) (manifestation : json) :
  manifestation_with_defaults f = Some manifestation ->
  (if truthy (field "reaction" f (JArr [JObj []])) then
     reaction <- index0 (field "reaction" f (JArr [JObj []])) ;;
     manifestations <- dict_get reaction "manifestation" (JArr [JObj []]) ;;
     first <- index0 manifestations ;;
     dict_get first "text" (JStr "")
   else Ok (JStr "")) = Ok manifestation.
Proof.
  unfold manifestation_with_defaults.
  destruct (truthy _); [|intros [= <-]; reflexivity].
  destruct (field "reaction" f _) as [| | | |[|[| | | | |reaction] ?]|]; try discriminate.
  destruct (first_object "manifestation" reaction) as [first|] eqn:E; [|discriminate].
  cbn [option_map]. intros [= <-]. apply first_object_ok in E.
  rewrite dict_get_field in E. cbn [bind] in E.
  cbn [index0 bind]. rewrite dict_get_field. cbn [bind]. rewrite E. reflexivity.
Qed.

Lemma normalize_allergy_defaults (allergy : json) (row : AllergyDict.t) :
  allergy_with_defaults allergy = Some row -> normalize_allergy allergy = Ok row.
Proof.
  destruct allergy as [| | | | |f]; try discriminate. cbn [allergy_with_defaults].
  destruct (object_at "clinicalStatus" f) as [cs|] eqn:Es; [|discriminate]. cbn [obind].
  destruct (object_at "code" f) as [code|] eqn:Ec; [|discriminate]. cbn [obind].
  destruct (manifestation_with_defaults f) as [m|] eqn:Em; [|discriminate]. cbn [obind].
  destruct (reference_with_defaults "patient" f) as [pid|] eqn:Er; [|discriminate].
  cbn [obind]. intros [= <-].
  apply object_at_ok in Es, Ec. apply manifestation_with_defaults_ok in Em.
  apply reference_with_defaults_ok in Er as (patient & Ep & Er).
  unfold normalize_allergy.
  rewrite Es, Ec, Ep, !dict_get_field. cbn [bind]. rewrite !dict_get_field. cbn [bind].
  rewrite Em. cbn [bind]. rewrite Er. reflexivity.
Qed.

Lemma collection_defaults {R : Type} (normalize : json -> result R) (row : json -> option R)
    (key : string) (data : json) (rows : list R) :
  (forall x r, row x = Some r -> normalize x = Ok r) ->
  collection_with_defaults row key data = Some rows ->
  (collection <- dict_get data key (JArr []) ;;
   items <- iterate collection ;;
   records <- mapM normalize items ;;
   Ok (pd_DataFrame records)) = Ok (pd_DataFrame rows).
Proof.
  intros Hrow. destruct data as [| | | | |fields]; try discriminate.
  unfold collection_with_defaults, dict_get.
  destruct (assoc key fields) as [[| | | |items|]|]; try discriminate.
  - intros H. cbn [bind iterate].
    rewrite (mapM_traverse normalize row items rows); [reflexivity| |assumption].
    intros x r _. apply Hrow.
  - intros [= <-]. reflexivity.
Qed.

(** C4, as amended: when every collection of the document is absent or an
    array of records of the expected shape, the load returns the four tables
    of the rows with defaults: no exception, a missing optional field
    replaced by its default, an absent collection read as empty. *)
Theorem C4_expected_shape_normalises_with_defaults
    (format : json -> string) (data : json)
    (patients : list PatientDict.t) (observations : list ObservationDict.t)
    (medications : list MedicationDict.t) (allergies : list AllergyDict.t) :
  collection_with_defaults (patient_with_defaults format) "patients" data = Some patients ->
  collection_with_defaults observation_with_defaults "observations" data = Some observations ->
  collection_with_defaults medication_with_defaults "medications" data = Some medications ->
  collection_with_defaults allergy_with_defaults "allergies" data = Some allergies ->
  load_and_normalize_data format data
  = Ok (pd_DataFrame patients, pd_DataFrame observations,
        pd_DataFrame medications, pd_DataFrame allergies).
Proof.
  intros Hp Ho Hm Ha. unfold load_and_normalize_data.
  unfold normalize_patients, normalize_observations, normalize_medications,
    normalize_allergies.
  rewrite (collection_defaults _ _ _ _ _ (normalize_patient_defaults format) Hp).
  rewrite (collection_defaults _ _ _ _ _ normalize_observation_defaults Ho).
  rewrite (collection_defaults _ _ _ _ _ normalize_medication_defaults Hm).
  rewrite (collection_defaults _ _ _ _ _ normalize_allergy_defaults Ha).
  reflexivity.
Qed.

Lemma C4_witness :
  load_and_normalize_data format_text example_document
  = Ok (pd_DataFrame
          [PatientDict.make (JStr "p1") " " (JStr "") (JStr "") (JStr "female") (JStr "")
             (JStr "") (JStr "") (JStr "")],
        pd_DataFrame
          [ObservationDict.make (JStr "o1") (JStr "") (JStr "") JNull (JStr "") (JStr "") "p1"],
        pd_DataFrame [],
        pd_DataFrame [AllergyDict.make (JStr "a1") (JStr "") (JStr "") (JStr "") ""]).
Proof.
  apply (C4_expected_shape_normalises_with_defaults format_text example_document);
    reflexivity.
Defined.

(** A patient whose [name] is null and an allergy whose [code] is a text
    instead of an object: each makes its normaliser raise, and the second
    one aborts the whole load. *)
Lemma C4_counterexample :
  normalize_patients format_text
    (JObj [("patients", JArr [JObj [("id", JStr "p1"); ("name", JNull)]])])
  = Raise TypeError /\
  normalize_allergies
    (JObj [("allergies", JArr [JObj [("id", JStr "a1"); ("code", JStr "Peanut")]])])
  = Raise (AttributeError "get") /\
  load_and_normalize_data format_text
    (JObj [("patients", JArr [JObj [("id", JStr "p1")]]);
           ("allergies", JArr [JObj [("id", JStr "a1"); ("code", JStr "Peanut")]])])
  = Raise (AttributeError "get").
Proof. repeat split. Qed.

(** ** The lab resolver *)

(** C7 at a failing input: with HbA1c observations of 7.0 on 2023-01-01 and
    without a value on 2023-06-01, the resolver pairs the date of the later
    record with the value of the earlier one, which no record holds, and the
    diabetes rule fires on it; with values on both dates it takes the value
    of 2023-06-01. *)
Theorem C7_latest_value_is_first_non_null :
  get_latest_lab_values (pd_DataFrame example_hba1c_history)
  = Ok (Frame [LabRow.make "p1" (Some (7 # 1)) (Some "2023-06-01") None None]) /\
  risk_classifier (Frame [LabRow.make "p1" (Some (7 # 1)) (Some "2023-06-01") None None])
  = Ok (Frame [RiskRow.make (LabRow.make "p1" (Some (7 # 1)) (Some "2023-06-01") None None)
                 true false 1%Z (Some "Moderate Risk") "Diabetes Risk (HbA1c >= 6.5)"]) /\
  get_latest_lab_values
    (pd_DataFrame [example_observation "p1" "Hemoglobin A1c" (Some (7 # 1)) "2023-01-01";
                   example_observation "p1" "Hemoglobin A1c" (Some (6 # 1)) "2023-06-01"])
  = Ok (Frame [LabRow.make "p1" (Some (6 # 1)) (Some "2023-06-01") None None]).
Proof. repeat split. Qed.

(** *** What the resolver does select

    The order of the dates is the order of [String.compare]. *)

Lemma compare_refl (s : string) : String.compare s s = Eq.
Proof. now apply String_as_OT.cmp_eq. Qed.

Lemma compare_lt_trans (a b c : string) :
  String.compare a b = Lt -> String.compare b c = Lt -> String.compare a c = Lt.
Proof.
  intros H1 H2. apply String_as_OT.cmp_lt.
  apply String_as_OT.cmp_lt in H1, H2. exact (String_as_OT.lt_trans _ _ _ H1 H2).
Qed.

Lemma compare_Gt_Lt (a b : string) : String.compare a b = Gt <-> String.compare b a = Lt.
Proof.
  rewrite (String.compare_antisym a b). destruct (String.compare b a); cbn; split; congruence.
Qed.

Lemma ltb_irrefl (s : string) : String.ltb s s = false.
Proof. unfold String.ltb. now rewrite compare_refl. Qed.

(** [a <= b] and [b <= c] give [a <= c], where [x <= y] is [ltb y x = false]. *)
Lemma ltb_false_trans (a b c : string) :
  String.ltb b a = false -> String.ltb c b = false -> String.ltb c a = false.
Proof.
  unfold String.ltb. intros H1 H2.
  destruct (String.compare b a) eqn:Eba; try discriminate;
    destruct (String.compare c b) eqn:Ecb; try discriminate.
  - apply String.compare_eq_iff in Eba, Ecb. subst. now rewrite compare_refl.
  - apply String.compare_eq_iff in Eba. subst. now rewrite Ecb.
  - apply String.compare_eq_iff in Ecb. subst. now rewrite Eba.
  - apply compare_Gt_Lt in Eba, Ecb.
    pose proof (compare_lt_trans _ _ _ Eba Ecb) as H. apply compare_Gt_Lt in H.
    now rewrite H.
Qed.

Lemma not_after_trans (a b c : Observation.t) :
  not_after a b -> not_after b c -> not_after a c.
Proof.
  unfold not_after, sorts_before. intros Hab Hbc.
  destruct (String.compare (Observation.patient_id b) (Observation.patient_id a)) eqn:Eba;
    try discriminate;
    destruct (String.compare (Observation.patient_id c) (Observation.patient_id b)) eqn:Ecb;
    try discriminate.
  - apply String.compare_eq_iff in Eba, Ecb. rewrite Ecb, Eba, compare_refl.
    exact (ltb_false_trans _ _ _ Hbc Hab).
  - apply String.compare_eq_iff in Eba. rewrite <- Eba, Ecb. reflexivity.
  - apply String.compare_eq_iff in Ecb. rewrite Ecb, Eba. reflexivity.
  - apply compare_Gt_Lt in Eba, Ecb.
    pose proof (compare_lt_trans _ _ _ Eba Ecb) as H. apply compare_Gt_Lt in H.
    now rewrite H.
Qed.

Lemma sorts_before_asym (a b : Observation.t) :
  sorts_before a b = true -> not_after a b.
Proof.
  unfold not_after, sorts_before.
  rewrite (String.compare_antisym (Observation.patient_id b) (Observation.patient_id a)).
  destruct (String.compare (Observation.patient_id a) (Observation.patient_id b));
    cbn; try congruence.
  unfold String.ltb.
  rewrite (String.compare_antisym (Observation.date a) (Observation.date b)).
  destruct (String.compare (Observation.date b) (Observation.date a)); cbn; congruence.
Qed.

Lemma insert_obs_sorted (x : Observation.t) (l : list Observation.t) :
  StronglySorted not_after l -> StronglySorted not_after (insert_obs x l).
Proof.
  induction 1 as [|y l Hl IH Hy]; cbn [insert_obs].
  - repeat constructor.
  - destruct (sorts_before y x) eqn:E.
    + constructor; [exact IH|]. apply Forall_forall. intros z Hz.
      apply In_insert_obs in Hz as [->|Hz]; [now apply sorts_before_asym|].
      rewrite Forall_forall in Hy. now apply Hy.
    + constructor; [now constructor|]. constructor; [exact E|].
      apply Forall_forall. intros z Hz. rewrite Forall_forall in Hy.
      exact (not_after_trans x y z E (Hy z Hz)).
Qed.

Lemma sort_values_sorted (l : list Observation.t) : StronglySorted not_after (sort_values l).
Proof.
  induction l as [|x l IH]; cbn [sort_values fold_right]; [constructor|].
  apply insert_obs_sorted, IH.
Qed.

Lemma filter_sorted (f : Observation.t -> bool) (l : list Observation.t) :
  StronglySorted not_after l -> StronglySorted not_after (filter f l).
Proof.
  induction 1 as [|y l Hl IH Hy]; cbn [filter]; [constructor|].
  destruct (f y); [|exact IH]. constructor; [exact IH|].
  rewrite Forall_forall in *. intros z Hz. apply filter_In in Hz as [Hz _]. now apply Hy.
Qed.

(** The true part of C7: every row of a resolved series belongs to one
    patient with a matching observation; its date is the greatest date among
    that patient's matching observations, and it carries the value of the
    observation [h] with that date which the sort puts first, whenever [h]
    has a value.  (When [h] has none, the value comes from a later row of the
    group, as [first_valid] reads it.) *)
Theorem latest_of_selects_greatest_date
    (test_name : string) (observations : list Observation.t) (row : Latest.t) :
  In row (latest_of test_name observations) ->
  exists h,
    In h observations /\
    lower (Observation.code h) = test_name /\
    Observation.patient_id h = Latest.patient_id row /\
    Latest.date row = Some (Observation.date h) /\
    (forall o, In o observations ->
       lower (Observation.code o) = test_name ->
       Observation.patient_id o = Latest.patient_id row ->
       String.ltb (Observation.date h) (Observation.date o) = false) /\
    (forall v, Observation.value h = Some v -> Latest.value row = Some v).
Proof.
  unfold latest_of, groupby_first.
  set (matching := filter (fun o => String.eqb (lower (Observation.code o)) test_name)
                          observations).
  intros Hrow. apply in_map_iff in Hrow as [k [<- Hk]]. cbn [Latest.patient_id Latest.date
    Latest.value].
  apply In_sort_strings, In_unique in Hk as [Hk _].
  apply in_map_iff in Hk as [o0 [Hk0 Ho0]].
  pose proof (filter_sorted (fun o => String.eqb (Observation.patient_id o) k) _
                (sort_values_sorted matching)) as Hsorted.
  assert (In o0 (filter (fun o => String.eqb (Observation.patient_id o) k)
                        (sort_values matching))) as Hin0.
  { apply filter_In. split; [assumption|]. now apply String.eqb_eq. }
  destruct (filter (fun o => String.eqb (Observation.patient_id o) k) (sort_values matching))
    as [|h group] eqn:Eg; [destruct Hin0|].
  assert (In h (h :: group)) as Hh by now left.
  rewrite <- Eg in Hh. apply filter_In in Hh as [Hh Hhk]. apply String.eqb_eq in Hhk.
  apply -> In_sort_values in Hh. unfold matching in Hh. apply filter_In in Hh as [Hh Hhc].
  apply String.eqb_eq in Hhc.
  exists h. repeat split; try assumption.
  - intros o Ho Hc Hok.
    assert (In o (h :: group)) as [<-|Hog].
    { rewrite <- Eg. apply filter_In. split; [|now apply String.eqb_eq].
      apply In_sort_values. unfold matching. apply filter_In. split; [assumption|].
      now apply String.eqb_eq. }
    + apply ltb_irrefl.
    + apply StronglySorted_inv in Hsorted as [_ Hall]. rewrite Forall_forall in Hall.
      specialize (Hall o Hog). unfold not_after, sorts_before in Hall.
      rewrite Hok, Hhk, compare_refl in Hall. exact Hall.
  - intros v Hv. cbn [map first_valid]. rewrite Hv. reflexivity.
Qed.

(** * Further properties *)

(** ** The loops of the normaliser *)

Lemma mapM_Ok_Forall2 {A B : Type} (f : A -> result B) (l : list A) (rs : list B) :
  mapM f l = Ok rs <-> Forall2 (fun x r => f x = Ok r) l rs.
Proof.
  revert rs. induction l as [|x l IH]; intros rs; cbn [mapM].
  - split; [intros [= <-]; constructor | intros H; inversion H; reflexivity].
  - destruct (f x) as [y|e] eqn:E; cbn [bind].
    + destruct (mapM f l) as [ys|e] eqn:E'; cbn [bind].
      * split.
        -- intros [= <-]. constructor; [assumption | now apply IH].
        -- intros H. inversion H as [|? r ? rs' Hx Hl]; subst.
           apply IH in Hl. congruence.
      * split; [discriminate|]. intros H. inversion H as [|? r ? rs' Hx Hl]; subst.
        apply IH in Hl. discriminate.
    + split; [discriminate|]. intros H. inversion H; subst. congruence.
Qed.

Lemma mapM_first_error {A B : Type} (f : A -> result B) (good rest : list A) (bad : A)
    (e : exn) :
  Forall (fun x => exists r, f x = Ok r) good ->
  f bad = Raise e ->
  mapM f (good ++ bad :: rest) = Raise e.
Proof.
  intros Hgood Hbad. induction Hgood as [|x good [r Hx] _ IH]; cbn [app mapM].
  - rewrite Hbad. reflexivity.
  - rewrite Hx. cbn [bind]. rewrite IH. reflexivity.
Qed.

Lemma collection_rows {R : Type} (normalize : json -> result R) (key : string)
    (data : json) (df : DataFrame R) :
  (collection <- dict_get data key (JArr []) ;;
   items <- iterate collection ;;
   records <- mapM normalize items ;;
   Ok (pd_DataFrame records)) = Ok df ->
  rows_of_collection normalize key data df.
Proof.
  unfold rows_of_collection.
  destruct (dict_get data key (JArr [])) as [collection|] eqn:Ec; cbn [bind]; [|discriminate].
  destruct (iterate collection) as [items|] eqn:Ei; cbn [bind]; [|discriminate].
  destruct (mapM normalize items) as [rows|] eqn:E; cbn [bind]; [|discriminate].
  intros [= <-]. apply mapM_Ok_Forall2 in E.
  exists collection, items, rows.
  split; [reflexivity|]. split; [exact Ei|]. split; [exact E|].
  split; [symmetry; exact (Forall2_length E) | reflexivity].
Qed.

(** X1: when the load returns, each of the four tables holds exactly one row
    per record of its collection, in the order of the collection, and each
    row is the normalisation of its record: no record is dropped, merged or
    reordered, whatever its patient reference. *)
Theorem load_keeps_one_row_per_record
    (format : json -> string) (data : json)
    (patients_df : DataFrame PatientDict.t) (observations_df : DataFrame ObservationDict.t)
    (medications_df : DataFrame MedicationDict.t) (allergies_df : DataFrame AllergyDict.t) :
  load_and_normalize_data format data
  = Ok (patients_df, observations_df, medications_df, allergies_df) ->
  rows_of_collection (normalize_patient format) "patients" data patients_df /\
  rows_of_collection normalize_observation "observations" data observations_df /\
  rows_of_collection normalize_medication "medications" data medications_df /\
  rows_of_collection normalize_allergy "allergies" data allergies_df.
Proof.
  unfold load_and_normalize_data.
  destruct (normalize_patients format data) as [p|] eqn:Ep; cbn [bind]; [|discriminate].
  destruct (normalize_observations data) as [o|] eqn:Eo; cbn [bind]; [|discriminate].
  destruct (normalize_medications data) as [m|] eqn:Em; cbn [bind]; [|discriminate].
  destruct (normalize_allergies data) as [a|] eqn:Ea; cbn [bind]; [|discriminate].
  intros [= <- <- <- <-].
  repeat split; apply collection_rows; assumption.
Qed.

Lemma load_keeps_one_row_per_record_witness :
  rows_of_collection (normalize_patient format_text) "patients" example_document
    (pd_DataFrame
       [PatientDict.make (JStr "p1") " " (JStr "") (JStr "") (JStr "female") (JStr "")
          (JStr "") (JStr "") (JStr "")]) /\
  rows_of_collection normalize_observation "observations" example_document
    (pd_DataFrame
       [ObservationDict.make (JStr "o1") (JStr "") (JStr "") JNull (JStr "") (JStr "") "p1"]) /\
  rows_of_collection normalize_medication "medications" example_document (pd_DataFrame []) /\
  rows_of_collection normalize_allergy "allergies" example_document
    (pd_DataFrame [AllergyDict.make (JStr "a1") (JStr "") (JStr "") (JStr "") ""]).
Proof.
  apply (load_keeps_one_row_per_record format_text example_document).
  reflexivity.
Defined.

(** X2: one observation that fails to normalise aborts the normalisation of
    the whole collection with its exception, the records after it are not
    looked at and the rows before it are lost; the load then raises the same
    exception whenever the patients have normalised. *)
Theorem first_bad_observation_aborts_the_load
    (fields : list (string * json)) (good rest : list json) (bad : json) (e : exn) :
  assoc "observations" fields = Some (JArr (good ++ bad :: rest)) ->
  Forall (fun obs => exists row, normalize_observation obs = Ok row) good ->
  normalize_observation bad = Raise e ->
  normalize_observations (JObj fields) = Raise e /\
  (forall format patients_df,
     normalize_patients format (JObj fields) = Ok patients_df ->
     load_and_normalize_data format (JObj fields) = Raise e).
Proof.
  intros Hk Hgood Hbad.
  assert (normalize_observations (JObj fields) = Raise e) as Ho.
  { unfold normalize_observations, dict_get. rewrite Hk. cbn [bind iterate].
    rewrite (mapM_first_error _ _ _ _ _ Hgood Hbad). reflexivity. }
  split; [exact Ho|]. intros format p Hp.
  unfold load_and_normalize_data. rewrite Hp, Ho. reflexivity.
Qed.

Lemma first_bad_observation_aborts_the_load_witness :
  normalize_observations
    (JObj [("observations",
            JArr ([JObj [("id", JStr "o1")]]
                  ++ JObj [("id", JStr "o2"); ("code", JStr "HbA1c")]
                  :: [JObj [("id", JStr "o3")]]))])
  = Raise (AttributeError "get") /\
  (forall format patients_df,
     normalize_patients format
       (JObj [("observations",
               JArr ([JObj [("id", JStr "o1")]]
                     ++ JObj [("id", JStr "o2"); ("code", JStr "HbA1c")]
                     :: [JObj [("id", JStr "o3")]]))])
     = Ok patients_df ->
     load_and_normalize_data format
       (JObj [("observations",
               JArr ([JObj [("id", JStr "o1")]]
                     ++ JObj [("id", JStr "o2"); ("code", JStr "HbA1c")]
                     :: [JObj [("id", JStr "o3")]]))])
     = Raise (AttributeError "get")).
Proof.
  apply (first_bad_observation_aborts_the_load
           [("observations",
             JArr ([JObj [("id", JStr "o1")]]
                   ++ JObj [("id", JStr "o2"); ("code", JStr "HbA1c")]
                   :: [JObj [("id", JStr "o3")]]))]
           [JObj [("id", JStr "o1")]] [JObj [("id", JStr "o3")]]
           (JObj [("id", JStr "o2"); ("code", JStr "HbA1c")])).
  - reflexivity.
  - constructor; [eexists; reflexivity | constructor].
  - reflexivity.
Defined.

(** ** The foreign keys and the names *)

Ltac step_binds :=
  repeat match goal with
         | |- context [bind ?c _] =>
             lazymatch c with
             | bind _ _ => fail
             | _ => let E := fresh "E" in destruct c eqn:E; cbn [bind]; [|discriminate]
             end
         end.

Lemma patient_id_of_ref_result (patient_ref : json) (k : string) :
  patient_id_of_ref patient_ref = Ok k -> no_slash k = true.
Proof.
  unfold patient_id_of_ref. destruct (truthy patient_ref); [|intros [= <-]; reflexivity].
  destruct patient_ref as [| | |s| |]; try discriminate. intros [= <-].
  destruct (slash_decomposition s) as [H|(pre & seg & -> & H)].
  - rewrite (split_no_slash s H). exact H.
  - rewrite (last_segment pre seg H). exact H.
Qed.

(** X3: the patient key of every normalised observation, medication and
    allergy row is free of [/]: it is never a path such as "Patient/p1". *)
Theorem foreign_keys_have_no_slash :
  (forall obs row, normalize_observation obs = Ok row ->
     no_slash (ObservationDict.patient_id row) = true) /\
  (forall med row, normalize_medication med = Ok row ->
     no_slash (MedicationDict.patient_id row) = true) /\
  (forall allergy row, normalize_allergy allergy = Ok row ->
     no_slash (AllergyDict.patient_id row) = true).
Proof.
  split; [|split].
  - intros obs row. unfold normalize_observation. step_binds.
    intros [= <-]. cbn. eapply patient_id_of_ref_result; eassumption.
  - intros med row. unfold normalize_medication. step_binds.
    intros [= <-]. cbn. eapply patient_id_of_ref_result; eassumption.
  - intros allergy row. unfold normalize_allergy. step_binds.
    intros [= <-]. cbn. eapply patient_id_of_ref_result; eassumption.
Qed.

Lemma join_of_nothing (given_names : json) (joined : string) :
  given_names = JArr [] \/ given_names = JArr [JStr ""] ->
  join " " given_names = Ok joined -> joined = EmptyString.
Proof. intros [->| ->]; cbn; intros [= <-]; reflexivity. Qed.

(** X4: the full name of a normalised patient is the given names joined by
    spaces, one space, and the family name as it is formatted; a record whose
    name has no given names, or an empty list of them, gets a full name that
    starts with that space, and an empty given name. *)
Theorem full_name_is_given_space_family
    (format : json -> string) (f : list (string * json)) (row : PatientDict.t) :
  normalize_patient format (JObj f) = Ok row ->
  exists name given_names joined,
    (names <- dict_get (JObj f) "name" (JArr [JObj []]) ;; index0 names) = Ok (JObj name) /\
    PatientDict.family_name row = field "family" name (JStr "") /\
    given_names = field "given" name (JArr [JStr ""]) /\
    join " " given_names = Ok joined /\
    PatientDict.full_name row
    = (joined ++ " " ++ format (PatientDict.family_name row))%string /\
    (assoc "given" name = None \/ assoc "given" name = Some (JArr []) ->
     PatientDict.full_name row = (" " ++ format (PatientDict.family_name row))%string /\
     PatientDict.given_name row = JStr "").
Proof.
  unfold normalize_patient. rewrite dict_get_field. cbn [bind].
  destruct (dict_get (JObj f) "name" (JArr [JObj []])) as [names|] eqn:En; cbn [bind];
    [|discriminate].
  destruct (index0 names) as [name|] eqn:Ei; cbn [bind]; [|discriminate].
  destruct name as [| | | | |name]; try discriminate.
  rewrite !dict_get_field. cbn [bind].
  destruct (join " " (field "given" name (JArr [JStr ""]))) as [joined|] eqn:Ej; cbn [bind];
    [|discriminate].
  step_binds. intros [= <-]. cbn [PatientDict.full_name PatientDict.family_name
    PatientDict.given_name].
  exists name, (field "given" name (JArr [JStr ""])), joined.
  repeat (split; [reflexivity || assumption|]).
  intros Hg. unfold field in *.
  destruct Hg as [Hg|Hg]; rewrite Hg in *; cbn in Ej; injection Ej as <-;
    match goal with
    | H : (if _ then _ else _) = Ok _ |- _ => cbn in H; injection H as <-
    end; split; reflexivity.
Qed.

Lemma full_name_is_given_space_family_witness :
  exists name given_names joined,
    (names <- dict_get
                (JObj [("id", JStr "p1"); ("name", JArr [JObj [("family", JStr "Lee")]])])
                "name" (JArr [JObj []]) ;;
     index0 names) = Ok (JObj name) /\
    PatientDict.family_name
      (PatientDict.make (JStr "p1") " Lee" (JStr "Lee") (JStr "") (JStr "") (JStr "")
         (JStr "") (JStr "") (JStr ""))
    = field "family" name (JStr "") /\
    given_names = field "given" name (JArr [JStr ""]) /\
    join " " given_names = Ok joined /\
    PatientDict.full_name
      (PatientDict.make (JStr "p1") " Lee" (JStr "Lee") (JStr "") (JStr "") (JStr "")
         (JStr "") (JStr "") (JStr ""))
    = (joined ++ " " ++ format_text (JStr "Lee"))%string /\
    (assoc "given" name = None \/ assoc "given" name = Some (JArr []) ->
     PatientDict.full_name
       (PatientDict.make (JStr "p1") " Lee" (JStr "Lee") (JStr "") (JStr "") (JStr "")
          (JStr "") (JStr "") (JStr ""))
     = (" " ++ format_text (JStr "Lee"))%string /\
     PatientDict.given_name
       (PatientDict.make (JStr "p1") " Lee" (JStr "Lee") (JStr "") (JStr "") (JStr "")
          (JStr "") (JStr "") (JStr ""))
     = JStr "").
Proof.
  apply (full_name_is_given_space_family format_text
           [("id", JStr "p1"); ("name", JArr [JObj [("family", JStr "Lee")]])]).
  reflexivity.
Defined.

(** ** Birthdates and ages *)

Lemma is_digit_bounds (c : ascii) : is_digit c = true -> (0 <= digit c <= 9)%Z.
Proof.
  unfold is_digit, digit. intros H. apply andb_true_iff in H as [H1 H2].
  apply Nat.leb_le in H1, H2. lia.
Qed.

Lemma in_range_bounds (lo hi : Z) (c : ascii) :
  in_range lo hi c = true -> (lo <= digit c <= hi)%Z /\ (0 <= digit c <= 9)%Z.
Proof.
  unfold in_range. intros H. apply andb_true_iff in H as [H H3].
  apply andb_true_iff in H as [H1 H2]. apply is_digit_bounds in H1. lia.
Qed.

Lemma one_digit_month_bounds (a : ascii) (rest : string) (m : Z) (r : string) :
  one_digit_month a rest = Some (m, r) -> (1 <= m <= 9)%Z.
Proof.
  unfold one_digit_month. destruct rest as [|c rest]; [discriminate|].
  destruct c as [[] [] [] [] [] [] [] []]; try discriminate.
  destruct (in_range 1 9 a) eqn:E; [|discriminate]. intros [= <- _].
  apply in_range_bounds in E. lia.
Qed.

Lemma parse_month_bounds (s : string) (m : Z) (r : string) :
  parse_month s = Some (m, r) -> (1 <= m <= 12)%Z.
Proof.
  unfold parse_month. destruct s as [|a rest]; [discriminate|].
  assert (one_digit_month a rest = Some (m, r) -> (1 <= m <= 12)%Z) as Hone.
  { intros H. apply one_digit_month_bounds in H. lia. }
  destruct rest as [|b [|c rest']]; try exact Hone.
  destruct c as [[] [] [] [] [] [] [] []]; try exact Hone.
  destruct (Ascii.eqb a "1" && in_range 0 2 b) eqn:E1.
  - unfold orb. intros H.
    assert (m = (10 * digit a + digit b)%Z) as -> by congruence.
    apply andb_true_iff in E1 as [Ea Eb].
    apply Ascii.eqb_eq in Ea. subst a. apply in_range_bounds in Eb.
    change (digit "1") with 1%Z. lia.
  - unfold orb. destruct (Ascii.eqb a "0" && in_range 1 9 b) eqn:E2; [|exact Hone].
    intros H. assert (m = (10 * digit a + digit b)%Z) as -> by congruence.
    apply andb_true_iff in E2 as [Ea Eb].
    apply Ascii.eqb_eq in Ea. subst a. apply in_range_bounds in Eb.
    change (digit "0") with 0%Z. lia.
Qed.

Lemma parse_day_bounds (s : string) (d : Z) : parse_day s = Some d -> (1 <= d <= 31)%Z.
Proof.
  unfold parse_day. destruct s as [|a [|b [|c rest]]]; try discriminate.
  - destruct (in_range 1 9 a) eqn:E; [|discriminate]. intros H.
    assert (d = digit a) as -> by congruence.
    apply in_range_bounds in E. lia.
  - destruct (Ascii.eqb a "3" && in_range 0 1 b) eqn:E1.
    { unfold orb. intros H. assert (d = (10 * digit a + digit b)%Z) as -> by congruence.
      apply andb_true_iff in E1 as [Ea Eb].
      apply Ascii.eqb_eq in Ea. subst a. apply in_range_bounds in Eb.
      change (digit "3") with 3%Z. lia. }
    destruct (in_range 1 2 a && is_digit b) eqn:E2.
    { unfold orb. intros H. assert (d = (10 * digit a + digit b)%Z) as -> by congruence.
      apply andb_true_iff in E2 as [Ea Eb].
      apply in_range_bounds in Ea. apply is_digit_bounds in Eb. lia. }
    destruct (Ascii.eqb a "0" && in_range 1 9 b) eqn:E3.
    { unfold orb. intros H. assert (d = (10 * digit a + digit b)%Z) as -> by congruence.
      apply andb_true_iff in E3 as [Ea Eb].
      apply Ascii.eqb_eq in Ea. subst a. apply in_range_bounds in Eb.
      change (digit "0") with 0%Z. lia. }
    unfold orb. destruct (Ascii.eqb a " " && in_range 1 9 b) eqn:E4; [|discriminate].
    intros H. assert (d = digit b) as -> by congruence.
    apply andb_true_iff in E4 as [_ Eb]. apply in_range_bounds in Eb. lia.
Qed.

Lemma strptime_calendar_date (s : string) (d : Date) :
  strptime s = Some d -> calendar_date d.
Proof.
  unfold strptime. destruct s as [|y1 [|y2 [|y3 [|y4 [|c rest]]]]]; try discriminate.
  destruct c as [[] [] [] [] [] [] [] []]; try discriminate.
  destruct (is_digit y1 && is_digit y2 && is_digit y3 && is_digit y4) eqn:Ey; [|discriminate].
  apply andb_true_iff in Ey as [Ey E4]. apply andb_true_iff in Ey as [Ey E3].
  apply andb_true_iff in Ey as [E1 E2].
  apply is_digit_bounds in E1, E2, E3, E4.
  destruct (parse_month rest) as [[m rest']|] eqn:Em; [|discriminate].
  destruct (parse_day rest') as [dd|] eqn:Ed; [|discriminate].
  apply parse_month_bounds in Em. apply parse_day_bounds in Ed.
  set (y := (1000 * digit y1 + 100 * digit y2 + 10 * digit y3 + digit y4)%Z).
  destruct ((1 <=? y)%Z && (dd <=? days_in_month y m)%Z) eqn:Ev; [|discriminate].
  intros H. assert (d = mkDate y m dd) as -> by congruence.
  apply andb_true_iff in Ev as [Hy Hd].
  apply Z.leb_le in Hy, Hd. unfold calendar_date; cbn [year month day].
  subst y. lia.
Qed.

Lemma year_difference_counts_anniversaries (today birth : Date) :
  let age :=
    (year today - year birth
     - (if pair_ltb (month today) (day today) (month birth) (day birth) then 1 else 0))%Z in
  date_le (anniversary birth age) today /\
  date_lt today (anniversary birth (age + 1)) /\
  ((0 <= age)%Z <-> date_le birth today).
Proof.
  unfold date_le, date_lt, anniversary, pair_ltb; cbn [year month day].
  destruct (Z.ltb_spec (month today) (month birth)),
    (Z.eqb_spec (month today) (month birth)),
    (Z.ltb_spec (day today) (day birth)); cbn [orb andb]; lia.
Qed.

(** X5: an age is computed only for a birthdate that parses to a date of the
    calendar, and it counts the anniversaries: the birthday of that many
    years later is today or before, the next one is after today.  The age is
    negative exactly when the birthdate is after today. *)
Theorem age_counts_the_anniversaries (today : Date) (birthdate : string) (age : Z) :
  calculate_age today birthdate = Some age ->
  exists birth,
    strptime birthdate = Some birth /\
    calendar_date birth /\
    date_le (anniversary birth age) today /\
    date_lt today (anniversary birth (age + 1)) /\
    ((0 <= age)%Z <-> date_le birth today).
Proof.
  unfold calculate_age. destruct (String.eqb birthdate ""); [discriminate|].
  destruct (strptime birthdate) as [birth|] eqn:Eb; [|discriminate].
  intros [= <-]. exists birth. split; [reflexivity|].
  split; [exact (strptime_calendar_date _ _ Eb)|].
  apply year_difference_counts_anniversaries.
Qed.

Lemma age_counts_the_anniversaries_witness :
  exists birth,
    strptime "2008-11-05" = Some birth /\
    calendar_date birth /\
    date_le (anniversary birth 17) example_today /\
    date_lt example_today (anniversary birth (17 + 1)) /\
    ((0 <= 17)%Z <-> date_le birth example_today).
Proof.
  apply (age_counts_the_anniversaries example_today "2008-11-05" 17).
  reflexivity.
Defined.

Lemma digit_char_digit (k : Z) :
  (0 <= k <= 9)%Z -> is_digit (digit_char k) = true /\ digit (digit_char k) = k.
Proof.
  intros H.
  assert (k = 0 \/ k = 1 \/ k = 2 \/ k = 3 \/ k = 4 \/ k = 5 \/ k = 6 \/ k = 7 \/ k = 8
          \/ k = 9)%Z as Hk by lia.
  repeat destruct Hk as [->|Hk]; try subst k; split; reflexivity.
Qed.

Lemma parse_month_two_digits (m : Z) (rest : string) :
  (1 <= m <= 12)%Z -> parse_month (two_digits m ++ String "-" rest) = Some (m, rest).
Proof.
  intros H.
  assert (m = 1 \/ m = 2 \/ m = 3 \/ m = 4 \/ m = 5 \/ m = 6 \/ m = 7 \/ m = 8 \/ m = 9
          \/ m = 10 \/ m = 11 \/ m = 12)%Z as Hm by lia.
  repeat destruct Hm as [->|Hm]; try subst m; reflexivity.
Qed.

Lemma parse_day_two_digits (d : Z) :
  (1 <= d <= 31)%Z -> parse_day (two_digits d) = Some d.
Proof.
  intros H.
  assert (exists n, d = Z.of_nat n /\ (n <= 31)%nat) as (n & -> & Hn)
    by (exists (Z.to_nat d); lia).
  do 32 (destruct n as [|n]; [try lia; reflexivity|]). lia.
Qed.

Lemma days_in_month_le_31 (y m : Z) : (days_in_month y m <= 31)%Z.
Proof.
  unfold days_in_month. destruct (m =? 2)%Z; [destruct (is_leap y); lia|].
  destruct ((m =? 4) || (m =? 6) || (m =? 9) || (m =? 11))%Z; lia.
Qed.

Lemma strptime_isoformat (d : Date) : calendar_date d -> strptime (isoformat d) = Some d.
Proof.
  destruct d as [y m dd]. unfold calendar_date; cbn [year month day].
  intros (Hy & Hm & Hd).
  pose proof (days_in_month_le_31 y m) as H31.
  assert (0 <= y / 1000 <= 9 /\ 0 <= y / 100 mod 10 <= 9 /\ 0 <= y / 10 mod 10 <= 9
          /\ 0 <= y mod 10 <= 9)%Z as (B1 & B2 & B3 & B4)
    by (Z.div_mod_to_equations; lia).
  destruct (digit_char_digit _ B1) as [I1 D1], (digit_char_digit _ B2) as [I2 D2],
    (digit_char_digit _ B3) as [I3 D3], (digit_char_digit _ B4) as [I4 D4].
  unfold isoformat; cbn [year month day].
  unfold strptime. cbv beta iota.
  rewrite I1, I2, I3, I4, D1, D2, D3, D4. cbn [andb]. cbv zeta.
  rewrite parse_month_two_digits by lia. rewrite parse_day_two_digits by lia.
  replace (1000 * (y / 1000) + 100 * (y / 100 mod 10) + 10 * (y / 10 mod 10) + y mod 10)%Z
    with y by (Z.div_mod_to_equations; lia).
  destruct (Z.leb_spec 1 y); [|lia].
  destruct (Z.leb_spec dd (days_in_month y m)); [|lia].
  reflexivity.
Qed.

(** X6: for every date of the calendar written as YYYY-MM-DD with its fields
    padded with zeros, the age is computed, and it is the number of
    anniversaries that have come: the year difference, less one while the
    birthday of this year is still ahead. *)
Theorem age_of_an_iso_birthdate (today birth : Date) :
  calendar_date birth ->
  calculate_age today (isoformat birth)
  = Some (year today - year birth
          - (if pair_ltb (month today) (day today) (month birth) (day birth) then 1 else 0))%Z
  /\
  exists age,
    calculate_age today (isoformat birth) = Some age /\
    date_le (anniversary birth age) today /\
    date_lt today (anniversary birth (age + 1)).
Proof.
  intros H.
  assert (calculate_age today (isoformat birth)
          = Some (year today - year birth
                  - (if pair_ltb (month today) (day today) (month birth) (day birth)
                     then 1 else 0))%Z) as E.
  { unfold calculate_age. rewrite (strptime_isoformat birth H). reflexivity. }
  split; [exact E|]. eexists. split; [exact E|].
  destruct (year_difference_counts_anniversaries today birth) as (Hle & Hlt & _).
  split; assumption.
Qed.

Lemma age_of_an_iso_birthdate_witness :
  calculate_age example_today (isoformat (mkDate 1980 2 29))
  = Some (year example_today - 1980
          - (if pair_ltb (month example_today) (day example_today) 2 29 then 1 else 0))%Z
  /\
  exists age,
    calculate_age example_today (isoformat (mkDate 1980 2 29)) = Some age /\
    date_le (anniversary (mkDate 1980 2 29) age) example_today /\
    date_lt example_today (anniversary (mkDate 1980 2 29) (age + 1)).
Proof.
  apply (age_of_an_iso_birthdate example_today (mkDate 1980 2 29)).
  unfold calendar_date. vm_compute. intuition discriminate.
Defined.

(** ** The rows of the resolved labs *)

Lemma latest_of_rows (test_name : string) (observations : list Observation.t) :
  latest_of test_name observations
  = map (fun k => latest_row k (group_of k test_name observations))
        (map Latest.patient_id (latest_of test_name observations)).
Proof.
  unfold latest_of at 2. rewrite keys_groupby_first. reflexivity.
Qed.

Lemma In_group_of (k test_name : string) (observations : list Observation.t)
    (o : Observation.t) :
  In o (group_of k test_name observations) <->
  In o observations /\ lower (Observation.code o) = test_name
  /\ Observation.patient_id o = k.
Proof.
  unfold group_of. rewrite filter_In, In_sort_values, filter_In, !String.eqb_eq. tauto.
Qed.

Lemma has_test_true (test_name : string) (observations : list Observation.t) (k : string) :
  has_test test_name observations k = true <->
  exists o, In o observations /\ lower (Observation.code o) = test_name
            /\ Observation.patient_id o = k.
Proof.
  unfold has_test. rewrite existsb_exists. split; intros [o [Ho H]]; exists o.
  - apply andb_true_iff in H as [Hc Hk]. apply String.eqb_eq in Hc, Hk. auto.
  - destruct H as [Hc Hk]. split; [assumption|].
    apply andb_true_iff. split; now apply String.eqb_eq.
Qed.

Lemma has_tracked_lab_tests (observations : list Observation.t) (k : string) :
  has_tracked_lab observations k
  = has_test "hemoglobin a1c" observations k || has_test "cholesterol" observations k.
Proof.
  unfold has_tracked_lab, has_test, tracked.
  induction observations as [|o l IH]; [reflexivity|]. cbn [existsb]. rewrite IH.
  destruct (String.eqb (lower (Observation.code o)) "hemoglobin a1c"),
    (String.eqb (lower (Observation.code o)) "cholesterol"),
    (String.eqb (Observation.patient_id o) k); cbn;
    repeat match goal with |- context [existsb ?f ?l] => destruct (existsb f l) end;
    reflexivity.
Qed.

Lemma find_keyed {R : Type} (key : R -> string) (G : string -> R) (k : string)
    (keys : list string) :
  (forall k', key (G k') = k') ->
  find (fun r => String.eqb (key r) k) (map G keys)
  = if existsb (String.eqb k) keys then Some (G k) else None.
Proof.
  intros HG. induction keys as [|k0 keys IH]; [reflexivity|].
  cbn [map find existsb]. rewrite HG, (String.eqb_sym k k0).
  destruct (String.eqb_spec k0 k) as [->|_]; [reflexivity | exact IH].
Qed.

Lemma existsb_eqb_iff (k : string) (l1 l2 : list string) :
  (In k l1 <-> In k l2) -> existsb (String.eqb k) l1 = existsb (String.eqb k) l2.
Proof.
  intros H. destruct (existsb (String.eqb k) l1) eqn:E1, (existsb (String.eqb k) l2) eqn:E2;
    try reflexivity.
  - apply existsb_eqb_In, H, existsb_eqb_In in E1. congruence.
  - apply existsb_eqb_In, H, existsb_eqb_In in E2. congruence.
Qed.

Lemma lookup_latest_of (k test_name : string) (observations : list Observation.t) :
  lookup_latest k (latest_of test_name observations)
  = if has_test test_name observations k
    then Some (latest_row k (group_of k test_name observations))
    else None.
Proof.
  unfold lookup_latest. rewrite latest_of_rows.
  rewrite (find_keyed Latest.patient_id) by reflexivity.
  replace (existsb (String.eqb k) (map Latest.patient_id (latest_of test_name observations)))
    with (has_test test_name observations k); [reflexivity|].
  destruct (has_test test_name observations k) eqn:E; symmetry.
  - apply existsb_eqb_In, In_keys_latest_of, has_test_true, E.
  - destruct (existsb _ _) eqn:E'; [|reflexivity].
    apply existsb_eqb_In, In_keys_latest_of, has_test_true in E'. congruence.
Qed.

(** The row of the merged labs for one patient. *)
Lemma find_merge_outer (k : string) (observations : list Observation.t) :
  find (fun r => String.eqb (LabRow.patient_id r) k)
       (merge_outer (latest_of "hemoglobin a1c" observations)
                    (latest_of "cholesterol" observations))
  = if has_tracked_lab observations k
    then
      let h := lookup_latest k (latest_of "hemoglobin a1c" observations) in
      let c := lookup_latest k (latest_of "cholesterol" observations) in
      Some (LabRow.make k
              (match h with Some r => Latest.value r | None => None end)
              (match h with Some r => Latest.date r | None => None end)
              (match c with Some r => Latest.value r | None => None end)
              (match c with Some r => Latest.date r | None => None end))
    else None.
Proof.
  unfold merge_outer. rewrite (find_keyed LabRow.patient_id) by reflexivity.
  replace (existsb (String.eqb k) _) with (has_tracked_lab observations k); [reflexivity|].
  pose proof (In_keys_risk_rows observations k) as H. unfold risk_rows in H.
  rewrite map_map in H.
  change (fun x => RiskRow.patient_id (classify_row x)) with LabRow.patient_id in H.
  rewrite keys_merge_outer in H.
  destruct (has_tracked_lab observations k); symmetry.
  - apply existsb_eqb_In, H. reflexivity.
  - destruct (existsb _ _) eqn:E'; [|reflexivity].
    apply existsb_eqb_In, H in E'. discriminate.
Qed.

Lemma NoDup_insert_string (x : string) (l : list string) :
  NoDup l -> ~ In x l -> NoDup (insert_string x l).
Proof.
  induction 1 as [|y l Hy Hl IH]; intros Hx; cbn [insert_string].
  - constructor; [intros [] | constructor].
  - destruct (String.ltb y x).
    + constructor; [|apply IH; intros H; apply Hx; now right].
      rewrite In_insert_string. intros [->|H]; [apply Hx; now left | contradiction].
    + constructor; [exact Hx | now constructor].
Qed.

Lemma NoDup_sort_strings (l : list string) : NoDup l -> NoDup (sort_strings l).
Proof.
  induction 1 as [|x l Hx Hl IH]; cbn [sort_strings fold_right]; [constructor|].
  fold (sort_strings l). apply NoDup_insert_string; [exact IH|].
  now rewrite In_sort_strings.
Qed.

Lemma merge_outer_row (observations : list Observation.t) (row : LabRow.t) :
  In row (merge_outer (latest_of "hemoglobin a1c" observations)
                      (latest_of "cholesterol" observations)) ->
  let k := LabRow.patient_id row in
  has_tracked_lab observations k = true /\
  row = LabRow.make k
          (if has_test "hemoglobin a1c" observations k
           then Latest.value (latest_row k (group_of k "hemoglobin a1c" observations))
           else None)
          (if has_test "hemoglobin a1c" observations k
           then Latest.date (latest_row k (group_of k "hemoglobin a1c" observations))
           else None)
          (if has_test "cholesterol" observations k
           then Latest.value (latest_row k (group_of k "cholesterol" observations))
           else None)
          (if has_test "cholesterol" observations k
           then Latest.date (latest_row k (group_of k "cholesterol" observations))
           else None).
Proof.
  intros Hrow k.
  assert (In k (map LabRow.patient_id
                    (merge_outer (latest_of "hemoglobin a1c" observations)
                                 (latest_of "cholesterol" observations)))) as Hk
    by (apply in_map, Hrow).
  pose proof (In_keys_risk_rows observations k) as Hkeys. unfold risk_rows in Hkeys.
  rewrite map_map in Hkeys.
  change (fun x => RiskRow.patient_id (classify_row x)) with LabRow.patient_id in Hkeys.
  split; [apply Hkeys, Hk|].
  unfold merge_outer in Hrow. apply in_map_iff in Hrow as [k' [Hrow _]].
  assert (k' = k) as -> by (subst row; reflexivity).
  rewrite !lookup_latest_of in Hrow. rewrite <- Hrow.
  destruct (has_test "hemoglobin a1c" observations k),
    (has_test "cholesterol" observations k); reflexivity.
Qed.

Lemma group_of_nonempty (k test_name : string) (observations : list Observation.t) :
  has_test test_name observations k = true ->
  exists h group, group_of k test_name observations = h :: group.
Proof.
  intros H. apply has_test_true in H as [o Ho]. apply In_group_of in Ho.
  destruct (group_of k test_name observations) as [|h g]; [destruct Ho | eauto].
Qed.

Lemma first_valid_In {A : Type} (l : list (option A)) (v : A) :
  first_valid l = Some v -> In (Some v) l.
Proof.
  induction l as [|[a|] l IH]; cbn [first_valid]; [discriminate| |].
  - intros [= ->]. now left.
  - intros H. right. now apply IH.
Qed.

Lemma get_latest_lab_values_rows (observations : list Observation.t) :
  get_latest_lab_values (Frame observations)
  = Ok (Frame (merge_outer (latest_of "hemoglobin a1c" observations)
                           (latest_of "cholesterol" observations))).
Proof. reflexivity. Qed.

(** X7: the resolved labs of a table with columns have exactly one row for
    every patient that has an observation of a tracked test and no row for
    anyone else; a patient with observations of one test only is there with
    the value and the date of the other test missing, and the date of a test
    is present as soon as the patient has an observation of it. *)
Theorem latest_labs_have_one_row_per_tested_patient (observations : list Observation.t) :
  exists labs,
    get_latest_lab_values (Frame observations) = Ok (Frame labs) /\
    NoDup (map LabRow.patient_id labs) /\
    (forall k, In k (map LabRow.patient_id labs) <-> has_tracked_lab observations k = true) /\
    Forall (fun row =>
        (has_test "hemoglobin a1c" observations (LabRow.patient_id row) = false ->
         LabRow.hba1c_value row = None /\ LabRow.hba1c_date row = None) /\
        (has_test "hemoglobin a1c" observations (LabRow.patient_id row) = true ->
         exists d, LabRow.hba1c_date row = Some d) /\
        (has_test "cholesterol" observations (LabRow.patient_id row) = false ->
         LabRow.cholesterol_value row = None /\ LabRow.cholesterol_date row = None) /\
        (has_test "cholesterol" observations (LabRow.patient_id row) = true ->
         exists d, LabRow.cholesterol_date row = Some d))
      labs.
Proof.
  eexists. split; [apply get_latest_lab_values_rows|]. split; [|split].
  - rewrite keys_merge_outer. apply NoDup_sort_strings, NoDup_unique.
  - intros k. pose proof (In_keys_risk_rows observations k) as H. unfold risk_rows in H.
    rewrite map_map in H.
    change (fun x => RiskRow.patient_id (classify_row x)) with LabRow.patient_id in H.
    exact H.
  - apply Forall_forall. intros row Hrow.
    destruct (merge_outer_row observations row Hrow) as [_ Hr].
    set (k := LabRow.patient_id row) in *.
    split; [|split; [|split]]; intros Ht; rewrite Hr;
      cbn [LabRow.hba1c_value LabRow.hba1c_date LabRow.cholesterol_value
           LabRow.cholesterol_date]; rewrite Ht; try (split; reflexivity);
      destruct (group_of_nonempty _ _ _ Ht) as (h & g & ->); eexists; reflexivity.
Qed.

Lemma latest_row_In (k test_name : string) (observations : list Observation.t) :
  has_test test_name observations k = true ->
  In (latest_row k (group_of k test_name observations)) (latest_of test_name observations).
Proof.
  intros H. pose proof (lookup_latest_of k test_name observations) as L.
  rewrite H in L. unfold lookup_latest in L. apply find_some in L. tauto.
Qed.

Lemma latest_row_value_observed (k test_name : string) (observations : list Observation.t)
    (v : Q) :
  Latest.value (latest_row k (group_of k test_name observations)) = Some v ->
  observed_value test_name observations k v.
Proof.
  cbn [latest_row Latest.value]. intros H. apply first_valid_In, in_map_iff in H.
  destruct H as [o [Hv Ho]]. apply In_group_of in Ho as (Ho & Hc & Hk).
  exists o. repeat split; assumption.
Qed.

(** X9: every value in the resolved labs is the value of an observation of
    that very test for that very patient: no value is made up, taken from
    another test or from another patient, also when the latest observation
    has none. *)
Theorem latest_labs_values_are_observed
    (observations : list Observation.t) (labs : list LabRow.t) (row : LabRow.t) :
  get_latest_lab_values (Frame observations) = Ok (Frame labs) ->
  In row labs ->
  (forall v, LabRow.hba1c_value row = Some v ->
     observed_value "hemoglobin a1c" observations (LabRow.patient_id row) v) /\
  (forall v, LabRow.cholesterol_value row = Some v ->
     observed_value "cholesterol" observations (LabRow.patient_id row) v).
Proof.
  rewrite get_latest_lab_values_rows. intros [= <-] Hrow.
  destruct (merge_outer_row observations row Hrow) as [_ Hr].
  set (k := LabRow.patient_id row) in *.
  split; intros v Hv; rewrite Hr in Hv;
    cbn [LabRow.hba1c_value LabRow.cholesterol_value] in Hv.
  - destruct (has_test "hemoglobin a1c" observations k); [|discriminate].
    now apply latest_row_value_observed.
  - destruct (has_test "cholesterol" observations k); [|discriminate].
    now apply latest_row_value_observed.
Qed.

Lemma latest_labs_values_are_observed_witness :
  (forall v,
     LabRow.hba1c_value (LabRow.make "p1" (Some (7 # 1)) (Some "2023-06-01") None None)
     = Some v ->
     observed_value "hemoglobin a1c" example_hba1c_history "p1" v) /\
  (forall v,
     LabRow.cholesterol_value (LabRow.make "p1" (Some (7 # 1)) (Some "2023-06-01") None None)
     = Some v ->
     observed_value "cholesterol" example_hba1c_history "p1" v).
Proof.
  apply (latest_labs_values_are_observed example_hba1c_history
           [LabRow.make "p1" (Some (7 # 1)) (Some "2023-06-01") None None]
           (LabRow.make "p1" (Some (7 # 1)) (Some "2023-06-01") None None)).
  - reflexivity.
  - left. reflexivity.
Defined.

(** ** What a patient's risk depends on *)

Lemma insert_obs_head (x : Observation.t) (l : list Observation.t) :
  (forall z, In z l -> not_after x z) -> insert_obs x l = x :: l.
Proof.
  destruct l as [|y l]; [reflexivity|]. intros H. cbn [insert_obs].
  rewrite (H y) by now left. reflexivity.
Qed.

Lemma filter_insert_obs (f : Observation.t -> bool) (x : Observation.t)
    (l : list Observation.t) :
  StronglySorted not_after l ->
  filter f (insert_obs x l) = if f x then insert_obs x (filter f l) else filter f l.
Proof.
  induction 1 as [|y l Hl IH Hy]; cbn [insert_obs filter].
  - destruct (f x); reflexivity.
  - destruct (sorts_before y x) eqn:E; cbn [filter].
    + rewrite IH. destruct (f y), (f x); try reflexivity.
      cbn [insert_obs]. rewrite E. reflexivity.
    + destruct (f x); [|reflexivity].
      symmetry. apply (insert_obs_head x (filter f (y :: l))).
      intros z Hz. apply filter_In in Hz as [[<-|Hz] _]; [exact E|].
      rewrite Forall_forall in Hy. exact (not_after_trans x y z E (Hy z Hz)).
Qed.

Lemma filter_sort_values (f : Observation.t -> bool) (l : list Observation.t) :
  filter f (sort_values l) = sort_values (filter f l).
Proof.
  induction l as [|x l IH]; [reflexivity|]. cbn [sort_values fold_right filter].
  fold (sort_values l). rewrite filter_insert_obs by apply sort_values_sorted.
  rewrite IH. destruct (f x); reflexivity.
Qed.

Lemma filter_filter_comm {A : Type} (f g : A -> bool) (l : list A) :
  filter f (filter g l) = filter g (filter f l).
Proof.
  induction l as [|x l IH]; [reflexivity|]. cbn [filter].
  destruct (f x) eqn:Ef, (g x) eqn:Eg; cbn [filter]; rewrite ?Ef, ?Eg, IH; reflexivity.
Qed.

Lemma filter_idem {A : Type} (f : A -> bool) (l : list A) :
  filter f (filter f l) = filter f l.
Proof.
  induction l as [|x l IH]; [reflexivity|]. cbn [filter].
  destruct (f x) eqn:Ef; cbn [filter]; rewrite ?Ef, IH; reflexivity.
Qed.

Lemma group_of_sorted_filter (k test_name : string) (observations : list Observation.t) :
  group_of k test_name observations
  = sort_values
      (filter (fun o => String.eqb (lower (Observation.code o)) test_name)
              (observations_of k observations)).
Proof.
  unfold group_of, observations_of. rewrite filter_sort_values, filter_filter_comm.
  reflexivity.
Qed.

Lemma has_test_of_group (test_name : string) (observations : list Observation.t)
    (k : string) :
  has_test test_name observations k
  = match group_of k test_name observations with [] => false | _ :: _ => true end.
Proof.
  destruct (has_test test_name observations k) eqn:E.
  - destruct (group_of_nonempty _ _ _ E) as (h & g & ->). reflexivity.
  - destruct (group_of k test_name observations) as [|h g] eqn:Eg; [reflexivity|].
    assert (In h (group_of k test_name observations)) as Hh by (rewrite Eg; now left).
    apply In_group_of in Hh.
    assert (has_test test_name observations k = true) as H
      by (apply has_test_true; exists h; exact Hh).
    congruence.
Qed.

Lemma ltb_asym (a b : string) : String.ltb a b = true -> String.ltb b a = false.
Proof.
  unfold String.ltb. rewrite (String.compare_antisym a b).
  destruct (String.compare b a); cbn; congruence.
Qed.

Lemma filter_split {A : Type} (f : A -> bool) (l a b : list A) (x : A) :
  filter f l = a ++ x :: b ->
  exists a' b', l = a' ++ x :: b' /\ filter f a' = a /\ filter f b' = b.
Proof.
  revert a. induction l as [|y l IH]; intros a H; cbn [filter] in H.
  - destruct a; discriminate.
  - destruct (f y) eqn:E.
    + destruct a as [|z a]; cbn [app] in H; injection H as Hy H.
      * subst y. exists [], l. repeat split. exact H.
      * subst z. destruct (IH a H) as (a' & b' & -> & <- & <-).
        exists (y :: a'), b'. cbn [app filter]. rewrite E. repeat split.
    + destruct (IH a H) as (a' & b' & -> & <- & <-).
      exists (y :: a'), b'. cbn [app filter]. rewrite E. repeat split.
Qed.

(** The stable sort of the observations of one patient begins with the
    first observation of the input that holds the greatest date. *)
Lemma sort_values_head (k : string) (l g : list Observation.t) (h : Observation.t) :
  Forall (fun o => Observation.patient_id o = k) l ->
  sort_values l = h :: g ->
  exists before after,
    l = before ++ h :: after /\
    Forall (fun o => String.ltb (Observation.date o) (Observation.date h) = true) before /\
    Forall (fun o => String.ltb (Observation.date h) (Observation.date o) = false) after.
Proof.
  revert h g. induction l as [|x l IH]; intros h g Hk Hs; [discriminate|].
  cbn [sort_values fold_right] in Hs. fold (sort_values l) in Hs.
  inversion Hk as [|? ? Hx Hl]; subst.
  destruct (sort_values l) as [|h' g'] eqn:E.
  - destruct l as [|y l].
    + cbn [insert_obs] in Hs. injection Hs as <- <-.
      exists [], []. repeat split; constructor.
    + assert (In y (sort_values (y :: l))) as Hy by (apply In_sort_values; now left).
      rewrite E in Hy. destruct Hy.
  - assert (Observation.patient_id h' = Observation.patient_id x) as Hh'.
    { assert (In h' (sort_values l)) as Hin by (rewrite E; now left).
      apply -> In_sort_values in Hin. rewrite Forall_forall in Hl. exact (Hl h' Hin). }
    destruct (IH h' g' Hl eq_refl) as (b & a & El & Hb & Ha).
    cbn [insert_obs] in Hs. destruct (sorts_before h' x) eqn:Eb.
    + injection Hs as <- <-. exists (x :: b), a. rewrite El. split; [reflexivity|].
      split; [|exact Ha]. constructor; [|exact Hb].
      unfold sorts_before in Eb. rewrite Hh', compare_refl in Eb. exact Eb.
    + injection Hs as <- <-. exists [], l. split; [reflexivity|]. split; [constructor|].
      unfold sorts_before in Eb. rewrite Hh', compare_refl in Eb.
      apply Forall_forall. intros o Ho. rewrite El in Ho.
      apply (ltb_false_trans (Observation.date o) (Observation.date h')
               (Observation.date x)); [|exact Eb].
      rewrite Forall_forall in Hb, Ha.
      apply in_app_or in Ho as [Ho|[<-|Ho]];
        [apply ltb_asym, Hb, Ho | apply ltb_irrefl | apply Ha, Ho].
Qed.

Lemma latest_row_is_latest (k test_name d : string) (observations : list Observation.t) :
  has_test test_name observations k = true ->
  Latest.date (latest_row k (group_of k test_name observations)) = Some d ->
  latest_observation test_name observations k d
    (Latest.value (latest_row k (group_of k test_name observations))).
Proof.
  intros Ht Hd.
  destruct (group_of_nonempty _ _ _ Ht) as (h & g & Eg).
  assert (In h (group_of k test_name observations)) as Hh by (rewrite Eg; now left).
  apply In_group_of in Hh as (_ & Hc & Hk).
  rewrite Eg in Hd |- *. cbn [latest_row Latest.date Latest.value map first_valid] in Hd |- *.
  injection Hd as <-.
  rewrite group_of_sorted_filter in Eg.
  apply (sort_values_head k) in Eg as (b & a & El & Hb & Ha).
  2:{ apply Forall_forall. intros o Ho. apply filter_In in Ho as [Ho _].
      unfold observations_of in Ho. apply filter_In in Ho as [_ Ho].
      now apply String.eqb_eq. }
  apply filter_split in El as (b1 & a1 & El & Hb1 & Ha1).
  unfold observations_of in El. apply filter_split in El as (b2 & a2 & El & Hb2 & Ha2).
  rewrite Forall_forall in Hb, Ha.
  exists h, b2, a2. split; [exact El|]. split; [exact Hc|]. split; [exact Hk|].
  split; [reflexivity|]. split; [|split].
  - intros o Ho Hoc Hok. apply Hb. rewrite <- Hb1. apply filter_In.
    split; [|now apply String.eqb_eq]. rewrite <- Hb2. apply filter_In.
    split; [exact Ho | now apply String.eqb_eq].
  - intros o Ho Hoc Hok. apply Ha. rewrite <- Ha1. apply filter_In.
    split; [|now apply String.eqb_eq]. rewrite <- Ha2. apply filter_In.
    split; [exact Ho | now apply String.eqb_eq].
  - intros v Hv. rewrite Hv. reflexivity.
Qed.

(** X8: whenever the resolved labs give a date for a test, it is the
    greatest date among the patient's observations of that test (in the
    order of the texts), and the value next to it is the value of the first
    observation of the input that holds this date, whenever that observation
    has a value: on a tie of dates the earlier record of the input wins. *)
Theorem latest_labs_carry_the_greatest_date
    (observations : list Observation.t) (labs : list LabRow.t) (row : LabRow.t) :
  get_latest_lab_values (Frame observations) = Ok (Frame labs) ->
  In row labs ->
  (forall d, LabRow.hba1c_date row = Some d ->
     latest_observation "hemoglobin a1c" observations (LabRow.patient_id row) d
       (LabRow.hba1c_value row)) /\
  (forall d, LabRow.cholesterol_date row = Some d ->
     latest_observation "cholesterol" observations (LabRow.patient_id row) d
       (LabRow.cholesterol_value row)).
Proof.
  rewrite get_latest_lab_values_rows. intros [= <-] Hrow.
  destruct (merge_outer_row observations row Hrow) as [_ Hr].
  set (k := LabRow.patient_id row) in *.
  split; intros d Hd; rewrite Hr in Hd |- *;
    cbn [LabRow.hba1c_value LabRow.hba1c_date LabRow.cholesterol_value
         LabRow.cholesterol_date] in Hd |- *.
  - destruct (has_test "hemoglobin a1c" observations k) eqn:Ht; [|discriminate].
    now apply latest_row_is_latest.
  - destruct (has_test "cholesterol" observations k) eqn:Ht; [|discriminate].
    now apply latest_row_is_latest.
Qed.

Lemma latest_labs_carry_the_greatest_date_witness :
  (forall d,
     LabRow.hba1c_date
       (LabRow.make "p1" (Some (6 # 1)) (Some "2023-06-01") (Some (250 # 1))
          (Some "2023-09-01"))
     = Some d ->
     latest_observation "hemoglobin a1c" example_hba1c_tie "p1" d (Some (6 # 1))) /\
  (forall d,
     LabRow.cholesterol_date
       (LabRow.make "p1" (Some (6 # 1)) (Some "2023-06-01") (Some (250 # 1))
          (Some "2023-09-01"))
     = Some d ->
     latest_observation "cholesterol" example_hba1c_tie "p1" d (Some (250 # 1))).
Proof.
  apply (latest_labs_carry_the_greatest_date example_hba1c_tie
           [LabRow.make "p1" (Some (6 # 1)) (Some "2023-06-01") (Some (250 # 1))
              (Some "2023-09-01")]
           (LabRow.make "p1" (Some (6 # 1)) (Some "2023-06-01") (Some (250 # 1))
              (Some "2023-09-01"))).
  - reflexivity.
  - left. reflexivity.
Defined.

Lemma find_risk_rows (k : string) (observations : list Observation.t) :
  find (fun rr => String.eqb (RiskRow.patient_id rr) k) (risk_rows observations)
  = option_map classify_row
      (find (fun r => String.eqb (LabRow.patient_id r) k)
            (merge_outer (latest_of "hemoglobin a1c" observations)
                         (latest_of "cholesterol" observations))).
Proof.
  unfold risk_rows.
  induction (merge_outer _ _) as [|l labs IH]; [reflexivity|].
  cbn [map find]. change (RiskRow.patient_id (classify_row l)) with (LabRow.patient_id l).
  destruct (String.eqb (LabRow.patient_id l) k); [reflexivity | exact IH].
Qed.

(** The risk of one patient is a function of that patient's observations. *)
Lemma risk_of_patient_local (k : string) (observations observations' : list Observation.t) :
  observations_of k observations = observations_of k observations' ->
  find (fun rr => String.eqb (RiskRow.patient_id rr) k) (risk_rows observations)
  = find (fun rr => String.eqb (RiskRow.patient_id rr) k) (risk_rows observations').
Proof.
  intros H. rewrite !find_risk_rows, !find_merge_outer, !lookup_latest_of.
  rewrite !has_tracked_lab_tests, !has_test_of_group, !group_of_sorted_filter, H.
  reflexivity.
Qed.

(** X10: the row that [score_patient_risks] gives a patient depends on the
    observations of that patient alone: two runs over the same patients whose
    observation tables hold the same observations for the patient, in the same
    order, give that patient the same row, whatever else the tables hold. *)
Theorem a_patient_row_depends_on_own_observations
    (today : Date) (patients_df : DataFrame Patient.t)
    (observations observations' : list Observation.t)
    (rows rows' : list Scored.t) (s s' : RiskSummary.t)
    (i : nat) (r r' : Scored.t) :
  score_patient_risks today patients_df (Frame observations) = Ok (Frame rows, s) ->
  score_patient_risks today patients_df (Frame observations') = Ok (Frame rows', s') ->
  nth_error rows i = Some r ->
  nth_error rows' i = Some r' ->
  observations_of (Enriched.patient_id (Scored.patient r)) observations
  = observations_of (Enriched.patient_id (Scored.patient r)) observations' ->
  r = r'.
Proof.
  intros H1 H2 Hr Hr' Hobs.
  apply score_patient_risks_ok in H1 as (e1 & o1 & He1 & Ho1 & Hd1 & _).
  apply score_patient_risks_ok in H2 as (e2 & o2 & He2 & Ho2 & Hd2 & _).
  injection Ho1 as <-. injection Ho2 as <-. injection Hd1 as ->. injection Hd2 as ->.
  rewrite He1 in He2. injection He2 as <-.
  unfold scored_rows in Hr, Hr'. rewrite nth_error_map in Hr, Hr'.
  destruct (nth_error e1 i) as [p|]; [|discriminate].
  cbn [option_map] in Hr, Hr'. injection Hr as <-. injection Hr' as <-.
  cbn [Scored.patient] in Hobs. f_equal. now apply risk_of_patient_local.
Qed.

Lemma a_patient_row_depends_on_own_observations_witness :
  example_row_p2 example_observations = example_row_p2 example_observations_more.
Proof.
  apply (a_patient_row_depends_on_own_observations example_today
           (pd_DataFrame example_patients) example_observations example_observations_more
           (scored_rows example_enriched example_observations)
           (scored_rows example_enriched example_observations_more)
           (summary_of (scored_rows example_enriched example_observations))
           (summary_of (scored_rows example_enriched example_observations_more))
           1).
  - vm_compute. reflexivity.
  - vm_compute. reflexivity.
  - reflexivity.
  - reflexivity.
  - reflexivity.
Defined.

(** ** What the resolver reads of an observation *)

Lemma sorts_before_same (x x' y y' : Observation.t) :
  same_lab_content x x' -> same_lab_content y y' ->
  sorts_before x y = sorts_before x' y'.
Proof.
  intros (Hp & _ & _ & Hd) (Hp' & _ & _ & Hd'). unfold sorts_before.
  rewrite Hp, Hp', Hd, Hd'. reflexivity.
Qed.

Lemma insert_obs_same (x x' : Observation.t) (l l' : list Observation.t) :
  same_lab_content x x' -> Forall2 same_lab_content l l' ->
  Forall2 same_lab_content (insert_obs x l) (insert_obs x' l').
Proof.
  intros Hx. induction 1 as [|y y' l l' Hy Hl IH]; cbn [insert_obs].
  - constructor; [exact Hx | constructor].
  - rewrite (sorts_before_same y y' x x' Hy Hx).
    destruct (sorts_before y' x').
    + constructor; assumption.
    + constructor; [exact Hx|]. constructor; assumption.
Qed.

Lemma sort_values_same (l l' : list Observation.t) :
  Forall2 same_lab_content l l' ->
  Forall2 same_lab_content (sort_values l) (sort_values l').
Proof.
  induction 1 as [|x x' l l' Hx Hl IH]; cbn [sort_values fold_right]; [constructor|].
  now apply insert_obs_same.
Qed.

Lemma filter_same (f : Observation.t -> bool) (l l' : list Observation.t) :
  (forall o o', same_lab_content o o' -> f o = f o') ->
  Forall2 same_lab_content l l' ->
  Forall2 same_lab_content (filter f l) (filter f l').
Proof.
  intros Hf. induction 1 as [|x x' l l' Hx Hl IH]; cbn [filter]; [constructor|].
  rewrite (Hf x x' Hx). destruct (f x'); [constructor|]; assumption.
Qed.

Lemma map_same {B : Type} (g : Observation.t -> B) (l l' : list Observation.t) :
  (forall o o', same_lab_content o o' -> g o = g o') ->
  Forall2 same_lab_content l l' -> map g l = map g l'.
Proof.
  intros Hg. induction 1 as [|x x' l l' Hx Hl IH]; cbn [map]; [reflexivity|].
  rewrite (Hg x x' Hx), IH. reflexivity.
Qed.

Lemma groupby_first_same (rows rows' : list Observation.t) :
  Forall2 same_lab_content rows rows' -> groupby_first rows = groupby_first rows'.
Proof.
  intros H. unfold groupby_first.
  rewrite (map_same Observation.patient_id rows rows' (fun o o' Ho => proj1 Ho) H).
  apply map_ext. intros k.
  assert (Forall2 same_lab_content
            (filter (fun o => String.eqb (Observation.patient_id o) k) rows)
            (filter (fun o => String.eqb (Observation.patient_id o) k) rows')) as Hg.
  { apply filter_same; [|exact H]. intros o o' (Hp & _). now rewrite Hp. }
  rewrite (map_same Observation.value _ _ (fun o o' Ho => proj1 (proj2 (proj2 Ho))) Hg).
  rewrite (map_same (fun o => Some (Observation.date o)) _ _
             (fun o o' Ho => f_equal Some (proj2 (proj2 (proj2 Ho)))) Hg).
  reflexivity.
Qed.

(** X11: the resolved labs read nothing of an observation but its patient,
    its test name up to the case of the letters, its value and its date: two
    tables that agree on these, row by row, resolve to the same labs, whatever
    their identifiers, statuses and units. *)
Theorem latest_labs_ignore_case_and_other_columns
    (observations observations' : list Observation.t) :
  Forall2 same_lab_content observations observations' ->
  get_latest_lab_values (Frame observations) = get_latest_lab_values (Frame observations').
Proof.
  intros H. rewrite !get_latest_lab_values_rows. do 3 f_equal; unfold latest_of;
    apply groupby_first_same, sort_values_same, filter_same; try exact H;
    intros o o' (_ & Hc & _); now rewrite Hc.
Qed.

Lemma latest_labs_ignore_case_and_other_columns_witness :
  get_latest_lab_values
    (Frame [Observation.make "o1" "final" "Hemoglobin A1c" (Some (7 # 1)) "%" "2023-01-01" "p1"])
  = get_latest_lab_values
      (Frame [Observation.make "x9" "amended" "HEMOGLOBIN A1C" (Some (7 # 1)) "" "2023-01-01"
                "p1"]).
Proof.
  apply latest_labs_ignore_case_and_other_columns.
  constructor; [repeat split | constructor].
Defined.

(** ** The rows and the numbers of a run *)

(** X12: when the scoring returns, its table has exactly one row per row of
    the patient table, in the same order and with the patient's columns
    unchanged (a patient without labs and a patient listed twice included),
    the total of the summary is the number of patients, and the risk columns
    of a row, when present, are those computed for the patient's own key. *)
Theorem every_patient_gets_one_row
    (today : Date) (patients : list Patient.t) (observations_df : DataFrame Observation.t)
    (rows : list Scored.t) (s : RiskSummary.t) :
  score_patient_risks today (Frame patients) observations_df = Ok (Frame rows, s) ->
  map (fun r => Enriched.patient (Scored.patient r)) rows = patients /\
  RiskSummary.total_patients s = List.length patients /\
  Forall (fun r => forall rr, Scored.risk r = Some rr ->
                   RiskRow.patient_id rr = Enriched.patient_id (Scored.patient r))
         rows.
Proof.
  intros H. destruct (scored_rows_keep_the_patients _ _ _ _ _ H) as [Hmap Ht].
  split; [exact Hmap|]. split; [exact Ht|].
  apply score_patient_risks_ok in H as (enriched & obs & _ & _ & Hd & _).
  injection Hd as ->.
  apply Forall_forall. intros r Hr rr Hrr. unfold scored_rows in Hr.
  apply in_map_iff in Hr as [p [<- _]]. cbn [Scored.risk Scored.patient] in *.
  apply find_some in Hrr as [_ Hk]. now apply String.eqb_eq in Hk.
Qed.

Lemma every_patient_gets_one_row_witness :
  map (fun r => Enriched.patient (Scored.patient r)) example_scored = example_patients /\
  RiskSummary.total_patients (summary_of example_scored) = List.length example_patients /\
  Forall (fun r => forall rr, Scored.risk r = Some rr ->
                   RiskRow.patient_id rr = Enriched.patient_id (Scored.patient r))
         example_scored.
Proof.
  apply (every_patient_gets_one_row example_today example_patients
           (pd_DataFrame example_observations)).
  vm_compute. reflexivity.
Defined.

(** ** The arithmetic of the percentages

    The rounding of [SpecFloat] on the mantissas that occur here: at least
    53 bits, exponents far from the subnormal and the overflow range. *)

Section Binary64.
Local Open Scope Z_scope.

Lemma digits2_pos_bounds (p : positive) :
  2 ^ (Zpos (digits2_pos p) - 1) <= Zpos p < 2 ^ Zpos (digits2_pos p).
Proof.
  induction p as [p IH|p IH|]; cbn [digits2_pos].
  - rewrite Pos2Z.inj_succ. replace (Z.succ (Zpos (digits2_pos p)) - 1) with
      (Z.succ (Zpos (digits2_pos p) - 1)) by lia.
    rewrite !Z.pow_succ_r by lia. lia.
  - rewrite Pos2Z.inj_succ. replace (Z.succ (Zpos (digits2_pos p)) - 1) with
      (Z.succ (Zpos (digits2_pos p) - 1)) by lia.
    rewrite !Z.pow_succ_r by lia. lia.
  - cbn. lia.
Qed.

Lemma digits2_pos_unique (p : positive) (n : Z) :
  2 ^ (n - 1) <= Zpos p < 2 ^ n -> Zpos (digits2_pos p) = n.
Proof.
  intros [Hl Hu]. pose proof (digits2_pos_bounds p) as [Bl Bu].
  set (d := Zpos (digits2_pos p)) in *.
  assert (0 < d) by (unfold d; lia).
  assert (0 < n).
  { destruct (Z.ltb_spec 0 n); [assumption|]. 
    assert (2 ^ n <= 1).
    { destruct (Z.eqb_spec n 0) as [->|]; [cbn; lia|]. rewrite Z.pow_neg_r by lia. lia. }
    lia. }
  destruct (Z.lt_trichotomy d n) as [Hlt|[Heq|Hgt]]; [|assumption|].
  - assert (2 ^ d <= 2 ^ (n - 1)) by (apply Z.pow_le_mono_r; lia). lia.
  - assert (2 ^ n <= 2 ^ (d - 1)) by (apply Z.pow_le_mono_r; lia). lia.
Qed.

Lemma shr_1_m (mrs : shr_record) :
  0 <= shr_m mrs -> shr_m (shr_1 mrs) = shr_m mrs / 2.
Proof.
  destruct mrs as [m r s]. cbn [shr_m]. intros H.
  destruct m as [|[p|p|]|p]; cbn [shr_1 shr_m]; try lia;
    Z.div_mod_to_equations; lia.
Qed.

Lemma iter_shr_1_m (p : positive) (mrs : shr_record) :
  0 <= shr_m mrs -> shr_m (iter_pos shr_1 p mrs) = shr_m mrs / 2 ^ Zpos p.
Proof.
  revert mrs. induction p as [p IH|p IH|]; intros mrs H; cbn [iter_pos].
  - assert (0 <= shr_m (shr_1 mrs)) as H1 by (rewrite shr_1_m by lia; apply Z.div_pos; lia).
    assert (0 <= shr_m (iter_pos shr_1 p (shr_1 mrs))) as H2
      by (rewrite IH by lia; apply Z.div_pos; [lia | apply Z.pow_pos_nonneg; lia]).
    rewrite IH, IH, shr_1_m by lia.
    rewrite !Z.div_div by (try lia; apply Z.pow_pos_nonneg; lia).
    f_equal. assert (Zpos p~1 = 1 + Zpos p + Zpos p) as -> by lia.
    rewrite !Z.pow_add_r by lia. lia.
  - assert (0 <= shr_m (iter_pos shr_1 p mrs)) as H2
      by (rewrite IH by lia; apply Z.div_pos; [lia | apply Z.pow_pos_nonneg; lia]).
    rewrite IH, IH by lia.
    rewrite !Z.div_div by (try lia; apply Z.pow_pos_nonneg; lia).
    f_equal. assert (Zpos p~0 = Zpos p + Zpos p) as -> by lia.
    rewrite !Z.pow_add_r by lia. lia.
  - rewrite shr_1_m by lia. reflexivity.
Qed.

Lemma shr_record_of_loc_m (m : Z) (l : location) : shr_m (shr_record_of_loc m l) = m.
Proof. destruct l as [|[]]; reflexivity. Qed.

Lemma loc_of_shr_record_of_loc (m : Z) (l : location) :
  loc_of_shr_record (shr_record_of_loc m l) = l.
Proof. destruct l as [|[]]; reflexivity. Qed.

Lemma fexp_53 (x : Z) : -1021 <= x -> fexp 53 1024 x = x - 53.
Proof. unfold fexp, emin. lia. Qed.

Lemma shr_fexp_spec (m e : Z) (l : location) :
  0 < m -> 53 <= Zdigits2 m -> -1021 <= Zdigits2 m + e ->
  exists mrs,
    shr_fexp 53 1024 m e l = (mrs, e + (Zdigits2 m - 53)) /\
    shr_m mrs = m / 2 ^ (Zdigits2 m - 53) /\
    (Zdigits2 m = 53 -> mrs = shr_record_of_loc m l).
Proof.
  intros Hm Hd He. unfold shr_fexp. rewrite fexp_53 by lia.
  replace (Zdigits2 m + e - 53 - e) with (Zdigits2 m - 53) by lia.
  destruct (Zdigits2 m - 53) as [|n|n] eqn:En; [| |lia].
  - exists (shr_record_of_loc m l). cbn [shr]. split; [f_equal; lia|].
    split; [|reflexivity]. rewrite shr_record_of_loc_m. cbn. now rewrite Z.div_1_r.
  - eexists. cbn [shr]. split; [reflexivity|]. split; [|lia].
    rewrite iter_shr_1_m by (rewrite shr_record_of_loc_m; lia).
    now rewrite shr_record_of_loc_m.
Qed.

Lemma round_nearest_even_bounds (m : Z) (l : location) :
  m <= round_nearest_even m l <= m + 1.
Proof.
  unfold round_nearest_even. destruct l as [|[]]; try destruct (Z.even m); lia.
Qed.

Lemma Zdigits2_bounds (m : Z) :
  0 < m -> 2 ^ (Zdigits2 m - 1) <= m < 2 ^ Zdigits2 m.
Proof. destruct m as [|p|p]; try lia. intros _. apply digits2_pos_bounds. Qed.

Lemma Zdigits2_unique (m n : Z) : 2 ^ (n - 1) <= m < 2 ^ n -> 0 < m -> Zdigits2 m = n.
Proof. destruct m as [|p|p]; try lia. intros H _. now apply digits2_pos_unique. Qed.

Lemma top_bits (m : Z) :
  0 < m -> 53 <= Zdigits2 m -> 2 ^ 52 <= m / 2 ^ (Zdigits2 m - 53) < 2 ^ 53.
Proof.
  intros Hm Hd. pose proof (Zdigits2_bounds m Hm) as [Bl Bu].
  set (d := Zdigits2 m) in *.
  assert (0 < 2 ^ (d - 53)) as Hp by (apply Z.pow_pos_nonneg; lia).
  assert (2 ^ (d - 1) = 2 ^ 52 * 2 ^ (d - 53)) as E1
    by (rewrite <- Z.pow_add_r by lia; f_equal; lia).
  assert (2 ^ d = 2 ^ 53 * 2 ^ (d - 53)) as E2
    by (rewrite <- Z.pow_add_r by lia; f_equal; lia).
  split.
  - apply Z.div_le_lower_bound; lia.
  - apply Z.div_lt_upper_bound; lia.
Qed.

Lemma binary_round_aux_spec (s : bool) (M E : Z) (l : location) :
  0 < M -> 53 <= Zdigits2 M -> -1021 <= Zdigits2 M + E -> Zdigits2 M + E <= 1023 ->
  exists m1 e1,
    binary_round_aux 53 1024 s M E l = S754_finite s m1 e1 /\
    2 ^ 52 <= Zpos m1 < 2 ^ 53 /\
    ((e1 = E + (Zdigits2 M - 53) /\
      M / 2 ^ (Zdigits2 M - 53) <= Zpos m1 <= M / 2 ^ (Zdigits2 M - 53) + 1) \/
     (e1 = E + (Zdigits2 M - 53) + 1 /\ Zpos m1 = 2 ^ 52 /\
      M / 2 ^ (Zdigits2 M - 53) = 2 ^ 53 - 1)) /\
    (l = loc_Exact -> Zdigits2 M = 53 -> Zpos m1 = M /\ e1 = E).
Proof.
  intros HM HD Hlo Hhi. unfold binary_round_aux.
  destruct (shr_fexp_spec M E l HM HD Hlo) as (mrs & -> & Hm & Hex).
  pose proof (top_bits M HM HD) as HT.
  pose proof (Zdigits2_bounds M HM) as HB.
  set (T := M / 2 ^ (Zdigits2 M - 53)) in *.
  set (e := E + (Zdigits2 M - 53)) in *.
  pose proof (round_nearest_even_bounds (shr_m mrs) (loc_of_shr_record mrs)) as Hr.
  set (m1 := round_nearest_even (shr_m mrs) (loc_of_shr_record mrs)) in *.
  rewrite Hm in Hr.
  assert (l = loc_Exact -> Zdigits2 M = 53 -> m1 = M) as Hexact.
  { intros -> Hd. unfold m1. rewrite (Hex Hd). reflexivity. }
  clearbody m1.
  assert (m1 < 2 ^ 53 \/ m1 = 2 ^ 53) as [Hlt|Heq] by lia.
  - assert (Zdigits2 m1 = 53) as Hd1 by (apply Zdigits2_unique; lia).
    destruct (shr_fexp_spec m1 e loc_Exact) as (mrs2 & -> & Hm2 & Hex2); [lia|lia|lia|].
    rewrite Hd1 in Hm2 |- *. change (2 ^ (53 - 53)) with 1 in Hm2. rewrite Z.div_1_r in Hm2.
    rewrite Hm2. destruct m1 as [|p|p]; try lia.
    destruct (Z.leb_spec (e + (53 - 53)) (1024 - 53)); [|lia].
    exists p, (e + (53 - 53)). split; [reflexivity|]. split; [lia|]. split.
    + left. lia.
    + intros Hl Hd. split; [exact (Hexact Hl Hd) | unfold e; lia].
  - assert (Zdigits2 m1 = 54) as Hd1 by (apply Zdigits2_unique; lia).
    destruct (shr_fexp_spec m1 e loc_Exact) as (mrs2 & -> & Hm2 & Hex2); [lia|lia|lia|].
    rewrite Hd1 in Hm2 |- *. rewrite Heq in Hm2.
    change (2 ^ 53 / 2 ^ (54 - 53)) with (Zpos (2 ^ 52)) in Hm2. rewrite Hm2.
    destruct (Z.leb_spec (e + (54 - 53)) (1024 - 53)); [|lia].
    exists (2 ^ 52)%positive, (e + (54 - 53)). split; [reflexivity|]. split; [lia|]. split.
    + right. split; [lia|]. split; [reflexivity|]. lia.
    + intros Hl Hd. specialize (Hexact Hl Hd). rewrite Hd in HB. lia.
Qed.

Lemma iter_xO (p k : positive) : Zpos (Pos.iter xO p k) = Zpos p * 2 ^ Zpos k.
Proof.
  induction k as [|k IH] using Pos.peano_ind.
  - cbn. lia.
  - rewrite Pos.iter_succ, Pos2Z.inj_xO, IH, Pos2Z.inj_succ, Z.pow_succ_r by lia. lia.
Qed.

(** The conversion of a positive count below 2^53 is exact. *)
Lemma float_of_nat_spec (n : nat) :
  0 < Z.of_nat n < 2 ^ 53 ->
  exists m,
    float_of_nat n = S754_finite false m (Zdigits2 (Z.of_nat n) - 53) /\
    Zpos m = Z.of_nat n * 2 ^ (53 - Zdigits2 (Z.of_nat n)) /\
    2 ^ 52 <= Zpos m < 2 ^ 53 /\
    1 <= Zdigits2 (Z.of_nat n) <= 53.
Proof.
  intros Hn. unfold float_of_nat. destruct (Z.of_nat n) as [|p|p]; try lia.
  cbn [binary_normalize Zdigits2]. unfold binary_round.
  pose proof (digits2_pos_bounds p) as [Bl Bu].
  set (d := Zpos (digits2_pos p)) in *.
  assert (1 <= d) as Hd1 by (unfold d; lia).
  assert (d <= 53) as Hd53.
  { destruct (Z.leb_spec d 53); [assumption|].
    assert (2 ^ 53 <= 2 ^ (d - 1)) by (apply Z.pow_le_mono_r; lia). lia. }
  rewrite fexp_53 by lia. unfold shl_align.
  assert (2 ^ 52 <= Zpos p * 2 ^ (53 - d) < 2 ^ 53) as Hm.
  { assert (0 < 2 ^ (53 - d)) by (apply Z.pow_pos_nonneg; lia).
    assert (2 ^ 52 = 2 ^ (d - 1) * 2 ^ (53 - d)) as ->
      by (rewrite <- Z.pow_add_r by lia; f_equal; lia).
    assert (2 ^ 53 = 2 ^ d * 2 ^ (53 - d)) as ->
      by (rewrite <- Z.pow_add_r by lia; f_equal; lia).
    nia. }
  destruct (d + 0 - 53 - 0) as [|k|k] eqn:Ek; try lia.
  - assert (d = 53) as Hd by lia. rewrite Hd in Hm. change (2 ^ (53 - 53)) with 1 in Hm.
    destruct (binary_round_aux_spec false (Zpos p) 0 loc_Exact) as (m1 & e1 & -> & Hb & _ & Hex);
      cbn [Zdigits2]; fold d; try lia.
    destruct (Hex eq_refl Hd) as [Hm1 ->]. exists m1.
    rewrite Hd. split; [reflexivity|]. change (2 ^ (53 - 53)) with 1. lia.
  - assert (Zpos (Pos.iter xO p k) = Zpos p * 2 ^ (53 - d)) as Hmz
      by (rewrite iter_xO; do 2 f_equal; lia).
    assert (Zpos (digits2_pos (Pos.iter xO p k)) = 53) as Hdz
      by (apply digits2_pos_unique; rewrite Hmz; exact Hm).
    destruct (binary_round_aux_spec false (Zpos (Pos.iter xO p k)) (d + 0 - 53) loc_Exact)
      as (m1 & e1 & -> & Hb & _ & Hex); cbn [Zdigits2]; try lia.
    destruct (Hex eq_refl Hdz) as [Hm1 ->]. exists m1.
    split; [f_equal; lia|]. lia.
Qed.

Lemma Zdigits2_mono (a b : Z) : 0 < a <= b -> Zdigits2 a <= Zdigits2 b.
Proof.
  intros H. pose proof (Zdigits2_bounds a) as Ha. pose proof (Zdigits2_bounds b) as Hb.
  destruct (Z.leb_spec (Zdigits2 a) (Zdigits2 b)); [assumption|].
  assert (0 <= Zdigits2 b) by (destruct b; cbn; lia).
  assert (2 ^ Zdigits2 b <= 2 ^ (Zdigits2 a - 1)) by (apply Z.pow_le_mono_r; lia). lia.
Qed.

Lemma Zdigits2_ge (m n : Z) : 0 <= n -> 2 ^ n <= m -> n + 1 <= Zdigits2 m.
Proof.
  intros Hn H. assert (0 < m) as Hm by (pose proof (Z.pow_pos_nonneg 2 n); lia).
  pose proof (Zdigits2_bounds m Hm) as [_ Hu].
  destruct (Z.leb_spec (n + 1) (Zdigits2 m)); [assumption|].
  assert (0 <= Zdigits2 m) by (destruct m; cbn; lia).
  assert (2 ^ Zdigits2 m <= 2 ^ n) by (apply Z.pow_le_mono_r; lia). lia.
Qed.

Lemma Zdigits2_le (m n : Z) : 0 < m < 2 ^ n -> Zdigits2 m <= n.
Proof.
  intros H. pose proof (Zdigits2_bounds m) as [Hl _]; [lia|].
  destruct (Z.leb_spec (Zdigits2 m) n); [assumption|].
  assert (0 <= n).
  { destruct (Z.leb_spec 0 n); [assumption|]. rewrite Z.pow_neg_r in H by lia. lia. }
  assert (2 ^ n <= 2 ^ (Zdigits2 m - 1)) by (apply Z.pow_le_mono_r; lia). lia.
Qed.

(** A quotient of counts is at most 1.0. *)
Lemma truediv_le_one (count total : nat) :
  0 < Z.of_nat count <= Z.of_nat total -> Z.of_nat total < 2 ^ 53 ->
  exists m e,
    SFdiv 53 1024 (float_of_nat count) (float_of_nat total) = S754_finite false m e /\
    2 ^ 52 <= Zpos m < 2 ^ 53 /\ -105 <= e /\
    (e <= -53 \/ (e = -52 /\ Zpos m = 2 ^ 52)) /\
    (count = total -> e = -52 /\ Zpos m = 2 ^ 52).
Proof.
  intros Hc Ht.
  destruct (float_of_nat_spec count) as (mc & -> & Emc & Bmc & Bdc); [lia|].
  destruct (float_of_nat_spec total) as (mt & -> & Emt & Bmt & Bdt); [lia|].
  pose proof (Zdigits2_mono _ _ Hc) as Hmono.
  set (dc := Zdigits2 (Z.of_nat count)) in *. set (dt := Zdigits2 (Z.of_nat total)) in *.
  cbn [SFdiv]. unfold SFdiv_core_binary. cbn [Zdigits2 xorb].
  rewrite (digits2_pos_unique mc 53), (digits2_pos_unique mt 53) by assumption.
  rewrite fexp_53 by lia.
  rewrite Z.min_l by lia.
  replace (dc - 53 - (dt - 53) - (53 + (dc - 53) - (53 + (dt - 53)) - 53)) with 53 by lia.
  cbv iota beta. rewrite Z.shiftl_mul_pow2 by lia.
  pose proof (Z_div_mod (Zpos mc * 2 ^ 53) (Zpos mt) eq_refl) as Hdiv.
  destruct (Z.div_eucl (Zpos mc * 2 ^ 53) (Zpos mt)) as [q r]. destruct Hdiv as [Hq Hr].
  set (E := 53 + (dc - 53) - (53 + (dt - 53)) - 53).
  assert (2 ^ 52 <= q) as Hq52.
  { destruct (Z.leb_spec (2 ^ 52) q); [assumption|].
    assert (Zpos mt * (q + 1) <= Zpos mt * 2 ^ 52) by (apply Z.mul_le_mono_nonneg_l; lia).
    lia. }
  assert (q < 2 ^ 54) as Hq54.
  { destruct (Z.ltb_spec q (2 ^ 54)); [assumption|].
    assert (2 ^ 52 * 2 ^ 54 <= Zpos mt * q) by (apply Z.mul_le_mono_nonneg; lia).
    lia. }
  assert (53 <= Zdigits2 q) as HD53 by (apply (Zdigits2_ge q 52); lia).
  assert (Zdigits2 q <= 54) as HD54 by (apply Zdigits2_le; lia).
  assert (0 < 2 ^ (53 - dt)) as Hpt by (apply Z.pow_pos_nonneg; lia).
  destruct (Z.eq_dec dc dt) as [Hd|Hd].
  - assert (E = -53) as HE by (unfold E; lia).
    assert (Zpos mc <= Zpos mt) as Hle by (rewrite Emc, Emt, Hd; nia).
    destruct (Z.eq_dec (Zpos mc) (Zpos mt)) as [Heq|Hne].
    + (* the quotient is exactly one *)
      assert (q = 2 ^ 53 /\ r = 0) as [-> ->].
      { rewrite Heq in Hq.
        assert (Zpos mt * (2 ^ 53 - q) = r) as Hrq by lia.
        destruct (Z.lt_trichotomy q (2 ^ 53)) as [Hlt|[->|Hgt]]; [|lia|].
        - assert (Zpos mt * 1 <= Zpos mt * (2 ^ 53 - q))
            by (apply Z.mul_le_mono_nonneg_l; lia). lia.
        - assert (Zpos mt * (2 ^ 53 - q) <= Zpos mt * (-1))
            by (apply Z.mul_le_mono_nonneg_l; lia). lia. }
      rewrite HE. unfold new_location, new_location_even, new_location_odd.
      destruct (Z.even (Zpos mt)); cbn [Z.eqb];
        (exists (2 ^ 52)%positive, (-52); repeat split; try lia; right; lia).
    + assert (q < 2 ^ 53) as Hq53.
      { destruct (Z.ltb_spec q (2 ^ 53)); [assumption|].
        assert (Zpos mt * 2 ^ 53 <= Zpos mt * q) by (apply Z.mul_le_mono_nonneg_l; lia).
        lia. }
      assert (Zdigits2 q = 53) as HD by (apply Zdigits2_unique; lia).
      destruct (binary_round_aux_spec false q E (new_location (Zpos mt) r))
        as (m1 & e1 & -> & Hb & Hcases & _); try lia.
      exists m1, e1. split; [reflexivity|]. split; [exact Hb|].
      rewrite HD, HE in Hcases.
      split; [lia|]. split; [destruct Hcases as [[-> _]|[-> [-> _]]]; [left|right]; lia|].
      intros Hct. exfalso. apply Hne. rewrite Emc, Emt. unfold dc, dt. rewrite Hct.
      reflexivity.
  - assert (E <= -54) as HE by (unfold E; lia).
    assert (-105 <= E) as HE' by (unfold E; lia).
    destruct (binary_round_aux_spec false q E (new_location (Zpos mt) r))
      as (m1 & e1 & -> & Hb & Hcases & _); try lia.
    exists m1, e1. split; [reflexivity|]. split; [exact Hb|].
    split; [lia|]. split.
    + destruct Hcases as [[-> _]|[-> [-> _]]]; [left; lia|].
      assert (E + (Zdigits2 q - 53) + 1 <= -53 \/ E + (Zdigits2 q - 53) + 1 = -52)
        as [?|?] by lia; [left | right]; lia.
    + intros Hct. exfalso. apply Hd. unfold dc, dt. rewrite Hct. reflexivity.
Qed.

Lemma float_of_nat_100 : float_of_nat 100 = S754_finite false 7036874417766400 (-46).
Proof. reflexivity. Qed.

(** A product of a number that is at most 1.0 with 100.0 is at most 100.0. *)
Lemma mul_100_le_100 (m : positive) (e : Z) :
  2 ^ 52 <= Zpos m < 2 ^ 53 -> -105 <= e ->
  e <= -53 \/ (e = -52 /\ Zpos m = 2 ^ 52) ->
  exists m' e',
    SFmul 53 1024 (S754_finite false m e) (float_of_nat 100) = S754_finite false m' e' /\
    (e' < -46 \/ (e' = -46 /\ Zpos m' <= 7036874417766400)) /\
    (e = -52 -> e' = -46 /\ Zpos m' = 7036874417766400).
Proof.
  intros Hm He Hcases. rewrite float_of_nat_100. cbn [SFmul xorb].
  destruct Hcases as [Hlt|[-> Hm1]].
  - set (M := Zpos (m * 7036874417766400)).
    assert (M = Zpos m * 7036874417766400) as EM by reflexivity.
    assert (2 ^ 104 <= M) as Hlo by lia.
    assert (M < 2 ^ 53 * 7036874417766400) as Hhi by lia.
    assert (105 <= Zdigits2 M) as HD1 by (apply (Zdigits2_ge M 104); lia).
    assert (Zdigits2 M <= 106) as HD2 by (apply Zdigits2_le; lia).
    destruct (binary_round_aux_spec false M (e + -46) loc_Exact)
      as (m1 & e1 & -> & Hb & Hc & _); try lia.
    exists m1, e1. split; [reflexivity|]. split; [|lia].
    assert (Zdigits2 M = 105 \/ Zdigits2 M = 106) as [HD|HD] by lia; rewrite HD in Hc.
    + destruct Hc as [[-> _]|[-> [-> _]]]; [left; lia|].
      assert (e + -46 + (105 - 53) + 1 < -46 \/ e + -46 + (105 - 53) + 1 = -46)
        as [?|?] by lia; [left; lia | right; lia].
    + change (2 ^ (106 - 53)) with (2 ^ 53) in Hc.
      assert (M / 2 ^ 53 < 7036874417766400) as HT
        by (apply Z.div_lt_upper_bound; lia).
      destruct Hc as [[-> Hc]|[_ [_ Hc]]]; [|lia].
      assert (e + -46 + (106 - 53) < -46 \/ e + -46 + (106 - 53) = -46)
        as [?|?] by lia; [left; lia | right; lia].
  - assert (m = (2 ^ 52)%positive) as -> by lia.
    exists 7036874417766400%positive, (-46). repeat split; lia.
Qed.

Lemma SFleb_finite (m1 m2 : positive) (e1 e2 : Z) :
  e1 < e2 \/ (e1 = e2 /\ Zpos m1 <= Zpos m2) ->
  SFleb (S754_finite false m1 e1) (S754_finite false m2 e2) = true.
Proof.
  unfold SFleb, SFcompare. intros [H|[-> H]].
  - apply Z.compare_lt_iff in H. rewrite H. reflexivity.
  - rewrite Z.compare_refl. fold (Pos.compare m1 m2).
    destruct (Pos.compare_spec m1 m2); try reflexivity. lia.
Qed.

(** A percentage of counts below 2^53 is a float from 0.0 to 100.0, 0.0
    when the count is zero and 100.0 when it is the total. *)
Lemma percentage_in_range (count total : nat) :
  (count <= total)%nat -> 0 < Z.of_nat total < 2 ^ 53 ->
  percentage_ok count total (percentage count total).
Proof.
  intros Hc Ht. unfold percentage_ok, percentage. destruct count as [|c].
  - destruct (float_of_nat_spec total Ht) as (mt & -> & _).
    change (float_of_nat 0) with (S754_zero false). rewrite float_of_nat_100.
    cbn [SFdiv SFmul xorb]. repeat split. intros <-. lia.
  - destruct (truediv_le_one (S c) total) as (m & e & -> & Hm & He & Hcases & Hone);
      [lia|lia|].
    destruct (mul_100_le_100 m e Hm He Hcases) as (m' & e' & -> & Hle & Hex).
    split; [reflexivity|]. split; [rewrite float_of_nat_100; now apply SFleb_finite|].
    split; [discriminate|]. intros Heq. destruct (Hone Heq) as [He52 _].
    destruct (Hex He52) as [-> Hm']. rewrite float_of_nat_100. f_equal. lia.
Qed.

End Binary64.

Lemma sum_flags_le (col : list (option bool)) : (sum_flags col <= List.length col)%nat.
Proof. unfold sum_flags. apply filter_length_le. Qed.

(** X13: when the scoring of a loaded patient table of fewer than 2^53
    patients returns, the total is positive and is the number of patients,
    each rule count is the number of rows whose flag is true and is at most
    the total, and each percentage is the float that [(count / total) * 100]
    rounds to: a number from 0.0 to 100.0, never nan, 0.0 when no patient is
    flagged and 100.0 when every patient is. *)
Theorem summary_counts_and_percentages
    (today : Date) (patients : list Patient.t) (observations_df : DataFrame Observation.t)
    (df : DataFrame Scored.t) (s : RiskSummary.t) :
  score_patient_risks today (pd_DataFrame patients) observations_df = Ok (df, s) ->
  (Z.of_nat (List.length patients) < 2 ^ 53)%Z ->
  exists rows,
    df = Frame rows /\
    (0 < RiskSummary.total_patients s)%nat /\
    RiskSummary.total_patients s = List.length patients /\
    RiskSummary.diabetes_risk_count s = sum_flags (map Scored.diabetes_risk rows) /\
    RiskSummary.cardiovascular_risk_count s
    = sum_flags (map Scored.cardiovascular_risk rows) /\
    (RiskSummary.diabetes_risk_count s <= RiskSummary.total_patients s)%nat /\
    (RiskSummary.cardiovascular_risk_count s <= RiskSummary.total_patients s)%nat /\
    RiskSummary.diabetes_risk_percentage s
    = percentage (RiskSummary.diabetes_risk_count s) (RiskSummary.total_patients s) /\
    RiskSummary.cardiovascular_risk_percentage s
    = percentage (RiskSummary.cardiovascular_risk_count s) (RiskSummary.total_patients s) /\
    percentage_ok (RiskSummary.diabetes_risk_count s) (RiskSummary.total_patients s)
      (RiskSummary.diabetes_risk_percentage s) /\
    percentage_ok (RiskSummary.cardiovascular_risk_count s) (RiskSummary.total_patients s)
      (RiskSummary.cardiovascular_risk_percentage s).
Proof.
  destruct patients as [|p ps]; [discriminate|]. cbn [pd_DataFrame]. intros H Hsize.
  pose proof H as H'. apply score_patient_risks_ok in H' as (enriched & obs & _ & -> & -> & Hs).
  destruct (scored_rows_keep_the_patients _ _ _ _ _ H) as [_ Ht].
  exists (scored_rows enriched obs). split; [reflexivity|].
  split; [rewrite Ht; cbn; lia|]. split; [exact Ht|].
  subst s. unfold summary_of in *;
    cbn [RiskSummary.total_patients RiskSummary.diabetes_risk_count
         RiskSummary.cardiovascular_risk_count RiskSummary.diabetes_risk_percentage
         RiskSummary.cardiovascular_risk_percentage] in *.
  set (rows := scored_rows enriched obs) in *.
  pose proof (sum_flags_le (map Scored.diabetes_risk rows)) as Ld.
  pose proof (sum_flags_le (map Scored.cardiovascular_risk rows)) as Lc.
  rewrite length_map in Ld, Lc.
  assert (0 < Z.of_nat (List.length rows) < 2 ^ 53)%Z as Hrange
    by (rewrite Ht in *; cbn [List.length] in *; lia).
  split; [reflexivity|]. split; [reflexivity|]. split; [exact Ld|]. split; [exact Lc|].
  split; [reflexivity|]. split; [reflexivity|].
  split; apply percentage_in_range; assumption.
Qed.

Lemma summary_counts_and_percentages_witness :
  exists rows,
    Frame example_scored = Frame rows /\
    (0 < RiskSummary.total_patients (summary_of example_scored))%nat /\
    RiskSummary.total_patients (summary_of example_scored) = List.length example_patients /\
    RiskSummary.diabetes_risk_count (summary_of example_scored)
    = sum_flags (map Scored.diabetes_risk rows) /\
    RiskSummary.cardiovascular_risk_count (summary_of example_scored)
    = sum_flags (map Scored.cardiovascular_risk rows) /\
    (RiskSummary.diabetes_risk_count (summary_of example_scored)
     <= RiskSummary.total_patients (summary_of example_scored))%nat /\
    (RiskSummary.cardiovascular_risk_count (summary_of example_scored)
     <= RiskSummary.total_patients (summary_of example_scored))%nat /\
    RiskSummary.diabetes_risk_percentage (summary_of example_scored)
    = percentage (RiskSummary.diabetes_risk_count (summary_of example_scored))
        (RiskSummary.total_patients (summary_of example_scored)) /\
    RiskSummary.cardiovascular_risk_percentage (summary_of example_scored)
    = percentage (RiskSummary.cardiovascular_risk_count (summary_of example_scored))
        (RiskSummary.total_patients (summary_of example_scored)) /\
    percentage_ok (RiskSummary.diabetes_risk_count (summary_of example_scored))
      (RiskSummary.total_patients (summary_of example_scored))
      (RiskSummary.diabetes_risk_percentage (summary_of example_scored)) /\
    percentage_ok (RiskSummary.cardiovascular_risk_count (summary_of example_scored))
      (RiskSummary.total_patients (summary_of example_scored))
      (RiskSummary.cardiovascular_risk_percentage (summary_of example_scored)).
Proof.
  apply (summary_counts_and_percentages example_today example_patients
           (pd_DataFrame example_observations)).
  - vm_compute. reflexivity.
  - vm_compute. reflexivity.
Defined.

(** ** The category counts *)

Lemma In_insert_count (y x : string * nat) (l : list (string * nat)) :
  In y (insert_count x l) <-> y = x \/ In y l.
Proof.
  induction l as [|z l IH]; cbn [insert_count].
  - cbn. intuition congruence.
  - destruct (snd x <? snd z)%nat; cbn [In]; [rewrite IH|]; intuition congruence.
Qed.

Lemma In_sorted_counts (y : string * nat) (l : list (string * nat)) :
  In y (fold_right insert_count [] l) <-> In y l.
Proof.
  induction l as [|x l IH]; cbn [fold_right]; [tauto|].
  rewrite In_insert_count, IH. cbn. intuition congruence.
Qed.

Lemma In_value_counts (col : list (option string)) (c : string) (n : nat) :
  In (c, n) (value_counts col) <->
  In c (drop_missing col) /\ n = count_of c (drop_missing col).
Proof.
  unfold value_counts. rewrite In_sorted_counts, in_map_iff. split.
  - intros [v [[= -> <-] Hv]]. apply In_unique in Hv as [Hv _]. auto.
  - intros [Hc ->]. exists c. split; [reflexivity|]. apply In_unique. split; [exact Hc|].
    intros [].
Qed.

Lemma NoDup_fst_insert_count (x : string * nat) (l : list (string * nat)) :
  NoDup (map fst l) -> ~ In (fst x) (map fst l) -> NoDup (map fst (insert_count x l)).
Proof.
  induction l as [|z l IH]; intros Hl Hx; cbn [insert_count].
  - cbn. constructor; [intros [] | constructor].
  - destruct (snd x <? snd z)%nat; cbn [map] in *.
    + inversion Hl as [|? ? Hz Hl']; subst. constructor.
      * intros H. apply in_map_iff in H as [y [Hy H]]. apply In_insert_count in H as [->|H].
        -- apply Hx. left. now rewrite Hy.
        -- apply Hz. rewrite <- Hy. apply in_map, H.
      * apply IH; [exact Hl'|]. intros H. apply Hx. now right.
    + constructor; assumption.
Qed.

Lemma NoDup_fst_value_counts (col : list (option string)) : NoDup (map fst (value_counts col)).
Proof.
  unfold value_counts.
  pose proof (NoDup_unique (drop_missing col) []) as Hnd.
  induction (unique [] (drop_missing col)) as [|v vs IH]; cbn [map fold_right].
  - constructor.
  - inversion Hnd as [|? ? Hv Hvs]; subst. apply NoDup_fst_insert_count; [now apply IH|].
    cbn [fst]. intros H. apply in_map_iff in H as [[c n] [Hc H]]. cbn [fst] in Hc. subst c.
    apply In_sorted_counts, in_map_iff in H as [v' [[= -> _] Hv']]. contradiction.
Qed.

Lemma insert_count_sorted (x : string * nat) (l : list (string * nat)) :
  StronglySorted (fun a b => (snd b <= snd a)%nat) l ->
  StronglySorted (fun a b => (snd b <= snd a)%nat) (insert_count x l).
Proof.
  induction 1 as [|z l Hl IH Hz]; cbn [insert_count].
  - repeat constructor.
  - destruct (Nat.ltb_spec (snd x) (snd z)).
    + constructor; [exact IH|]. apply Forall_forall. intros y Hy.
      apply In_insert_count in Hy as [->|Hy]; [lia|].
      rewrite Forall_forall in Hz. now apply Hz.
    + constructor; [now constructor|]. constructor; [assumption|].
      rewrite Forall_forall in *. intros y Hy. specialize (Hz y Hy). lia.
Qed.

Lemma value_counts_sorted (col : list (option string)) :
  StronglySorted (fun a b => (snd b <= snd a)%nat) (value_counts col).
Proof.
  unfold value_counts. induction (map _ _) as [|x l IH]; cbn [fold_right]; [constructor|].
  now apply insert_count_sorted.
Qed.

Lemma count_of_pos (c : string) (l : list string) : (0 < count_of c l)%nat <-> In c l.
Proof.
  unfold count_of. induction l as [|x l IH]; cbn [filter List.length In]; [lia|].
  destruct (String.eqb_spec c x) as [->|Hne]; cbn [List.length].
  - split; [now left | lia].
  - rewrite IH. split; [now right | intros [H|H]; [congruence | exact H]].
Qed.

Lemma In_drop_missing {A : Type} (col : list (option A)) (a : A) :
  In a (drop_missing col) <-> In (Some a) col.
Proof.
  induction col as [|[b|] col IH]; cbn [drop_missing In]; [tauto| |].
  - rewrite IH. split; intros [H|H]; auto; left; congruence.
  - rewrite IH. split; [now right | intros [H|H]; [discriminate | exact H]].
Qed.

(** X14: when the scoring returns, the category counts of the summary have
    one entry for each category that some row has, and no other: the keys are
    distinct names among "Low Risk", "Moderate Risk" and "High Risk", each
    count is positive and is the number of rows of that category, and the
    larger counts come first. *)
Theorem category_counts_count_the_rows
    (today : Date) (patients_df : DataFrame Patient.t)
    (observations_df : DataFrame Observation.t) (rows : list Scored.t) (s : RiskSummary.t) :
  score_patient_risks today patients_df observations_df = Ok (Frame rows, s) ->
  NoDup (map fst (RiskSummary.risk_category_counts s)) /\
  StronglySorted (fun a b => (snd b <= snd a)%nat) (RiskSummary.risk_category_counts s) /\
  (forall c n,
     In (c, n) (RiskSummary.risk_category_counts s) <->
     (0 < n)%nat /\ n = count_of c (drop_missing (map Scored.risk_category rows))) /\
  Forall (fun cn => fst cn = "Low Risk" \/ fst cn = "Moderate Risk" \/ fst cn = "High Risk")
         (RiskSummary.risk_category_counts s).
Proof.
  intros H. apply score_patient_risks_ok in H as (enriched & obs & _ & _ & Hd & ->).
  injection Hd as ->. unfold summary_of; cbn [RiskSummary.risk_category_counts].
  split; [apply NoDup_fst_value_counts|]. split; [apply value_counts_sorted|]. split.
  - intros c n. rewrite In_value_counts. split.
    + intros [Hc ->]. split; [now apply count_of_pos | reflexivity].
    + intros [Hn ->]. split; [now apply count_of_pos | reflexivity].
  - apply Forall_forall. intros [c n] Hc. cbn [fst].
    apply In_value_counts in Hc as [Hc _]. apply In_drop_missing, in_map_iff in Hc.
    destruct Hc as [r [Hcat Hr]]. unfold scored_rows in Hr.
    apply in_map_iff in Hr as [p [<- _]]. unfold Scored.risk_category in Hcat.
    cbn [Scored.risk] in Hcat. destruct (find _ _) as [rr|] eqn:E; [|discriminate].
    apply find_some in E as [Hin _]. unfold risk_rows in Hin.
    apply in_map_iff in Hin as [l [<- _]]. unfold classify_row in Hcat.
    cbn [RiskRow.risk_category] in Hcat.
    destruct (ge_threshold (LabRow.hba1c_value l) _),
      (ge_threshold (LabRow.cholesterol_value l) _); cbn in Hcat; injection Hcat as <-; auto.
Qed.

Lemma category_counts_count_the_rows_witness :
  NoDup (map fst (RiskSummary.risk_category_counts (summary_of example_scored))) /\
  StronglySorted (fun a b => (snd b <= snd a)%nat)
    (RiskSummary.risk_category_counts (summary_of example_scored)) /\
  (forall c n,
     In (c, n) (RiskSummary.risk_category_counts (summary_of example_scored)) <->
     (0 < n)%nat /\ n = count_of c (drop_missing (map Scored.risk_category example_scored))) /\
  Forall (fun cn => fst cn = "Low Risk" \/ fst cn = "Moderate Risk" \/ fst cn = "High Risk")
         (RiskSummary.risk_category_counts (summary_of example_scored)).
Proof.
  apply (category_counts_count_the_rows example_today (pd_DataFrame example_patients)
           (pd_DataFrame example_observations)).
  vm_compute. reflexivity.
Defined.

(** ** The high-risk report *)

Lemma insert_scored_perm (x : Scored.t) (l : list Scored.t) :
  Permutation (insert_scored x l) (x :: l).
Proof.
  induction l as [|y l IH]; cbn [insert_scored]; [reflexivity|].
  destruct (score_ltb x y); [|reflexivity].
  rewrite IH. apply perm_swap.
Qed.

Lemma sort_by_score_desc_perm (l : list Scored.t) : Permutation (sort_by_score_desc l) l.
Proof.
  induction l as [|x l IH]; cbn [sort_by_score_desc fold_right]; [reflexivity|].
  fold (sort_by_score_desc l). rewrite insert_scored_perm. now constructor.
Qed.

Lemma score_gt_0_positive (r : Scored.t) : score_gt_0 r = true <-> has_positive_score r.
Proof.
  unfold score_gt_0, has_positive_score. destruct (Scored.risk_score r) as [x|].
  - rewrite Z.ltb_lt. split; [eauto | intros [y [[= <-] H]]; exact H].
  - split; [discriminate | intros [y [H _]]; discriminate].
Qed.

Lemma insert_scored_sorted (x : Scored.t) (l : list Scored.t) :
  has_positive_score x -> Forall has_positive_score l ->
  StronglySorted score_not_below l -> StronglySorted score_not_below (insert_scored x l).
Proof.
  intros [sx [Hx _]] Hall Hs. induction Hs as [|y l Hl IH Hy]; cbn [insert_scored].
  - repeat constructor.
  - inversion Hall as [|? ? [sy [Hsy _]] Hall']; subst.
    unfold score_ltb. rewrite Hx, Hsy. destruct (Z.ltb_spec sx sy).
    + constructor; [now apply IH|]. apply Forall_forall. intros z Hz.
      apply In_insert_scored in Hz as [->|Hz].
      * intros a b Ha Hb. rewrite Hsy in Ha. rewrite Hx in Hb.
        injection Ha as <-. injection Hb as <-. lia.
      * rewrite Forall_forall in Hy. now apply Hy.
    + constructor; [now constructor|]. constructor.
      * intros a b Ha Hb. rewrite Hx in Ha. rewrite Hsy in Hb.
        injection Ha as <-. injection Hb as <-. lia.
      * rewrite Forall_forall in *. intros z Hz a b Ha Hb.
        rewrite Hx in Ha. injection Ha as <-.
        specialize (Hy z Hz sy b Hsy Hb). lia.
Qed.

Lemma sort_by_score_desc_sorted (l : list Scored.t) :
  Forall has_positive_score l -> StronglySorted score_not_below (sort_by_score_desc l).
Proof.
  induction 1 as [|x l Hx Hl IH]; cbn [sort_by_score_desc fold_right]; [constructor|].
  fold (sort_by_score_desc l). apply insert_scored_sorted; [exact Hx| |exact IH].
  apply Forall_forall. intros z Hz. apply -> In_sort_by_score_desc in Hz.
  rewrite Forall_forall in Hl. now apply Hl.
Qed.

Lemma filter_score_gt_0_positive (rows : list Scored.t) :
  Forall has_positive_score (filter score_gt_0 rows).
Proof.
  apply Forall_forall. intros r Hr. apply filter_In in Hr as [_ Hr].
  now apply score_gt_0_positive.
Qed.

(** X15: on a table with columns the high-risk filter returns a
    rearrangement of exactly the rows whose score is present and positive,
    each as often as it occurs, ordered so that no row comes before a row of
    a greater score; on a table without columns it raises the KeyError of
    [risk_score]. *)
Theorem high_risk_filter_keeps_and_orders_positive_scores (rows : list Scored.t) :
  (exists high,
     filter_high_risk_patients (Frame rows) = Ok (Frame high) /\
     Permutation high (filter score_gt_0 rows) /\
     Forall has_positive_score high /\
     StronglySorted score_not_below high) /\
  filter_high_risk_patients (@NoColumns Scored.t) = Raise (KeyError "risk_score").
Proof.
  split; [|reflexivity].
  exists (sort_by_score_desc (filter score_gt_0 rows)). split; [reflexivity|].
  split; [apply sort_by_score_desc_perm|]. split.
  - apply Forall_forall. intros r Hr. apply -> In_sort_by_score_desc in Hr.
    pose proof (filter_score_gt_0_positive rows) as H. rewrite Forall_forall in H.
    now apply H.
  - apply sort_by_score_desc_sorted, filter_score_gt_0_positive.
Qed.

Lemma scored_row_cases (enriched : list Enriched.t) (observations : list Observation.t)
    (r : Scored.t) :
  In r (scored_rows enriched observations) ->
  Scored.risk r = None \/
  exists d c,
    Scored.diabetes_risk r = Some d /\ Scored.cardiovascular_risk r = Some c /\
    Scored.risk_score r = Some (Z.b2z d + Z.b2z c)%Z /\
    Scored.risk_category r = map_dict risk_categories (Z.b2z d + Z.b2z c)%Z.
Proof.
  unfold scored_rows. intros Hr. apply in_map_iff in Hr as [p [<- _]].
  unfold Scored.diabetes_risk, Scored.cardiovascular_risk, Scored.risk_score,
    Scored.risk_category. cbn [Scored.risk].
  destruct (find _ _) as [rr|] eqn:E; [right | now left].
  apply find_some in E as [Hin _]. unfold risk_rows in Hin.
  apply in_map_iff in Hin as [l [<- _]]. unfold classify_row. cbn [option_map
    RiskRow.diabetes_risk RiskRow.cardiovascular_risk RiskRow.risk_score
    RiskRow.risk_category].
  eexists _, _. split; [reflexivity|]. split; [reflexivity|].
  destruct (ge_threshold (LabRow.hba1c_value l) _),
    (ge_threshold (LabRow.cholesterol_value l) _); split; reflexivity.
Qed.

(** X16: whenever the scoring returns, the report returns with the same
    summary; it holds exactly the rows for which at least one rule has
    fired, every one of them of score 1 and category "Moderate Risk" or of
    score 2 and category "High Risk" (never "Low Risk"), the rows of score 2
    first, and it has at most as many rows as there are patients. *)
Theorem report_holds_the_patients_with_a_triggered_rule
    (today : Date) (patients_df : DataFrame Patient.t)
    (observations_df : DataFrame Observation.t) (rows : list Scored.t) (s : RiskSummary.t) :
  score_patient_risks today patients_df observations_df = Ok (Frame rows, s) ->
  exists high,
    generate_reports today patients_df observations_df = Ok (Frame high, s) /\
    (forall r, In r high <->
       In r rows /\ (Scored.diabetes_risk r = Some true
                     \/ Scored.cardiovascular_risk r = Some true)) /\
    Forall (fun r =>
        (Scored.risk_score r = Some 1%Z /\ Scored.risk_category r = Some "Moderate Risk") \/
        (Scored.risk_score r = Some 2%Z /\ Scored.risk_category r = Some "High Risk"))
      high /\
    StronglySorted score_not_below high /\
    (List.length high <= RiskSummary.total_patients s)%nat.
Proof.
  intros H. unfold generate_reports. rewrite H. cbn [bind fst snd filter_high_risk_patients
    column].
  apply score_patient_risks_ok in H as (enriched & obs & _ & _ & Hd & ->).
  injection Hd as ->. set (rows := scored_rows enriched obs).
  eexists. split; [reflexivity|].
  assert (forall r, In r rows ->
            (score_gt_0 r = true <->
             Scored.diabetes_risk r = Some true \/ Scored.cardiovascular_risk r = Some true))
    as Hgt.
  { intros r Hr. destruct (scored_row_cases _ _ _ Hr) as [Hn|(d & c & Hd & Hc & Hs & _)].
    - unfold score_gt_0, Scored.risk_score, Scored.diabetes_risk,
        Scored.cardiovascular_risk. rewrite Hn. cbn.
      split; [discriminate | intros [?|?]; discriminate].
    - unfold score_gt_0. rewrite Hs, Hd, Hc.
      destruct d, c; cbn; (split; intros H; [try discriminate; auto | try reflexivity]);
        destruct H; discriminate. }
  split; [|split; [|split]].
  - intros r. rewrite In_sort_by_score_desc, filter_In. split.
    + intros [Hr Hs]. split; [exact Hr | now apply Hgt].
    + intros [Hr Hs]. split; [exact Hr | now apply Hgt].
  - apply Forall_forall. intros r Hr. apply -> In_sort_by_score_desc in Hr.
    apply filter_In in Hr as [Hr Hs].
    destruct (scored_row_cases _ _ _ Hr) as [Hn|(d & c & _ & _ & Hsc & Hcat)].
    + unfold score_gt_0, Scored.risk_score in Hs. rewrite Hn in Hs. discriminate.
    + unfold score_gt_0 in Hs. rewrite Hsc in Hs. rewrite Hsc, Hcat.
      destruct d, c; cbn in *; auto; discriminate.
  - apply sort_by_score_desc_sorted, filter_score_gt_0_positive.
  - unfold summary_of; cbn [RiskSummary.total_patients].
    rewrite (Permutation_length (sort_by_score_desc_perm _)). apply filter_length_le.
Qed.

Lemma report_holds_the_patients_with_a_triggered_rule_witness :
  exists high,
    generate_reports example_today (pd_DataFrame example_patients)
      (pd_DataFrame example_observations)
    = Ok (Frame high, summary_of example_scored) /\
    (forall r, In r high <->
       In r example_scored /\ (Scored.diabetes_risk r = Some true
                               \/ Scored.cardiovascular_risk r = Some true)) /\
    Forall (fun r =>
        (Scored.risk_score r = Some 1%Z /\ Scored.risk_category r = Some "Moderate Risk") \/
        (Scored.risk_score r = Some 2%Z /\ Scored.risk_category r = Some "High Risk"))
      high /\
    StronglySorted score_not_below high /\
    (List.length high <= RiskSummary.total_patients (summary_of example_scored))%nat.
Proof.
  apply (report_holds_the_patients_with_a_triggered_rule example_today
           (pd_DataFrame example_patients) (pd_DataFrame example_observations)).
  vm_compute. reflexivity.
Defined.

(** ** The thresholds *)

Lemma ge_threshold_true (v : option Q) (threshold : Q) :
  ge_threshold v threshold = true <-> exists q, v = Some q /\ (threshold <= q)%Q.
Proof.
  unfold ge_threshold. destruct v as [q|].
  - rewrite Qle_bool_iff. split; [eauto | intros [q' [[= <-] H]]; exact H].
  - split; [discriminate | intros [q [H _]]; discriminate].
Qed.

Lemma ge_threshold_monotone (v v' : option Q) (threshold : Q) :
  lab_le v v' -> ge_threshold v threshold = true -> ge_threshold v' threshold = true.
Proof.
  intros Hle H. apply ge_threshold_true in H as [q [-> Hq]].
  destruct v' as [q'|]; [|destruct Hle]. apply ge_threshold_true.
  exists q'. split; [reflexivity|]. exact (Qle_trans _ _ _ Hq Hle).
Qed.

(** X17: in the classifier's output a flag is true exactly when its lab
    value is present and at least the threshold, 6.5 and 240 themselves
    included; and the scoring is monotone: a row whose two lab values are at
    least those of another row (a missing value counting as least) has every
    flag of the other row and at least its score. *)
Theorem flags_follow_the_thresholds_monotonically
    (labs : list LabRow.t) (out : list RiskRow.t) (r r' : RiskRow.t) :
  risk_classifier (Frame labs) = Ok (Frame out) ->
  In r out -> In r' out ->
  (RiskRow.diabetes_risk r = true <->
   exists q, LabRow.hba1c_value (RiskRow.labs r) = Some q /\ (13 # 2 <= q)%Q) /\
  (RiskRow.cardiovascular_risk r = true <->
   exists q, LabRow.cholesterol_value (RiskRow.labs r) = Some q /\ (240 # 1 <= q)%Q) /\
  (lab_le (LabRow.hba1c_value (RiskRow.labs r)) (LabRow.hba1c_value (RiskRow.labs r')) ->
   lab_le (LabRow.cholesterol_value (RiskRow.labs r))
          (LabRow.cholesterol_value (RiskRow.labs r')) ->
   (RiskRow.diabetes_risk r = true -> RiskRow.diabetes_risk r' = true) /\
   (RiskRow.cardiovascular_risk r = true -> RiskRow.cardiovascular_risk r' = true) /\
   (RiskRow.risk_score r <= RiskRow.risk_score r')%Z).
Proof.
  rewrite risk_classifier_rows. intros [= <-] Hr Hr'.
  apply in_map_iff in Hr as [l [<- _]]. apply in_map_iff in Hr' as [l' [<- _]].
  unfold classify_row; cbn [RiskRow.diabetes_risk RiskRow.cardiovascular_risk
    RiskRow.risk_score RiskRow.labs].
  split; [apply ge_threshold_true|]. split; [apply ge_threshold_true|].
  intros Hh Hc.
  pose proof (ge_threshold_monotone _ _ DIABETES_HBA1C_THRESHOLD Hh) as Md.
  pose proof (ge_threshold_monotone _ _ CARDIOVASCULAR_CHOLESTEROL_THRESHOLD Hc) as Mc.
  split; [exact Md|]. split; [exact Mc|].
  destruct (ge_threshold (LabRow.hba1c_value l) _),
    (ge_threshold (LabRow.cholesterol_value l) _);
    rewrite ?Md, ?Mc by reflexivity;
    destruct (ge_threshold (LabRow.hba1c_value l') _),
      (ge_threshold (LabRow.cholesterol_value l') _); lia.
Qed.

Lemma flags_follow_the_thresholds_monotonically_witness :
  let low := LabRow.make "p1" (Some (6 # 1)) None (Some (240 # 1)) None in
  let high := LabRow.make "p2" (Some (13 # 2)) None (Some (250 # 1)) None in
  (RiskRow.diabetes_risk (classify_row low) = true <->
   exists q, LabRow.hba1c_value (RiskRow.labs (classify_row low)) = Some q
             /\ (13 # 2 <= q)%Q) /\
  (RiskRow.cardiovascular_risk (classify_row low) = true <->
   exists q, LabRow.cholesterol_value (RiskRow.labs (classify_row low)) = Some q
             /\ (240 # 1 <= q)%Q) /\
  (lab_le (LabRow.hba1c_value (RiskRow.labs (classify_row low)))
          (LabRow.hba1c_value (RiskRow.labs (classify_row high))) ->
   lab_le (LabRow.cholesterol_value (RiskRow.labs (classify_row low)))
          (LabRow.cholesterol_value (RiskRow.labs (classify_row high))) ->
   (RiskRow.diabetes_risk (classify_row low) = true ->
    RiskRow.diabetes_risk (classify_row high) = true) /\
   (RiskRow.cardiovascular_risk (classify_row low) = true ->
    RiskRow.cardiovascular_risk (classify_row high) = true) /\
   (RiskRow.risk_score (classify_row low) <= RiskRow.risk_score (classify_row high))%Z).
Proof.
  intros low high.
  apply (flags_follow_the_thresholds_monotonically [low; high]
           [classify_row low; classify_row high]).
  - reflexivity.
  - left. reflexivity.
  - right. left. reflexivity.
Defined.

(** ** The order of the date texts *)

Lemma ascii_compare_digit_char (j k : Z) :
  (0 <= j <= 9)%Z -> (0 <= k <= 9)%Z ->
  Ascii.compare (digit_char j) (digit_char k) = (j ?= k)%Z.
Proof.
  intros Hj Hk.
  assert (j = 0 \/ j = 1 \/ j = 2 \/ j = 3 \/ j = 4 \/ j = 5 \/ j = 6 \/ j = 7 \/ j = 8
          \/ j = 9)%Z as Cj by lia.
  assert (k = 0 \/ k = 1 \/ k = 2 \/ k = 3 \/ k = 4 \/ k = 5 \/ k = 6 \/ k = 7 \/ k = 8
          \/ k = 9)%Z as Ck by lia.
  clear Hj Hk.
  repeat destruct Cj as [->|Cj]; try subst j;
    repeat destruct Ck as [->|Ck]; try subst k; reflexivity.
Qed.

Lemma digits_of (n : Z) :
  (0 <= n <= 9999)%Z ->
  exists a b c d,
    (n / 1000 = a /\ n / 100 mod 10 = b /\ n / 10 mod 10 = c /\ n mod 10 = d /\
     n = 1000 * a + 100 * b + 10 * c + d /\
     0 <= a <= 9 /\ 0 <= b <= 9 /\ 0 <= c <= 9 /\ 0 <= d <= 9)%Z.
Proof.
  intros H. eexists _, _, _, _.
  repeat (split; [reflexivity|]). Z.div_mod_to_equations. lia.
Qed.

Lemma two_digits_of (n : Z) :
  (0 <= n <= 99)%Z ->
  exists a b, (n / 10 = a /\ n mod 10 = b /\ n = 10 * a + b /\ 0 <= a <= 9 /\ 0 <= b <= 9)%Z.
Proof.
  intros H. eexists _, _. repeat (split; [reflexivity|]). Z.div_mod_to_equations. lia.
Qed.

(** X18: on the dates of the calendar written as YYYY-MM-DD with zeros, the
    order of the texts, which the resolver sorts by, is the order of the
    calendar: one text is before another exactly when its date is earlier. *)
Theorem iso_text_order_is_calendar_order (a b : Date) :
  calendar_date a -> calendar_date b ->
  (String.ltb (isoformat a) (isoformat b) = true <-> date_lt a b).
Proof.
  destruct a as [y m d], b as [y' m' d'].
  unfold calendar_date, date_lt; cbn [year month day].
  intros (Hy & Hm & Hd) (Hy' & Hm' & Hd').
  pose proof (days_in_month_le_31 y m). pose proof (days_in_month_le_31 y' m').
  destruct (digits_of y) as (y1 & y2 & y3 & y4 & E1 & E2 & E3 & E4 & Ey & B1 & B2 & B3 & B4);
    [lia|].
  destruct (digits_of y') as
    (z1 & z2 & z3 & z4 & F1 & F2 & F3 & F4 & Ey' & C1 & C2 & C3 & C4); [lia|].
  destruct (two_digits_of m) as (m1 & m2 & G1 & G2 & Em & Bm1 & Bm2); [lia|].
  destruct (two_digits_of m') as (n1 & n2 & G1' & G2' & Em' & Bn1 & Bn2); [lia|].
  destruct (two_digits_of d) as (d1 & d2 & K1 & K2 & Ed & Bd1 & Bd2); [lia|].
  destruct (two_digits_of d') as (e1 & e2 & K1' & K2' & Ed' & Be1 & Be2); [lia|].
  unfold String.ltb, isoformat, two_digits; cbn [year month day String.append String.compare].
  rewrite E1, E2, E3, E4, F1, F2, F3, F4, G1, G2, G1', G2', K1, K2, K1', K2'.
  rewrite !ascii_compare_digit_char by assumption.
  change (Ascii.compare "-" "-") with Eq.
  clear E1 E2 E3 E4 F1 F2 F3 F4 G1 G2 G1' G2' K1 K2 K1' K2' Hy Hm Hd Hy' Hm' Hd'.
  subst y y' m m' d d'.
  destruct (Z.compare_spec y1 z1); [|split; [lia | reflexivity] | split; [discriminate | lia]].
  destruct (Z.compare_spec y2 z2); [|split; [lia | reflexivity] | split; [discriminate | lia]].
  destruct (Z.compare_spec y3 z3); [|split; [lia | reflexivity] | split; [discriminate | lia]].
  destruct (Z.compare_spec y4 z4); [|split; [lia | reflexivity] | split; [discriminate | lia]].
  destruct (Z.compare_spec m1 n1); [|split; [lia | reflexivity] | split; [discriminate | lia]].
  destruct (Z.compare_spec m2 n2); [|split; [lia | reflexivity] | split; [discriminate | lia]].
  destruct (Z.compare_spec d1 e1); [|split; [lia | reflexivity] | split; [discriminate | lia]].
  destruct (Z.compare_spec d2 e2); [|split; [lia | reflexivity] | split; [discriminate | lia]].
  split; [discriminate | lia].
Qed.

Lemma iso_text_order_is_calendar_order_witness :
  String.ltb (isoformat (mkDate 2023 9 30)) (isoformat (mkDate 2023 10 1)) = true <->
  date_lt (mkDate 2023 9 30) (mkDate 2023 10 1).
Proof.
  apply iso_text_order_is_calendar_order;
    unfold calendar_date; vm_compute; intuition discriminate.
Defined.

(** ** From the observations to the flags of a patient *)

Lemma scored_row_labs (enriched : list Enriched.t) (observations : list Observation.t)
    (r : Scored.t) :
  In r (scored_rows enriched observations) ->
  let k := Enriched.patient_id (Scored.patient r) in
  Scored.risk r
  = if has_tracked_lab observations k
    then
      Some (classify_row
              (LabRow.make k
                 (if has_test "hemoglobin a1c" observations k
                  then Latest.value (latest_row k (group_of k "hemoglobin a1c" observations))
                  else None)
                 (if has_test "hemoglobin a1c" observations k
                  then Latest.date (latest_row k (group_of k "hemoglobin a1c" observations))
                  else None)
                 (if has_test "cholesterol" observations k
                  then Latest.value (latest_row k (group_of k "cholesterol" observations))
                  else None)
                 (if has_test "cholesterol" observations k
                  then Latest.date (latest_row k (group_of k "cholesterol" observations))
                  else None)))
    else None.
Proof.
  unfold scored_rows. intros Hr. apply in_map_iff in Hr as [p [<- _]].
  cbn [Scored.risk Scored.patient].
  rewrite find_risk_rows, find_merge_outer, !lookup_latest_of.
  destruct (has_tracked_lab observations (Enriched.patient_id p)); [|reflexivity].
  destruct (has_test "hemoglobin a1c" observations (Enriched.patient_id p)),
    (has_test "cholesterol" observations (Enriched.patient_id p)); reflexivity.
Qed.

Lemma flag_needs_observed_value (k test_name : string) (observations : list Observation.t)
    (threshold : Q) :
  ge_threshold
    (if has_test test_name observations k
     then Latest.value (latest_row k (group_of k test_name observations))
     else None) threshold = true ->
  exists v, observed_value test_name observations k v /\ (threshold <= v)%Q.
Proof.
  intros H. apply ge_threshold_true in H as [q [Hq Hle]].
  destruct (has_test test_name observations k); [|discriminate].
  exists q. split; [now apply latest_row_value_observed | exact Hle].
Qed.

(** X19: a patient is flagged for a rule only on the strength of one of the
    patient's own observations of the rule's test: when the diabetes flag of
    a row is true, some HbA1c observation of that patient has a value of at
    least 6.5, and likewise for cholesterol and 240.  A patient is never
    flagged by an observation of another patient or of another test. *)
Theorem a_flag_rests_on_an_own_observation
    (today : Date) (patients_df : DataFrame Patient.t) (observations : list Observation.t)
    (rows : list Scored.t) (s : RiskSummary.t) (r : Scored.t) :
  score_patient_risks today patients_df (Frame observations) = Ok (Frame rows, s) ->
  In r rows ->
  (Scored.diabetes_risk r = Some true ->
   exists v, observed_value "hemoglobin a1c" observations
               (Enriched.patient_id (Scored.patient r)) v /\ (13 # 2 <= v)%Q) /\
  (Scored.cardiovascular_risk r = Some true ->
   exists v, observed_value "cholesterol" observations
               (Enriched.patient_id (Scored.patient r)) v /\ (240 # 1 <= v)%Q).
Proof.
  intros H Hr. apply score_patient_risks_ok in H as (enriched & obs & _ & Ho & Hd & _).
  injection Ho as <-. injection Hd as ->.
  pose proof (scored_row_labs _ _ _ Hr) as E. cbn zeta in E.
  unfold Scored.diabetes_risk, Scored.cardiovascular_risk. rewrite E.
  destruct (has_tracked_lab observations _); cbn [option_map];
    [|split; discriminate].
  unfold classify_row; cbn [RiskRow.diabetes_risk RiskRow.cardiovascular_risk
    LabRow.hba1c_value LabRow.cholesterol_value].
  split; intros [= Hf]; revert Hf; apply flag_needs_observed_value.
Qed.

Lemma a_flag_rests_on_an_own_observation_witness :
  (Scored.diabetes_risk (example_row_p2 example_observations) = Some true ->
   exists v, observed_value "hemoglobin a1c" example_observations
               (Enriched.patient_id (Scored.patient (example_row_p2 example_observations))) v
             /\ (13 # 2 <= v)%Q) /\
  (Scored.cardiovascular_risk (example_row_p2 example_observations) = Some true ->
   exists v, observed_value "cholesterol" example_observations
               (Enriched.patient_id (Scored.patient (example_row_p2 example_observations))) v
             /\ (240 # 1 <= v)%Q).
Proof.
  apply (a_flag_rests_on_an_own_observation example_today (pd_DataFrame example_patients)
           example_observations example_scored (summary_of example_scored)).
  - vm_compute. reflexivity.
  - right. left. reflexivity.
Defined.

Lemma sole_latest_value (k test_name : string) (observations : list Observation.t)
    (h : Observation.t) (v : Q) :
  In h observations ->
  lower (Observation.code h) = test_name ->
  Observation.patient_id h = k ->
  Observation.value h = Some v ->
  (forall o, In o observations ->
     lower (Observation.code o) = test_name ->
     Observation.patient_id o = k ->
     o = h \/ String.ltb (Observation.date o) (Observation.date h) = true) ->
  has_test test_name observations k = true /\
  Latest.value (latest_row k (group_of k test_name observations)) = Some v.
Proof.
  intros Hh Hc Hk Hv Hsole.
  assert (has_test test_name observations k = true) as Ht
    by (apply has_test_true; exists h; auto).
  split; [exact Ht|].
  destruct (group_of_nonempty _ _ _ Ht) as (h' & g & Eg).
  assert (latest_observation test_name observations k (Observation.date h')
            (Latest.value (latest_row k (group_of k test_name observations)))) as L.
  { apply latest_row_is_latest; [exact Ht|]. rewrite Eg. reflexivity. }
  destruct L as (h0 & before & after & Hobs & Hc0 & Hk0 & Hd0 & Hbefore & Hafter & Hv0).
  assert (In h0 observations) as Hh0 by (rewrite Hobs; apply in_elt).
  destruct (Hsole h0 Hh0 Hc0 Hk0) as [->|Hlt]; [now apply Hv0|].
  rewrite Hobs in Hh. apply in_app_or in Hh as [Hh|[Hh|Hh]].
  - specialize (Hbefore h Hh Hc Hk). rewrite <- Hd0 in Hbefore.
    apply ltb_asym in Hbefore. congruence.
  - subst h0. now apply Hv0.
  - specialize (Hafter h Hh Hc Hk). rewrite <- Hd0 in Hafter. congruence.
Qed.

(** X20: a patient whose latest observation of a test stands alone at its
    date and has a value of at least the threshold is flagged: when every
    other HbA1c observation of the patient has a smaller date than [h] and
    the value of [h] is at least 6.5, the diabetes flag of the patient's row
    is true, and likewise for cholesterol and 240. *)
Theorem the_latest_value_above_the_threshold_flags
    (today : Date) (patients_df : DataFrame Patient.t) (observations : list Observation.t)
    (rows : list Scored.t) (s : RiskSummary.t) (r : Scored.t)
    (h : Observation.t) (v : Q) :
  score_patient_risks today patients_df (Frame observations) = Ok (Frame rows, s) ->
  In r rows ->
  In h observations ->
  Observation.patient_id h = Enriched.patient_id (Scored.patient r) ->
  Observation.value h = Some v ->
  (forall o, In o observations ->
     lower (Observation.code o) = lower (Observation.code h) ->
     Observation.patient_id o = Observation.patient_id h ->
     o = h \/ String.ltb (Observation.date o) (Observation.date h) = true) ->
  (lower (Observation.code h) = "hemoglobin a1c" -> (13 # 2 <= v)%Q ->
   Scored.diabetes_risk r = Some true) /\
  (lower (Observation.code h) = "cholesterol" -> (240 # 1 <= v)%Q ->
   Scored.cardiovascular_risk r = Some true).
Proof.
  intros H Hr Hh Hk Hv Hsole.
  apply score_patient_risks_ok in H as (enriched & obs & _ & Ho & Hd & _).
  injection Ho as <-. injection Hd as ->.
  pose proof (scored_row_labs _ _ _ Hr) as E. cbn zeta in E.
  rewrite has_tracked_lab_tests in E.
  unfold Scored.diabetes_risk, Scored.cardiovascular_risk. rewrite E.
  rewrite <- Hk.
  split; intros Hc Hle;
    destruct (sole_latest_value (Observation.patient_id h) _ observations h v
                Hh Hc eq_refl Hv) as [Ht Hval];
    try (intros o Ho Hco Hko; apply Hsole; [assumption | congruence | assumption]);
    rewrite Ht, ?orb_true_r; cbn [orb option_map]; f_equal;
    unfold classify_row;
    cbn [RiskRow.diabetes_risk RiskRow.cardiovascular_risk
         LabRow.hba1c_value LabRow.cholesterol_value];
    rewrite Hval; apply ge_threshold_true; eauto.
Qed.

Lemma the_latest_value_above_the_threshold_flags_witness :
  (lower (Observation.code
            (example_observation "p2" "Hemoglobin A1c" (Some (7 # 1)) "2023-01-01"))
   = "hemoglobin a1c" ->
   (13 # 2 <= 7 # 1)%Q ->
   Scored.diabetes_risk (example_row_p2 example_observations) = Some true) /\
  (lower (Observation.code
            (example_observation "p2" "Hemoglobin A1c" (Some (7 # 1)) "2023-01-01"))
   = "cholesterol" ->
   (240 # 1 <= 7 # 1)%Q ->
   Scored.cardiovascular_risk (example_row_p2 example_observations) = Some true).
Proof.
  apply (the_latest_value_above_the_threshold_flags example_today
           (pd_DataFrame example_patients) example_observations example_scored
           (summary_of example_scored) (example_row_p2 example_observations)
           (example_observation "p2" "Hemoglobin A1c" (Some (7 # 1)) "2023-01-01")
           (7 # 1)).
  - vm_compute. reflexivity.
  - right. left. reflexivity.
  - left. reflexivity.
  - reflexivity.
  - reflexivity.
  - intros o [<-|[<-|[]]] Hc _; [left; reflexivity | vm_compute in Hc; discriminate].
Defined.
